(** * FleetImporter: a shallow embedding of the AutoPkg processor

    The processor of [FleetImporter/FleetImporter.py] runs three network
    steps in sequence (version probe, existence check, upload) around a few
    string and version comparisons.  This file embeds the processor as
    Rocq functions and proves properties of them.

    Conventions of the embedding.
    - A Python [str] is a Rocq [string]; its characters are the code points
      0..255.  [lower], [strip] and [int] follow Python on that range;
      [int] and [str] keep the interpreter's default limit of 4300 digits.
    - A value decoded by [json.loads] is a [json] tree; objects are
      association lists in document order.  JSON numbers are integers.
    - An exception is a value of [exn]; [except] clauses select by class,
      with Python's subclass relation.
    - Effects are explicit: a method is a function from the output
      variables to an outcome (result or exception, output variables
      afterwards, and the trace of log lines, HTTP requests and file reads
      it produced). *)

From Stdlib Require Import ZArith List Ascii String Decimal DecimalString DecimalPos Lia Bool.
From stdpp Require Import gmap strings.

Import ListNotations.
Local Open Scope Z_scope.
Local Set Warnings "-register-all".

(** ** Data received from the server *)

(** A value as [json.loads] returns it. *)
Inductive json :=
| JNull
| JBool (b : bool)
| JNum (n : Z)
| JStr (s : string)
| JArr (items : list json)
| JObj (fields : list (string * json)).

(** What an HTTP body turns out to be once read: bytes that are not UTF-8,
    or a text together with the value [json.loads] gives for it ([None]
    when [json.loads] raises [JSONDecodeError]). *)
Inductive payload :=
| Undecodable (raw : string)
| Text (text : string) (parsed : option json).

(** ** Exceptions *)

Module Exc.

Inductive exn :=
| ProcessorError (msg : string)
| HTTPError (code : Z) (body : payload)
| URLError
| TimeoutError
| FileNotFoundError
| HTTPException
| JSONDecodeError
| UnicodeDecodeError
| ValueError
| KeyError
| IndexError
| AttributeError
| TypeError.

Inductive exc_class :=
| CException | CProcessorError | COSError | CURLError | CHTTPError
| CTimeoutError | CFileNotFoundError | CHTTPException | CValueError
| CJSONDecodeError
| CUnicodeDecodeError | CLookupError | CKeyError | CIndexError
| CAttributeError | CTypeError.

Definition class_of (e : exn) : exc_class :=
  match e with
  | ProcessorError _ => CProcessorError
  | HTTPError _ _ => CHTTPError
  | URLError => CURLError
  | TimeoutError => CTimeoutError
  | FileNotFoundError => CFileNotFoundError
  | HTTPException => CHTTPException
  | JSONDecodeError => CJSONDecodeError
  | UnicodeDecodeError => CUnicodeDecodeError
  | ValueError => CValueError
  | KeyError => CKeyError
  | IndexError => CIndexError
  | AttributeError => CAttributeError
  | TypeError => CTypeError
  end.

(** The direct base class, as Python and urllib declare it. *)
Definition base (c : exc_class) : option exc_class :=
  match c with
  | CException => None
  | CHTTPError => Some CURLError
  | CURLError => Some COSError
  | CTimeoutError => Some COSError
  | CFileNotFoundError => Some COSError
  | CJSONDecodeError => Some CValueError
  | CUnicodeDecodeError => Some CValueError
  | CKeyError => Some CLookupError
  | CIndexError => Some CLookupError
  | _ => Some CException
  end.

Definition class_eqb (c d : exc_class) : bool :=
  match c, d with
  | CException, CException | CProcessorError, CProcessorError
  | COSError, COSError | CURLError, CURLError | CHTTPError, CHTTPError
  | CTimeoutError, CTimeoutError | CHTTPException, CHTTPException
  | CFileNotFoundError, CFileNotFoundError
  | CValueError, CValueError | CJSONDecodeError, CJSONDecodeError
  | CUnicodeDecodeError, CUnicodeDecodeError | CLookupError, CLookupError
  | CKeyError, CKeyError | CIndexError, CIndexError
  | CAttributeError, CAttributeError | CTypeError, CTypeError => true
  | _, _ => false
  end.

(** [issubclass c d]; the hierarchy is four levels deep. *)
Fixpoint issubclass_upto (fuel : nat) (c d : exc_class) : bool :=
  class_eqb c d ||
  match fuel with
  | O => false
  | S k => match base c with
           | Some b => issubclass_upto k b d
           | None => false
           end
  end.

Definition issubclass := issubclass_upto 4.

(** [except (C1, ..., Cn)] catches [e]. *)
Definition caught (e : exn) (classes : list exc_class) : bool :=
  existsb (issubclass (class_of e)) classes.

End Exc.
Export Exc.

(** ** Results of pure, fallible computations *)

Inductive res (A : Type) :=
| Ok (a : A)
| Raise (e : exn).
Arguments Ok {A} a.
Arguments Raise {A} e.

Definition rbind {A B} (r : res A) (f : A -> res B) : res B :=
  match r with
  | Ok a => f a
  | Raise e => Raise e
  end.

Notation "'let*' x ':=' r 'in' k" := (rbind r (fun x => k))
  (at level 10, x name, r at level 100, k at level 200).
Notation "'let*' ' p ':=' r 'in' k" := (rbind r (fun x => let 'p := x in k))
  (at level 10, p pattern, r at level 100, k at level 200).

(** [try: r except classes: h] *)
Definition rtry {A} (r : res A) (classes : list exc_class) (h : exn -> res A) : res A :=
  match r with
  | Ok a => Ok a
  | Raise e => if caught e classes then h e else Raise e
  end.

(** ** Python strings *)

Module PyStr.

Definition code (c : ascii) : Z := Z.of_N (N_of_ascii c).
Definition chr (n : Z) : ascii := ascii_of_N (Z.to_N n).

Definition between (lo hi n : Z) : bool := (lo <=? n) && (n <=? hi).

(** [str.isspace] on one character, code points 0..255. *)
Definition isspace (c : ascii) : bool :=
  let n := code c in
  between 9 13 n || between 28 32 n || (n =? 133) || (n =? 160).

(** [str.lower] on one character: A-Z, and the Latin-1 capitals
    U+00C0..U+00DE except the multiplication sign U+00D7. *)
Definition lower_char (c : ascii) : ascii :=
  let n := code c in
  if between 65 90 n || (between 192 222 n && negb (n =? 215))
  then chr (n + 32) else c.

Fixpoint lower (s : string) : string :=
  match s with
  | EmptyString => EmptyString
  | String c t => String (lower_char c) (lower t)
  end.

Fixpoint lstrip_by (p : ascii -> bool) (s : string) : string :=
  match s with
  | EmptyString => EmptyString
  | String c t => if p c then lstrip_by p t else s
  end.

Fixpoint rstrip_by (p : ascii -> bool) (s : string) : string :=
  match s with
  | EmptyString => EmptyString
  | String c t =>
      match rstrip_by p t with
      | EmptyString => if p c then EmptyString else String c EmptyString
      | t' => String c t'
      end
  end.

(** [s.strip()] *)
Definition strip (s : string) : string := rstrip_by isspace (lstrip_by isspace s).

(** [s.rstrip(ch)] for a one-character argument. *)
Definition rstrip_char (ch : ascii) (s : string) : string :=
  rstrip_by (Ascii.eqb ch) s.

(** [s.split(sep)] for a one-character separator: never empty. *)
Fixpoint split (sep : ascii) (s : string) : list string :=
  match s with
  | EmptyString => [EmptyString]
  | String c t =>
      if Ascii.eqb c sep then EmptyString :: split sep t
      else match split sep t with
           | [] => [String c EmptyString]
           | w :: ws => String c w :: ws
           end
  end.

(** [needle in hay] *)
Fixpoint contains (needle hay : string) : bool :=
  String.prefix needle hay ||
  match hay with
  | EmptyString => false
  | String _ t => contains needle t
  end.

(** [s[:n]] *)
Definition take (n : nat) (s : string) : string := String.substring 0 n s.

(** The decimal numeral of an integer, as [str(n)] prints it. *)
Definition of_int (n : Z) : string := NilZero.string_of_int (Z.to_int n).

Definition digit (c : ascii) : option Z :=
  let n := code c in if between 48 57 n then Some (n - 48) else None.

(** The digits of an integer literal: decimal digits, single underscores
    allowed between two digits.  [prev] tells whether the previous
    character was a digit. *)
Fixpoint digits (acc : Z) (prev : bool) (s : string) : option Z :=
  match s with
  | EmptyString => if prev then Some acc else None
  | String c t =>
      match digit c with
      | Some d => digits (10 * acc + d) true t
      | None => if Ascii.eqb c "_" && prev then digits acc false t else None
      end
  end.

(** The blanks [int] skips around a number: the ASCII blanks and, past
    U+007F, the spaces U+0085 and U+00A0.  ([str.isspace] also holds for
    U+001C..U+001F, which [int] does not skip.) *)
Definition int_space (c : ascii) : bool :=
  let n := code c in
  between 9 13 n || (n =? 32) || (n =? 133) || (n =? 160).

(** The number of digits of a literal; underscores do not count. *)
Fixpoint count_digits (s : string) : nat :=
  match s with
  | EmptyString => O
  | String c t =>
      match digit c with
      | Some _ => S (count_digits t)
      | None => count_digits t
      end
  end.

(** [sys.get_int_max_str_digits()], the interpreter's default. *)
Definition int_max_str_digits : nat := 4300.

(** [n] has no more digits than the interpreter prints. *)
Definition printable (n : Z) : bool :=
  (String.length (of_int (Z.abs n)) <=? int_max_str_digits)%nat.

(** [str(n)] and [f"{n}"] for an integer: the interpreter raises
    [ValueError] rather than print more digits than its limit. *)
Definition str_int (n : Z) : res string :=
  if printable n then Ok (of_int n) else Raise ValueError.

(** [int(s)]: surrounding blanks, an optional sign, then digits, no more
    of them than the interpreter's limit. *)
Definition int (s : string) : res Z :=
  let body := rstrip_by int_space (lstrip_by int_space s) in
  let '(negative, literal) :=
    match body with
    | EmptyString => (false, body)
    | String c t =>
        if Ascii.eqb c "+" then (false, t)
        else if Ascii.eqb c "-" then (true, t)
        else (false, body)
    end in
  match digits 0 false literal with
  | Some n =>
      if (count_digits literal <=? int_max_str_digits)%nat
      then Ok (if negative then - n else n)
      else Raise ValueError
  | None => Raise ValueError
  end.

End PyStr.

(** [xs[i]] on a list. *)
Definition index {A} (xs : list A) (i : nat) : res A :=
  match nth_error xs i with
  | Some x => Ok x
  | None => Raise IndexError
  end.

(** ** The minimum-version gate *)

Definition FLEET_MINIMUM_VERSION : string := "4.74.0".

(** Lines 258-260 (and 264-266 for the constant): major, minor and the
    optional patch of a dotted version. *)
Definition version_triple (parts : list string) : res (Z * Z * Z) :=
  let* p0 := index parts 0 in
  let* major := PyStr.int p0 in
  let* p1 := index parts 1 in
  let* minor := PyStr.int p1 in
  let* patch := (if (2 <? length parts)%nat
                 then (let* p2 := index parts 2 in PyStr.int p2)
                 else Ok 0) in
  Ok (major, minor, patch).

Definition version_parts (fleet_version : string) : res (list string) :=
  let* head := index (PyStr.split "-" fleet_version) 0 in
  Ok (PyStr.split "." head).

Definition _is_fleet_minimum_supported (fleet_version : string) : res bool :=
  rtry
    (let* parts := version_parts fleet_version in
     let* '(major, minor, patch) := version_triple parts in
     let* '(min_major, min_minor, min_patch) :=
        version_triple (PyStr.split "." FLEET_MINIMUM_VERSION) in
     if major >? min_major then Ok true
     else if (major =? min_major) && (minor >? min_minor) then Ok true
     else if (major =? min_major) && (minor =? min_minor) && (patch >=? min_patch)
          then Ok true
     else Ok false)
    [CValueError; CIndexError]
    (fun _ => Ok true).

(** ** Values decoded from JSON, with Python's operations on them *)

Module Py.

(** [bool(v)] *)
Definition truthy (v : json) : bool :=
  match v with
  | JNull => false
  | JBool b => b
  | JNum n => negb (n =? 0)
  | JStr EmptyString => false
  | JStr _ => true
  | JArr [] => false
  | JArr _ => true
  | JObj [] => false
  | JObj _ => true
  end.

(** [bool(v)] where [v] is [None] or a value. *)
Definition truthy_opt (v : option json) : bool :=
  match v with
  | None => false
  | Some j => truthy j
  end.

Fixpoint assoc (key : string) (fields : list (string * json)) : option json :=
  match fields with
  | [] => None
  | (k, v) :: rest => if String.eqb k key then Some v else assoc key rest
  end.

(** [obj.get(key, default)]: only a dict has [get]. *)
Definition get (obj : json) (key : string) (default : json) : res json :=
  match obj with
  | JObj fields =>
      match assoc key fields with
      | Some v => Ok v
      | None => Ok default
      end
  | _ => Raise AttributeError
  end.

(** [v == s] for a string [s]. *)
Definition eq_str (v : json) (s : string) : bool :=
  match v with
  | JStr t => String.eqb t s
  | _ => false
  end.

(** [v.lower()]: only a str has [lower]. *)
Definition lower (v : json) : res string :=
  match v with
  | JStr s => Ok (PyStr.lower s)
  | _ => Raise AttributeError
  end.

(** [v.split(sep)]: only a str has [split]. *)
Definition split (v : json) (sep : ascii) : res (list string) :=
  match v with
  | JStr s => Ok (PyStr.split sep s)
  | _ => Raise AttributeError
  end.

Fixpoint chars (s : string) : list json :=
  match s with
  | EmptyString => []
  | String c t => JStr (String c EmptyString) :: chars t
  end.

(** [len(v)] *)
Definition len (v : json) : res Z :=
  match v with
  | JStr s => Ok (Z.of_nat (String.length s))
  | JArr items => Ok (Z.of_nat (length items))
  | JObj fields => Ok (Z.of_nat (length fields))
  | _ => Raise TypeError
  end.

(** The items [for x in v] goes through. *)
Definition iter (v : json) : res (list json) :=
  match v with
  | JStr s => Ok (chars s)
  | JArr items => Ok items
  | JObj fields => Ok (map (fun kv => JStr (fst kv)) fields)
  | _ => Raise TypeError
  end.

(** [list(d.keys())] *)
Definition keys (fields : list (string * json)) : json :=
  JArr (map (fun kv => JStr (fst kv)) fields).

(** [type(v)], as it prints. *)
Definition type_repr (v : json) : string :=
  match v with
  | JNull => "<class 'NoneType'>"
  | JBool _ => "<class 'bool'>"
  | JNum _ => "<class 'int'>"
  | JStr _ => "<class 'str'>"
  | JArr _ => "<class 'list'>"
  | JObj _ => "<class 'dict'>"
  end.

(** [h[:16] + '...' if h else 'none']: a truthy value that is not a string
    cannot be sliced and concatenated with a string.  (For a dict the
    interpreter's answer to the slice depends on its version; the statements
    below only use hashes that are strings or count as false.) *)
Definition hash_preview (h : json) : res string :=
  if truthy h then
    match h with
    | JStr s => Ok (PyStr.take 16 s +:+ "...")
    | _ => Raise TypeError
    end
  else Ok "none".

End Py.

(** ** Encoding of text *)

Module Enc.

(** The UTF-8 bytes of one character. *)
Definition utf8_char (c : ascii) : list Z :=
  let n := PyStr.code c in
  if n <? 128 then [n] else [192 + n / 64; 128 + n mod 64].

Fixpoint bytes_to_string (bs : list Z) : string :=
  match bs with
  | [] => EmptyString
  | b :: rest => String (PyStr.chr b) (bytes_to_string rest)
  end.

(** [s.encode()] *)
Fixpoint encode (s : string) : string :=
  match s with
  | EmptyString => EmptyString
  | String c t => bytes_to_string (utf8_char c) +:+ encode t
  end.

Definition hex_digit (n : Z) : ascii :=
  if n <? 10 then PyStr.chr (48 + n) else PyStr.chr (55 + n).

Definition percent (b : Z) : string :=
  String "%" (String (hex_digit (b / 16)) (String (hex_digit (b mod 16)) EmptyString)).

(** Characters [urllib.parse.quote] leaves alone: letters, digits,
    [_.-~] and the default safe character [/]. *)
Definition unquoted (c : ascii) : bool :=
  let n := PyStr.code c in
  PyStr.between 65 90 n || PyStr.between 97 122 n || PyStr.between 48 57 n
  || (n =? 95) || (n =? 46) || (n =? 45) || (n =? 126) || (n =? 47).

(** [urllib.parse.quote(s)] *)
Fixpoint quote (s : string) : string :=
  match s with
  | EmptyString => EmptyString
  | String c t =>
      (if unquoted c then String c EmptyString
       else String.concat EmptyString (map percent (utf8_char c))) +:+ quote t
  end.

End Enc.

(** ** The world outside the processor *)

Definition FLEET_VERSION_TIMEOUT : Z := 30.
Definition FLEET_UPLOAD_TIMEOUT : Z := 900.

Inductive http_method := GET | POST.

Record request := mkRequest {
  req_method : http_method;
  req_url : string;
  req_headers : list (string * string);
  req_data : option string;
  req_timeout : Z
}.

(** *** URLs as [urllib.request.Request] reads them *)

Module Url.

(** [s[-1:] == ch] *)
Fixpoint ends_with (ch : ascii) (s : string) : bool :=
  match s with
  | EmptyString => false
  | String c EmptyString => Ascii.eqb c ch
  | String _ t => ends_with ch t
  end.

(** [s[:-1]] *)
Fixpoint drop_last (s : string) : string :=
  match s with
  | EmptyString => EmptyString
  | String _ EmptyString => EmptyString
  | String c t => String c (drop_last t)
  end.

(** [s[n:]] *)
Fixpoint drop (n : nat) (s : string) : string :=
  match n, s with
  | S k, String _ t => drop k t
  | _, _ => s
  end.

(** [urllib.parse.unwrap]: "<URL:scheme://host/path>" becomes
    "scheme://host/path". *)
Definition unwrap (url : string) : string :=
  let url := PyStr.strip url in
  let url :=
    match url with
    | String "<" t => if ends_with ">" url then PyStr.strip (drop_last t) else url
    | _ => url
    end in
  if String.prefix "URL:" url then PyStr.strip (drop 4 url) else url.

(** [s.rpartition(sep)[0]] when [sep] occurs in [s]. *)
Fixpoint before_last (sep : ascii) (s : string) : option string :=
  match s with
  | EmptyString => None
  | String c t =>
      match before_last sep t with
      | Some head => Some (String c head)
      | None => if Ascii.eqb c sep then Some EmptyString else None
      end
  end.

(** [urllib.parse._splittag]: the URL without its fragment. *)
Definition splittag (url : string) : string :=
  match before_last "#" url with
  | Some path => path
  | None => url
  end.

(** The regular expression [([^/:]+):] matches where [s] starts; [seen]
    tells whether a character of the scheme has been read. *)
Fixpoint scheme_ends (seen : bool) (s : string) : bool :=
  match s with
  | EmptyString => false
  | String c t =>
      if Ascii.eqb c ":" then seen
      else if Ascii.eqb c "/" then false
      else scheme_ends true t
  end.

(** [urllib.parse._splittype] finds a scheme. *)
Definition has_type (url : string) : bool := scheme_ends false url.

(** The setter of [Request.full_url] accepts the URL: unwrapped and
    without its fragment it has a scheme. *)
Definition accepted (url : string) : bool := has_type (splittag (unwrap url)).

End Url.

(** [urllib.request.Request(url, data, headers)], together with the
    timeout [urlopen] is given: the constructor raises [ValueError]
    ("unknown url type") for a URL without scheme. *)
Definition new_request (r : request) : res request :=
  if Url.accepted (req_url r) then Ok r else Raise ValueError.

(** What the server (or the transport) answers to a request. *)
Inductive reply :=
| Responds (status : Z) (body : payload)
| Fails (e : exn).

(** One run sends at most one request of each kind, so the world holds one
    answer for each.  [fs_file] gives the bytes of a regular file,
    [boundary_random] is [hashlib.sha1(os.urandom(16)).hexdigest()] of this
    run, [sha256_hexdigest] is hashlib's digest.  [json_reading] is what
    [json.loads] makes of bytes it decodes by itself in another way than
    [bytes.decode()] does (as UTF-16 or UTF-32, with a signature, with
    lone surrogates). *)
Record world := mkWorld {
  version_reply : reply;
  search_reply : reply;
  upload_reply : reply;
  fs_resolve : string -> string;
  fs_file : string -> option string;
  sha256_hexdigest : string -> string;
  boundary_random : string;
  json_reading : string -> payload
}.

(** What a run does that can be observed from outside. *)
Inductive event :=
| Output (template : string) (args : list json)
| OutputExn (template : string) (e : exn)
| Request (r : request)
| ReadFile (path : string).

(** ** The monad of the processor's methods

    A method reads and writes the output variables [self.env] and leaves a
    trace of events behind; it returns or raises. *)

Record outcome (A : Type) := mkOutcome {
  result : res A;
  env_after : gmap string json;
  trace : list event
}.
Arguments mkOutcome {A} result env_after trace.
Arguments result {A} o.
Arguments env_after {A} o.
Arguments trace {A} o.

Definition M (A : Type) : Type := gmap string json -> outcome A.

Definition pure {A} (a : A) : M A := fun env => mkOutcome (Ok a) env [].

Definition throw {A} (e : exn) : M A := fun env => mkOutcome (Raise e) env [].

Definition lift {A} (r : res A) : M A := fun env => mkOutcome r env [].

(** Run [k] after [o], keeping the events of [o] in front. *)
Definition continue {A B} (o : outcome A) (k : M B) : outcome B :=
  let o' := k (env_after o) in
  mkOutcome (result o') (env_after o') (trace o ++ trace o').

Definition andthen {A B} (m : M A) (f : A -> M B) : M B :=
  fun env =>
    let o := m env in
    match result o with
    | Ok a => continue o (f a)
    | Raise e => mkOutcome (Raise e) (env_after o) (trace o)
    end.

Notation "'let!' x ':=' m 'in' k" := (andthen m (fun x => k))
  (at level 10, x name, m at level 100, k at level 200).
Notation "'let!' ' p ':=' m 'in' k" := (andthen m (fun x => let 'p := x in k))
  (at level 10, p pattern, m at level 100, k at level 200).
Notation "m ';;' k" := (andthen m (fun _ => k))
  (at level 100, k at level 200, right associativity).

Definition emit (ev : event) : M unit := fun env => mkOutcome (Ok tt) env [ev].

(** [self.output(msg)] *)
Definition output (template : string) (args : list json) : M unit :=
  emit (Output template args).

(** [self.env[key] = value] *)
Definition set_env (key : string) (value : json) : M unit :=
  fun env => mkOutcome (Ok tt) (<[key := value]> env) [].

(** [try: m except classes as e: h e] *)
Definition attempt {A} (m : M A) (classes : list exc_class) (h : exn -> M A) : M A :=
  fun env =>
    let o := m env in
    match result o with
    | Ok _ => o
    | Raise e => if caught e classes then continue o (h e) else o
    end.

(** [urllib.request.urlopen(req, timeout=...)]: the request goes out; a
    final status outside 200..299 is raised as [HTTPError]. *)
Definition urlopen (r : request) (answer : reply) : M (Z * payload) :=
  emit (Request r) ;;
  match answer with
  | Responds status body =>
      if PyStr.between 200 299 status then pure (status, body)
      else throw (HTTPError status body)
  | Fails e => throw e
  end.

(** [body.decode()] *)
Definition decode (body : payload) : res string :=
  match body with
  | Undecodable _ => Raise UnicodeDecodeError
  | Text text _ => Ok text
  end.

(** [json.loads(body.decode())] *)
Definition json_loads (body : payload) : res json :=
  match body with
  | Undecodable _ => Raise UnicodeDecodeError
  | Text _ (Some v) => Ok v
  | Text _ None => Raise JSONDecodeError
  end.

(** [open(path, "rb")] and reading it to the end. *)
Definition read_file (w : world) (path : string) : M string :=
  match fs_file w path with
  | Some content => emit (ReadFile path) ;; pure content
  | None => throw FileNotFoundError
  end.

(** ** The processor *)

Record inputs := mkInputs {
  pkg_path : string;
  software_title : string;
  version : string;
  platform : string;
  fleet_api_base : string;
  fleet_api_token : string;
  team_id : Z;
  self_service : bool;
  automatic_install : bool;
  labels_include_any : list string;
  labels_exclude_any : list string;
  install_script : string;
  uninstall_script : string;
  pre_install_query : string;
  post_install_script : string
}.

Definition nonempty {A} (xs : list A) : bool :=
  match xs with
  | [] => false
  | _ => true
  end.

Definition nonblank (s : string) : bool :=
  match s with
  | EmptyString => false
  | _ => true
  end.

(** [_calculate_file_sha256] *)
Definition _calculate_file_sha256 (w : world) (file_path : string) : M string :=
  let! content := read_file w file_path in
  pure (sha256_hexdigest w content).

(** [_get_fleet_version]: [Some v] is the value returned inside the [try],
    [None] stands for falling out of it to the last line. *)
Definition _get_fleet_version (w : world) (fleet_api_base fleet_token : string) : M string :=
  let! inside :=
    attempt
      (let url := fleet_api_base +:+ "/api/v1/fleet/version" in
       let headers := [("Authorization", "Bearer " +:+ fleet_token);
                       ("Accept", "application/json")] in
       let! req := lift (new_request (mkRequest GET url headers None FLEET_VERSION_TIMEOUT)) in
       let! '(status, body) := urlopen req (version_reply w) in
       if status =? 200 then
         let! data := lift (json_loads body) in
         let! version := lift (Py.get data "version" (JStr "")) in
         if Py.truthy version then
           let! parts := lift (Py.split version "-") in
           let! head := lift (index parts 0) in
           pure (Some head)
         else pure None
       else pure None)
      [CHTTPError; CURLError; CJSONDecodeError; CKeyError]
      (fun _ => pure None) in
  match inside with
  | Some v => pure v
  | None => pure FLEET_MINIMUM_VERSION
  end.

(** Lines 317-332: one loop over the candidates; a candidate stops the loop
    when its name equals the title, or equals it ignoring case. *)
Fixpoint match_exact_or_caseless (software_title : string) (titles : list json)
  : M (option json) :=
  match titles with
  | [] => pure None
  | title :: rest =>
      let! title_name := lift (Py.get title "name" (JStr "")) in
      if Py.eq_str title_name software_title then
        let! id := lift (Py.get title "id" JNull) in
        output "Found exact match for '{}' (title_id: {})" [JStr software_title; id] ;;
        pure (Some title)
      else
        let! title_lower := lift (Py.lower title_name) in
        if String.eqb title_lower (PyStr.lower software_title) then
          let! id := lift (Py.get title "id" JNull) in
          output "Found case-insensitive match: '{}' for '{}' (title_id: {})"
                 [title_name; JStr software_title; id] ;;
          pure (Some title)
        else match_exact_or_caseless software_title rest
  end.

(** Lines 336-349: the fuzzy loop. *)
Fixpoint match_fuzzy (software_title : string) (titles : list json) : M (option json) :=
  match titles with
  | [] => pure None
  | title :: rest =>
      let! title_name := lift (Py.get title "name" (JStr "")) in
      let search_lower := PyStr.lower software_title in
      let! title_lower := lift (Py.lower title_name) in
      if PyStr.contains search_lower title_lower
         || PyStr.contains title_lower search_lower then
        let! id := lift (Py.get title "id" JNull) in
        output "Found fuzzy match: '{}' for '{}' (title_id: {})"
               [title_name; JStr software_title; id] ;;
        pure (Some title)
      else match_fuzzy software_title rest
  end.

(** Lines 354-357. *)
Fixpoint log_no_match (software_title : string) (titles : list json) : M unit :=
  match titles with
  | [] => pure tt
  | title :: rest =>
      let! name := lift (Py.get title "name" (JStr "")) in
      output "No match found - searched for '{}', found '{}'" [JStr software_title; name] ;;
      log_no_match software_title rest
  end.

(** Lines 315-349: [matching_title] after both loops. *)
Definition find_matching_title (software_title : string) (software_titles : json)
  : M (option json) :=
  let! titles := lift (Py.iter software_titles) in
  let! first := match_exact_or_caseless software_title titles in
  if negb (Py.truthy_opt first) && Py.truthy software_titles then
    let! fuzzy := match_fuzzy software_title titles in
    match fuzzy with
    | Some title => pure (Some title)
    | None => pure first
    end
  else pure first.

(** The dict an existence hit returns. *)
Definition package_info (ver hash name : json) : json :=
  JObj [("version", ver); ("hash_sha256", hash); ("package_name", name)].

(** Lines 366-395: the loop over the versions array. *)
Fixpoint scan_versions (matching_title : json) (software_title version : string)
    (idx : Z) (versions : list json) : M (option json) :=
  match versions with
  | [] => pure None
  | ver :: rest =>
      let! ver_string :=
        match ver with
        | JObj fields =>
            let! ver_string := lift (Py.get ver "version" (JStr "")) in
            output "  Version {}: '{}' (fields: {})"
                   [JNum (idx + 1); ver_string; Py.keys fields] ;;
            pure (Some ver_string)
        | JStr _ =>
            output "  Version {}: '{}' (string)" [JNum (idx + 1); ver] ;;
            pure (Some ver)
        | _ =>
            output "  Version {}: unexpected type {}"
                   [JNum (idx + 1); JStr (Py.type_repr ver)] ;;
            pure None
        end in
      match ver_string with
      | None => scan_versions matching_title software_title version (idx + 1) rest
      | Some ver_string =>
          if Py.eq_str ver_string version then
            let! hash_sha256 := lift (Py.get matching_title "hash_sha256" JNull) in
            let! preview := lift (Py.hash_preview hash_sha256) in
            output "Package {} {} already exists in Fleet (hash: {})"
                   [JStr software_title; JStr version; JStr preview] ;;
            pure (Some (package_info ver_string hash_sha256 (JStr software_title)))
          else scan_versions matching_title software_title version (idx + 1) rest
      end
  end.

(** Lines 398-410: the title's current software package. *)
Definition check_current_package (matching_title : json) (software_title version : string)
  : M (option json) :=
  let! sw_package := lift (Py.get matching_title "software_package" JNull) in
  if Py.truthy sw_package then
    let! pkg_version := lift (Py.get sw_package "version" (JStr "")) in
    if Py.eq_str pkg_version version then
      let! hash_sha256 := lift (Py.get matching_title "hash_sha256" JNull) in
      let! preview := lift (Py.hash_preview hash_sha256) in
      output "Package {} {} already exists in Fleet as current package (hash: {})"
             [JStr software_title; JStr version; JStr preview] ;;
      let! name := lift (Py.get sw_package "name" (JStr software_title)) in
      pure (Some (package_info pkg_version hash_sha256 name))
    else pure None
  else pure None.

(** Lines 360-415: is the declared version present under the matched title? *)
Definition check_versions (matching_title : json) (software_title version : string)
  : M (option json) :=
  let! versions := lift (Py.get matching_title "versions" (JArr [])) in
  let! in_history :=
    if Py.truthy versions then
      let! n := lift (Py.len versions) in
      let! name := lift (Py.get matching_title "name" JNull) in
      output "Checking {} version(s) for '{}'" [JNum n; name] ;;
      let! items := lift (Py.iter versions) in
      scan_versions matching_title software_title version 0 items
    else pure None in
  match in_history with
  | Some info => pure (Some info)
  | None =>
      let! current := check_current_package matching_title software_title version in
      match current with
      | Some info => pure (Some info)
      | None =>
          let! name := lift (Py.get matching_title "name" JNull) in
          output "Version {} not found for '{}'" [JStr version; name] ;;
          pure None
      end
  end.

(** [_check_existing_package] *)
Definition _check_existing_package (w : world)
    (fleet_api_base fleet_token : string) (team_id : Z)
    (software_title version : string) : M (option json) :=
  attempt
    (let query_param := Enc.quote software_title in
     let! team := lift (PyStr.str_int team_id) in
     let search_url :=
       fleet_api_base
       +:+ "/api/v1/fleet/software/titles?available_for_install=true&team_id="
       +:+ team +:+ "&query=" +:+ query_param in
     let headers := [("Authorization", "Bearer " +:+ fleet_token);
                     ("Accept", "application/json")] in
     let! req :=
       lift (new_request (mkRequest GET search_url headers None FLEET_VERSION_TIMEOUT)) in
     let! '(status, body) := urlopen req (search_reply w) in
     if status =? 200 then
       let! data := lift (json_loads body) in
       let! software_titles := lift (Py.get data "software_titles" (JArr [])) in
       let! n := lift (Py.len software_titles) in
       output "Found {} software title(s) matching '{}'" [JNum n; JStr software_title] ;;
       let! matching_title := find_matching_title software_title software_titles in
       if negb (Py.truthy_opt matching_title) then
         (if Py.truthy software_titles then
            let! titles := lift (Py.iter software_titles) in
            log_no_match software_title titles
          else pure tt) ;;
         pure None
       else
         match matching_title with
         | Some title => check_versions title software_title version
         | None => pure None
         end
     else pure None)
    [CHTTPError; CURLError; CJSONDecodeError; CKeyError]
    (fun e =>
       emit (OutputExn "Warning: Could not check for existing package: {}" e) ;;
       pure None).

(** *** The multipart body of the upload *)

Definition crlf : string := String (PyStr.chr 13) (String (PyStr.chr 10) EmptyString).
Definition dquote : string := String (PyStr.chr 34) EmptyString.

(** [write_field(name, value)]: what it appends to the body. *)
Definition write_field (boundary name value : string) : string :=
  Enc.encode ("--" +:+ boundary +:+ crlf)
  +:+ Enc.encode ("Content-Disposition: form-data; name=" +:+ dquote +:+ name +:+ dquote
                  +:+ crlf +:+ crlf)
  +:+ Enc.encode value
  +:+ crlf.

(** [write_file(name, filename, path)], given the bytes of the file. *)
Definition write_file (boundary name filename content : string) : string :=
  Enc.encode ("--" +:+ boundary +:+ crlf)
  +:+ Enc.encode ("Content-Disposition: form-data; name=" +:+ dquote +:+ name +:+ dquote
                  +:+ "; filename=" +:+ dquote +:+ filename +:+ dquote +:+ crlf)
  +:+ "Content-Type: application/octet-stream" +:+ crlf +:+ crlf
  +:+ content
  +:+ crlf.

Definition optional_field (boundary name value : string) : string :=
  if nonblank value then write_field boundary name value else EmptyString.

Definition label_fields (boundary name : string) (labels : list string) : string :=
  String.concat EmptyString (map (write_field boundary name) labels).

(** [pkg_path.name]: the last component of the path. *)
Definition path_name (path : string) : string :=
  List.last (PyStr.split "/" path) EmptyString.

(** Lines 509-525: the form fields, in the order they are written;
    [team] is [str(team_id)]. *)
Definition form_fields (boundary team : string) (i : inputs) : string :=
  write_field boundary "team_id" team
  +:+ write_field boundary "self_service" (if self_service i then "true" else "false")
  +:+ optional_field boundary "install_script" (install_script i)
  +:+ optional_field boundary "uninstall_script" (uninstall_script i)
  +:+ optional_field boundary "pre_install_query" (pre_install_query i)
  +:+ optional_field boundary "post_install_script" (post_install_script i)
  +:+ (if automatic_install i then write_field boundary "automatic_install" "true"
       else EmptyString)
  +:+ label_fields boundary "labels_include_any" (labels_include_any i)
  +:+ label_fields boundary "labels_exclude_any" (labels_exclude_any i).

Definition labels_error : string :=
  "Only one of labels_include_any or labels_exclude_any may be specified.".

Definition upload_failed (status : Z) (text : string) : string :=
  "Fleet upload failed: " +:+ PyStr.of_int status +:+ " " +:+ text.

(** [json.detect_encoding(b) == 'utf-8']: the bytes start with no
    signature of UTF-32, UTF-16 or UTF-8, and there is no zero byte among
    the first two of exactly two or of four and more. *)
Definition zero_at (n : nat) (b : string) : bool :=
  match String.get n b with
  | Some c => PyStr.code c =? 0
  | None => false
  end.

Definition signatures : list string :=
  map Enc.bytes_to_string
    [[0; 0; 254; 255]; [255; 254; 0; 0]; [254; 255]; [255; 254]; [239; 187; 191]].

Definition detects_utf8 (b : string) : bool :=
  negb (existsb (fun bom => String.prefix bom b) signatures)
  && (if (4 <=? String.length b)%nat || (String.length b =? 2)%nat
      then negb (zero_at 0 b || zero_at 1 b)
      else true).

(** [json.loads(resp_body or b"{}")]: an empty body is read as an empty
    object; [json.loads] is given bytes and decodes them itself, which for
    a text in UTF-8 that it detects as such gives what
    [json.loads(resp_body.decode())] gives. *)
Definition loads_or_empty (w : world) (body : payload) : res json :=
  match body with
  | Undecodable EmptyString | Text EmptyString _ => Ok (JObj [])
  | Undecodable raw => json_loads (json_reading w raw)
  | Text text _ =>
      if detects_utf8 (Enc.encode text) then json_loads body
      else json_loads (json_reading w (Enc.encode text))
  end.

(** [_fleet_upload_package]; [pkg] is the resolved path, the other
    arguments are the fields of [i] that [main] passes on. *)
Definition _fleet_upload_package (w : world) (base_url token pkg : string) (i : inputs)
  : M json :=
  let url := base_url +:+ "/api/v1/fleet/software/package" in
  output "Uploading file to Fleet: {}" [JStr pkg] ;;
  if nonempty (labels_include_any i) && nonempty (labels_exclude_any i) then
    throw (ProcessorError labels_error)
  else
    let boundary := "----FleetUploadBoundary" +:+ boundary_random w in
    let! team := lift (PyStr.str_int (team_id i)) in
    let fields := form_fields boundary team i in
    let! content := read_file w pkg in
    let body :=
      fields +:+ write_file boundary "software" (path_name pkg) content
      +:+ Enc.encode ("--" +:+ boundary +:+ "--" +:+ crlf) in
    let headers := [("Authorization", "Bearer " +:+ token);
                    ("Content-Type", "multipart/form-data; boundary=" +:+ boundary)] in
    let! req :=
      lift (new_request (mkRequest POST url headers (Some body) FLEET_UPLOAD_TIMEOUT)) in
    let! answer :=
      attempt
        (let! '(status, resp_body) := urlopen req (upload_reply w) in
         pure (inl (status, resp_body)))
        [CHTTPError]
        (fun e =>
           match e with
           | HTTPError code err_body =>
               if code =? 409 then
                 output "Package already exists in Fleet (409 Conflict). Exiting gracefully." [] ;;
                 pure (inr (JObj [("package_exists", JBool true)]))
               else
                 let! text := lift (decode err_body) in
                 throw (ProcessorError (upload_failed code text))
           | _ => throw e
           end) in
    match answer with
    | inr marker => pure marker
    | inl (status, resp_body) =>
        if negb (status =? 200) then
          let! text := lift (decode resp_body) in
          throw (ProcessorError (upload_failed status text))
        else lift (loads_or_empty w resp_body)
    end.

(** Lines 208-233 of [main]: what becomes of the upload's answer. *)
Definition report_upload (upload_info : json) : M unit :=
  if negb (Py.truthy upload_info) then
    throw (ProcessorError "Fleet package upload failed; no data returned")
  else
  let! package_exists := lift (Py.get upload_info "package_exists" JNull) in
  if Py.truthy package_exists then
    output "Package already exists in Fleet (409 Conflict). Exiting gracefully." [] ;;
    set_env "fleet_title_id" JNull ;;
    set_env "fleet_installer_id" JNull
  else
  let! software_package := lift (Py.get upload_info "software_package" (JObj [])) in
  let! title_id := lift (Py.get software_package "title_id" JNull) in
  let! installer_id := lift (Py.get software_package "installer_id" JNull) in
  let! hash_sha256 := lift (Py.get software_package "hash_sha256" JNull) in
  output "Package uploaded successfully. Title ID: {}, Installer ID: {}"
         [title_id; installer_id] ;;
  set_env "fleet_title_id" title_id ;;
  set_env "fleet_installer_id" installer_id ;;
  if Py.truthy hash_sha256 then set_env "hash_sha256" hash_sha256 else pure tt.

(** [main], lines 128-206; it ends in [report_upload]. *)
Definition main (w : world) (i : inputs) : M unit :=
  let pkg := fs_resolve w (pkg_path i) in
  match fs_file w pkg with
  | None => throw (ProcessorError ("pkg_path not found: " +:+ pkg))
  | Some _ =>
  let software_title := PyStr.strip (software_title i) in
  let version := PyStr.strip (version i) in
  let fleet_api_base := PyStr.rstrip_char "/" (fleet_api_base i) in
  let fleet_token := fleet_api_token i in
  let team_id := team_id i in
  output "Querying Fleet server version..." [] ;;
  let! fleet_version := _get_fleet_version w fleet_api_base fleet_token in
  output "Detected Fleet version: {}" [JStr fleet_version] ;;
  let! supported := lift (_is_fleet_minimum_supported fleet_version) in
  if negb supported then
    throw (ProcessorError
             ("Fleet version " +:+ fleet_version +:+ " is not supported. "
              +:+ "This processor requires Fleet v" +:+ FLEET_MINIMUM_VERSION
              +:+ " or higher. "
              +:+ "Please upgrade your Fleet server to a supported version."))
  else
  output "Checking if {} {} already exists in Fleet..." [JStr software_title; JStr version] ;;
  let! existing_package :=
    _check_existing_package w fleet_api_base fleet_token team_id software_title version in
  if Py.truthy_opt existing_package then
    output "Package {} {} already exists in Fleet. Skipping upload."
           [JStr software_title; JStr version] ;;
    let! hash_sha256 := _calculate_file_sha256 w pkg in
    output "Calculated SHA-256 hash from local file: {}..." [JStr (PyStr.take 16 hash_sha256)] ;;
    set_env "fleet_title_id" JNull ;;
    set_env "fleet_installer_id" JNull ;;
    set_env "hash_sha256" (JStr hash_sha256)
  else
  output "Uploading package to Fleet..." [] ;;
  let! upload_info := _fleet_upload_package w fleet_api_base fleet_token pkg i in
  report_upload upload_info
  end.

(** A run of the processor: [main] from empty output variables. *)
Definition run (w : world) (i : inputs) : outcome unit := main w i ∅.

(** ** Vocabulary of the statements *)

(** Every character of [s] satisfies [p]. *)
Fixpoint all_chars (p : ascii -> bool) (s : string) : bool :=
  match s with
  | EmptyString => true
  | String c t => p c && all_chars p t
  end.

Definition is_digit (c : ascii) : bool := PyStr.between 48 57 (PyStr.code c).

Definition differs (sep c : ascii) : bool := negb (Ascii.eqb c sep).

(** The order of version triples: major first, then minor, then patch. *)
Definition triple_ge (a b : Z * Z * Z) : Prop :=
  let '(a1, a2, a3) := a in
  let '(b1, b2, b3) := b in
  a1 > b1 \/ (a1 = b1 /\ (a2 > b2 \/ (a2 = b2 /\ a3 >= b3))).

Definition minimum_triple : Z * Z * Z := (4, 74, 0).

(** The triple the gate reads from a version string (lines 257-260). *)
Definition parsed_triple (fleet_version : string) : res (Z * Z * Z) :=
  let* parts := version_parts fleet_version in
  version_triple parts.

(** The decimal numeral of a natural number. *)
Definition numeral (n : N) : string := PyStr.of_int (Z.of_N n).

(** The reading of C4 as it is written: the gate passes "X.Y.Z" exactly
    when (X, Y, Z) is at least the minimum triple. *)
Definition gate_is_lexicographic (x y z : N) : Prop :=
  exists b,
    _is_fleet_minimum_supported (numeral x +:+ "." +:+ numeral y +:+ "." +:+ numeral z)
    = Ok b /\
    (b = true <-> triple_ge (Z.of_N x, Z.of_N y, Z.of_N z) minimum_triple).

(** A string of no more characters than [int] accepts digits. *)
Definition within_digit_limit (s : string) : Prop :=
  (String.length s <=? PyStr.int_max_str_digits)%nat = true.

(** The name of a candidate title as the loops read it: the field [name]
    when it is a string, the empty string when the field is missing. *)
Definition name_of (candidate : json) : option string :=
  match candidate with
  | JObj fields =>
      match Py.assoc "name" fields with
      | Some (JStr n) => Some n
      | Some _ => None
      | None => Some EmptyString
      end
  | _ => None
  end.

(** The candidate's name equals the title ignoring case. *)
Definition caseless_hit (title : string) (candidate : json) : bool :=
  match name_of candidate with
  | Some n => String.eqb (PyStr.lower n) (PyStr.lower title)
  | None => false
  end.

(** The candidate's name equals the title. *)
Definition exact_hit (title : string) (candidate : json) : bool :=
  match name_of candidate with
  | Some n => String.eqb n title
  | None => false
  end.

(** Ignoring case, the title occurs in the candidate's name or the name in
    the title. *)
Definition fuzzy_hit (title : string) (candidate : json) : bool :=
  match name_of candidate with
  | Some n =>
      PyStr.contains (PyStr.lower title) (PyStr.lower n)
      || PyStr.contains (PyStr.lower n) (PyStr.lower title)
  | None => false
  end.

(** The candidate's name field is missing or is the empty string. *)
Definition nameless (candidate : json) : bool :=
  match name_of candidate with
  | Some EmptyString => true
  | _ => false
  end.

(** A candidate title with a name and an id. *)
Definition candidate (name : string) (id : Z) : json :=
  JObj [("name", JStr name); ("id", JNum id)].

(** A JSON document: its text is not inspected by the processor, only the
    value [json.loads] gives for it. *)
Definition document (v : json) : payload := Text "(json)" (Some v).

(** A catalog search answering with the given titles. *)
Definition catalog (titles : list json) : reply :=
  Responds 200 (document (JObj [("software_titles", JArr titles)])).

(** A world whose only package file is [/tmp/Firefox.pkg]. *)
Definition sample_world (version_answer search_answer upload_answer : reply) : world :=
  mkWorld version_answer search_answer upload_answer
    (fun path => path)
    (fun path => if String.eqb path "/tmp/Firefox.pkg" then Some "PKG" else None)
    (fun _ => "2c26b46b68ffc68ff99b453c1d30413413422d706483bfa0f98a5e886266e7ae")
    "da39a3ee5e6b4b0d3255bfef95601890afd80709"
    Undecodable.

Definition sample_inputs (include_any exclude_any : list string) : inputs :=
  mkInputs "/tmp/Firefox.pkg" "Firefox" "1.0" "darwin" "https://fleet.example.com"
    "token" 3 true false include_any exclude_any
    EmptyString EmptyString EmptyString EmptyString.

(** The version probe answering with the given version string. *)
Definition reports_version (v : string) : reply :=
  Responds 200 (document (JObj [("version", JStr v)])).

(** The field [key] of a record, [default] when it is missing. *)
Definition field_or (default : json) (key : string) (fields : list (string * json)) : json :=
  match Py.assoc key fields with
  | Some v => v
  | None => default
  end.

(** The version an entry of the versions list stands for: a bare string is
    its own version, a record stands for its [version] field; entries of
    any other shape stand for none. *)
Definition entry_version (entry : json) : option json :=
  match entry with
  | JStr s => Some (JStr s)
  | JObj fields => Some (field_or (JStr EmptyString) "version" fields)
  | _ => None
  end.

Definition entry_matches (version : string) (entry : json) : bool :=
  match entry_version entry with
  | Some v => Py.eq_str v version
  | None => false
  end.

(** A hash field the log line can show: a string, or a value that counts
    as false (null, missing). *)
Definition printable_hash (h : json) : bool :=
  match h with
  | JStr _ => true
  | _ => negb (Py.truthy h)
  end.

(** The request the version probe sends. *)
Definition version_request (fleet_api_base fleet_token : string) : request :=
  mkRequest GET (fleet_api_base +:+ "/api/v1/fleet/version")
    [("Authorization", "Bearer " +:+ fleet_token); ("Accept", "application/json")]
    None FLEET_VERSION_TIMEOUT.

Definition is_post (ev : event) : bool :=
  match ev with
  | Request r => match req_method r with POST => true | GET => false end
  | _ => false
  end.

Definition is_request (ev : event) : bool :=
  match ev with
  | Request _ => true
  | _ => false
  end.

(** The line [main] logs when it enters the upload step (line 190). *)
Definition upload_step_line : event := Output "Uploading package to Fleet..." [].

(** Events of the upload step: its opening log line and the POST request. *)
Definition upload_event (ev : event) : bool :=
  match ev with
  | Output template _ => String.eqb template "Uploading package to Fleet..."
  | _ => is_post ev
  end.

(** Events that come before the upload step: log lines other than its
    opening line, and GET requests; no file is read. *)
Definition calm (ev : event) : bool :=
  match ev with
  | ReadFile _ => false
  | _ => negb (upload_event ev)
  end.

(** The request the existence check sends. *)
Definition search_request (fleet_api_base fleet_token : string) (team_id : Z)
    (software_title : string) : request :=
  mkRequest GET
    (fleet_api_base
     +:+ "/api/v1/fleet/software/titles?available_for_install=true&team_id="
     +:+ PyStr.of_int team_id +:+ "&query=" +:+ Enc.quote software_title)
    [("Authorization", "Bearer " +:+ fleet_token); ("Accept", "application/json")]
    None FLEET_VERSION_TIMEOUT.

(** The values [main] derives from its inputs (lines 130-141). *)
Definition resolved_path (w : world) (i : inputs) : string := fs_resolve w (pkg_path i).
Definition api_base (i : inputs) : string := PyStr.rstrip_char "/" (fleet_api_base i).
Definition declared_title (i : inputs) : string := PyStr.strip (software_title i).
Definition declared_version (i : inputs) : string := PyStr.strip (version i).

(** The upload step of [main]: lines 191-233. *)
Definition upload_step (w : world) (i : inputs) : M unit :=
  let! upload_info :=
    _fleet_upload_package w (api_base i) (fleet_api_token i) (resolved_path w i) i in
  report_upload upload_info.

(** The request the upload sends, given the bytes of the package file. *)
Definition upload_request (w : world) (base_url token pkg : string) (i : inputs)
    (content : string) : request :=
  let boundary := "----FleetUploadBoundary" +:+ boundary_random w in
  mkRequest POST (base_url +:+ "/api/v1/fleet/software/package")
    [("Authorization", "Bearer " +:+ token);
     ("Content-Type", "multipart/form-data; boundary=" +:+ boundary)]
    (Some (form_fields boundary (PyStr.of_int (team_id i)) i
           +:+ write_file boundary "software" (path_name pkg) content
           +:+ Enc.encode ("--" +:+ boundary +:+ "--" +:+ crlf)))
    FLEET_UPLOAD_TIMEOUT.

(** The log line that opens [_fleet_upload_package] (line 481). *)
Definition upload_file_line (pkg : string) : event :=
  Output "Uploading file to Fleet: {}" [JStr pkg].

Definition conflict_line : event :=
  Output "Package already exists in Fleet (409 Conflict). Exiting gracefully." [].

(** The classes both advisory steps catch (lines 417-422 and 451-456). *)
Definition handled : list exc_class := [CHTTPError; CURLError; CJSONDecodeError; CKeyError].

(** The reading of C10 as it is written: the fuzzy pass selects the first
    candidate whose name is missing or empty. *)
Definition fuzzy_selects_first_nameless (title : string) (titles : list json) : Prop :=
  forall c, find nameless titles = Some c ->
            result (match_fuzzy title titles ∅) = Ok (Some c).

(** The reading of C1 as it is written: the run ends with the
    configuration error and no request has been sent. *)
Definition label_conflict_raised_before_network (w : world) (i : inputs) : Prop :=
  result (run w i) = Raise (ProcessorError labels_error) /\
  existsb is_request (trace (run w i)) = false.

(** A body that is not UTF-8: the single byte 0xFF. *)
Definition not_utf8 : payload := Undecodable (String (PyStr.chr 255) EmptyString).

(** The outcome of [k] with the events [pre] in front of its trace. *)
Definition after {A} (pre : list event) (env : gmap string json) (k : M A) : outcome A :=
  continue (mkOutcome (Ok tt) env pre) k.

(** A method that leaves the output variables alone and produces only
    events from before the upload step. *)
Definition quiet {A} (m : M A) : Prop :=
  forall env, env_after (m env) = env /\ forallb calm (trace (m env)) = true.

(** The first event of a method's trace. *)
Definition starts_with {A} (ev : event) (m : M A) : Prop :=
  forall env, exists rest, trace (m env) = ev :: rest.

(** [x] occurs in [s]. *)
Definition occurs_in (x s : string) : Prop :=
  exists before after, s = before +:+ x +:+ after.

(** ** Vocabulary of the further properties *)

(** Log lines. *)
Definition is_log (ev : event) : bool :=
  match ev with
  | Output _ _ | OutputExn _ _ => true
  | _ => false
  end.

Definition no_event (ev : event) : bool := false.

Definition any_event (ev : event) : bool := true.

(** A method that leaves the output variables alone and produces only
    events that satisfy [P]. *)
Definition only (P : event -> bool) {A} (m : M A) : Prop :=
  forall env, env_after (m env) = env /\ forallb P (trace (m env)) = true.

(** A method that leaves the output variables alone, sends the request
    [req] first and then produces only events that satisfy [P]. *)
Definition request_then (P : event -> bool) (req : request) {A} (m : M A) : Prop :=
  forall env,
    env_after (m env) = env /\
    exists rest, trace (m env) = Request req :: rest /\ forallb P rest = true.

(** Whatever the method returns satisfies [P]. *)
Definition yields {A} (P : A -> Prop) (m : M A) : Prop :=
  forall env a, result (m env) = Ok a -> P a.

(** The requests of a trace, in the order they were sent. *)
Definition requests (events : list event) : list request :=
  flat_map (fun ev => match ev with Request r => [r] | _ => [] end) events.

(** What the existence check may report: nothing, or the record of a hit,
    whose version is the declared one. *)
Definition reported_hit (version : string) (found : option json) : Prop :=
  match found with
  | None => True
  | Some info => exists hash name, info = package_info (JStr version) hash name
  end.

(** Candidates whose names can be read: records whose [name] is a string
    or missing. *)
Definition readable_names (titles : list json) : Prop :=
  Forall (fun c => exists n, name_of c = Some n) titles.

(** The message of the gate's error (lines 160-164). *)
Definition unsupported_message (fleet_version : string) : string :=
  "Fleet version " +:+ fleet_version +:+ " is not supported. "
  +:+ "This processor requires Fleet v" +:+ FLEET_MINIMUM_VERSION
  +:+ " or higher. "
  +:+ "Please upgrade your Fleet server to a supported version.".

(** The outcome of [main], stage by stage: where it stops, with which
    result, which output variables and which trace.  (Lemma [main_unfold]
    proves that this is what [main] computes.) *)
Definition main_shape (w : world) (i : inputs) (env : gmap string json) : outcome unit :=
  let pkg := resolved_path w i in
  match fs_file w pkg with
  | None => mkOutcome (Raise (ProcessorError ("pkg_path not found: " +:+ pkg))) env []
  | Some content =>
      let probe := _get_fleet_version w (api_base i) (fleet_api_token i) env in
      let t1 := Output "Querying Fleet server version..." [] :: trace probe in
      match result probe with
      | Raise e => mkOutcome (Raise e) env t1
      | Ok fleet_version =>
          let t2 := t1 ++ [Output "Detected Fleet version: {}" [JStr fleet_version]] in
          match _is_fleet_minimum_supported fleet_version with
          | Raise e => mkOutcome (Raise e) env t2
          | Ok false =>
              mkOutcome (Raise (ProcessorError (unsupported_message fleet_version))) env t2
          | Ok true =>
              let check :=
                _check_existing_package w (api_base i) (fleet_api_token i) (team_id i)
                  (declared_title i) (declared_version i) env in
              let t3 :=
                t2 ++ Output "Checking if {} {} already exists in Fleet..."
                        [JStr (declared_title i); JStr (declared_version i)]
                   :: trace check in
              match result check with
              | Raise e => mkOutcome (Raise e) env t3
              | Ok existing_package =>
                  if Py.truthy_opt existing_package then
                    let hash := sha256_hexdigest w content in
                    mkOutcome (Ok tt)
                      (<["hash_sha256" := JStr hash]>
                         (<["fleet_installer_id" := JNull]>
                            (<["fleet_title_id" := JNull]> env)))
                      (t3 ++ [Output "Package {} {} already exists in Fleet. Skipping upload."
                                [JStr (declared_title i); JStr (declared_version i)];
                              ReadFile pkg;
                              Output "Calculated SHA-256 hash from local file: {}..."
                                [JStr (PyStr.take 16 hash)]])
                  else after (t3 ++ [upload_step_line]) env (upload_step w i)
              end
          end
      end
  end.

(** A character of an escaped query value: one that [quote] leaves alone,
    or the percent sign that opens an escape. *)
Definition escaped_char (c : ascii) : bool := Enc.unquoted c || Ascii.eqb c "%".

(** The part of the search URL that precedes the escaped title. *)
Definition search_prefix (fleet_api_base : string) (team_id : Z) : string :=
  fleet_api_base +:+ "/api/v1/fleet/software/titles?available_for_install=true&team_id="
  +:+ PyStr.of_int team_id +:+ "&query=".

(** The requests of the upload method: its POST when the label lists are
    not both populated, the team id can be printed, the package file can
    be read and the URL has a scheme, and none otherwise. *)
Definition upload_sent (w : world) (base token pkg : string) (i : inputs) : list request :=
  if nonempty (labels_include_any i) && nonempty (labels_exclude_any i) then []
  else if negb (PyStr.printable (team_id i)) then []
  else match fs_file w pkg with
       | Some content =>
           if Url.accepted (req_url (upload_request w base token pkg i content))
           then [upload_request w base token pkg i content] else []
       | None => []
       end.

(** The reading of C3 as it is written: the check finds the declared
    version under the matched title. *)
Definition scan_reports_match (matching_title : json) (software_title version : string)
  : Prop :=
  exists info, result (check_versions matching_title software_title version ∅) = Ok (Some info).

(** The reading of C6 as it is written: the run ends with a fatal error
    whose message shows the status code and the body. *)
Definition failure_shows_status_and_body (w : world) (i : inputs) (status : Z) : Prop :=
  exists msg,
    result (run w i) = Raise (ProcessorError msg) /\ occurs_in (PyStr.of_int status) msg.

(** The existence check gets as far as sending its request: the team id
    can be printed and the URL has a scheme. *)
Definition search_sendable (base token : string) (team : Z) (title : string) : bool :=
  PyStr.printable team && Url.accepted (req_url (search_request base token team title)).

(** * Facts about strings and integers *)

Section StringFacts.

Lemma all_chars_app p a b :
  all_chars p (a +:+ b) = all_chars p a && all_chars p b.
Proof.
  induction a as [|c a IH]; simpl; [reflexivity|].
  rewrite IH. apply andb_assoc.
Qed.

Lemma all_chars_weaken (p q : ascii -> bool) s :
  (forall c, p c = true -> q c = true) ->
  all_chars p s = true -> all_chars q s = true.
Proof.
  intros Hpq. induction s as [|c s IH]; simpl; [reflexivity|].
  rewrite !andb_true_iff. intros [Hc Hs]. split; auto.
Qed.

Lemma split_whole sep s :
  all_chars (differs sep) s = true -> PyStr.split sep s = [s].
Proof.
  induction s as [|c s IH]; simpl; [reflexivity|].
  rewrite andb_true_iff. unfold differs at 1. intros [Hc Hs].
  apply negb_true_iff in Hc. rewrite Hc, (IH Hs). reflexivity.
Qed.

Lemma split_at_first sep a b :
  all_chars (differs sep) a = true ->
  PyStr.split sep (a +:+ String sep b) = a :: PyStr.split sep b.
Proof.
  induction a as [|c a IH]; simpl.
  - intros _. rewrite Ascii.eqb_refl. reflexivity.
  - rewrite andb_true_iff. unfold differs at 1. intros [Hc Ha].
    apply negb_true_iff in Hc. rewrite Hc, (IH Ha). reflexivity.
Qed.

Lemma lstrip_by_id p s :
  all_chars (fun c => negb (p c)) s = true -> PyStr.lstrip_by p s = s.
Proof.
  destruct s as [|c s]; simpl; [reflexivity|].
  rewrite andb_true_iff. intros [Hc _].
  apply negb_true_iff in Hc. rewrite Hc. reflexivity.
Qed.

Lemma rstrip_by_id p s :
  all_chars (fun c => negb (p c)) s = true -> PyStr.rstrip_by p s = s.
Proof.
  induction s as [|c s IH]; simpl; [reflexivity|].
  rewrite andb_true_iff. intros [Hc Hs].
  apply negb_true_iff in Hc. rewrite (IH Hs), Hc.
  destruct s; reflexivity.
Qed.

Lemma strip_id s :
  all_chars (fun c => negb (PyStr.isspace c)) s = true -> PyStr.strip s = s.
Proof.
  intros H. unfold PyStr.strip.
  rewrite (lstrip_by_id _ _ H). apply rstrip_by_id, H.
Qed.

Lemma count_digits_all s :
  all_chars is_digit s = true -> PyStr.count_digits s = String.length s.
Proof.
  induction s as [|c s IH]; [reflexivity|].
  cbn [all_chars PyStr.count_digits String.length]. intros [Hc Hs]%andb_prop.
  unfold is_digit in Hc. unfold PyStr.digit. rewrite Hc, (IH Hs). reflexivity.
Qed.

Ltac by_cases_on_char c :=
  destruct c as [[] [] [] [] [] [] [] []]; vm_compute; congruence.

Lemma digit_not_space c : is_digit c = true -> negb (PyStr.isspace c) = true.
Proof. by_cases_on_char c. Qed.

Lemma digit_not_blank c : is_digit c = true -> negb (PyStr.int_space c) = true.
Proof. by_cases_on_char c. Qed.

Lemma digit_not_sign c :
  is_digit c = true -> Ascii.eqb c "+" = false /\ Ascii.eqb c "-" = false.
Proof.
  destruct c as [[] [] [] [] [] [] [] []]; vm_compute; intros H;
    first [discriminate H | split; reflexivity].
Qed.

(** [int] reads a run of digits within the limit as the number they
    spell. *)
Lemma int_of_digits s n :
  all_chars is_digit s = true ->
  PyStr.digits 0 false s = Some n ->
  within_digit_limit s ->
  PyStr.int s = Ok n.
Proof.
  intros Hs Hn Hlen. unfold PyStr.int.
  rewrite (lstrip_by_id PyStr.int_space s), (rstrip_by_id PyStr.int_space s)
    by (eapply all_chars_weaken; [apply digit_not_blank | exact Hs]).
  destruct s as [|c t]; [discriminate Hn|].
  assert (Hc : is_digit c = true)
    by (cbn [all_chars] in Hs; apply andb_prop in Hs; tauto).
  destruct (digit_not_sign c Hc) as [-> ->]. cbv beta iota zeta.
  unfold within_digit_limit in Hlen.
  rewrite Hn, (count_digits_all _ Hs), Hlen. reflexivity.
Qed.

(** Beyond the limit [int] raises, whatever the digits. *)
Lemma int_beyond_limit s :
  all_chars is_digit s = true ->
  (PyStr.int_max_str_digits < String.length s)%nat ->
  PyStr.int s = Raise ValueError.
Proof.
  intros Hs Hlen. unfold PyStr.int.
  rewrite (lstrip_by_id PyStr.int_space s), (rstrip_by_id PyStr.int_space s)
    by (eapply all_chars_weaken; [apply digit_not_blank | exact Hs]).
  destruct s as [|c t]; [exfalso; exact (Nat.nlt_0_r _ Hlen)|].
  assert (Hc : is_digit c = true)
    by (cbn [all_chars] in Hs; apply andb_prop in Hs; tauto).
  destruct (digit_not_sign c Hc) as [-> ->]. cbv beta iota zeta.
  apply Nat.leb_gt in Hlen. rewrite (count_digits_all _ Hs), Hlen.
  destruct (PyStr.digits 0 false (String c t)); reflexivity.
Qed.

Lemma digit_not_dot c : is_digit c = true -> differs "." c = true.
Proof. by_cases_on_char c. Qed.

Lemma digit_not_dash c : is_digit c = true -> differs "-" c = true.
Proof. by_cases_on_char c. Qed.

Lemma digits_step c k acc prev t :
  PyStr.digit c = Some k ->
  PyStr.digits acc prev (String c t) = PyStr.digits (10 * acc + k) true t.
Proof. intros H. simpl. rewrite H. reflexivity. Qed.

Abbreviation su := NilEmpty.string_of_uint.

Lemma su_all_digits d : all_chars is_digit (su d) = true.
Proof. induction d; simpl; auto. Qed.

Lemma digits_su_pos d :
  forall p, PyStr.digits (Z.pos p) true (su d) = Some (Z.pos (Pos.of_uint_acc d p)).
Proof.
  induction d as [|d IH|d IH|d IH|d IH|d IH|d IH|d IH|d IH|d IH|d IH]; intros p;
    [reflexivity|..];
    cbn [NilEmpty.string_of_uint Pos.of_uint_acc];
    match goal with
    | |- PyStr.digits _ _ (String ?c _) = _ =>
        let k := eval vm_compute in (PyStr.digit c) in
        match k with
        | Some ?n => rewrite (digits_step c n) by reflexivity
        end
    end;
    match goal with
    | |- PyStr.digits ?a _ _ = Some (Z.pos (Pos.of_uint_acc _ ?q)) =>
        replace a with (Z.pos q) by lia
    end;
    apply IH.
Qed.

Lemma digits_su d :
  PyStr.digits 0 true (su d) = Some (Z.of_N (Pos.of_uint d)).
Proof.
  induction d as [|d IH|d IH|d IH|d IH|d IH|d IH|d IH|d IH|d IH|d IH];
    [reflexivity|exact IH|..];
    cbn [NilEmpty.string_of_uint Pos.of_uint];
    match goal with
    | |- PyStr.digits _ _ (String ?c _) = _ =>
        let k := eval vm_compute in (PyStr.digit c) in
        match k with
        | Some ?n => rewrite (digits_step c n) by reflexivity
        end
    end;
    apply digits_su_pos.
Qed.

Lemma digits_su_fresh d :
  d <> Nil -> PyStr.digits 0 false (su d) = Some (Z.of_N (Pos.of_uint d)).
Proof.
  intros Hd.
  destruct d; [congruence|..];
    cbn [NilEmpty.string_of_uint Pos.of_uint];
    match goal with
    | |- PyStr.digits _ _ (String ?c _) = _ =>
        let k := eval vm_compute in (PyStr.digit c) in
        match k with
        | Some ?n => rewrite (digits_step c n) by reflexivity
        end
    end;
    first [apply digits_su | apply digits_su_pos].
Qed.

Lemma int_su d :
  d <> Nil -> within_digit_limit (su d) -> PyStr.int (su d) = Ok (Z.of_N (Pos.of_uint d)).
Proof.
  intros Hd Hlen.
  apply int_of_digits; [apply su_all_digits|apply digits_su_fresh, Hd|exact Hlen].
Qed.

(** [str(n)] of a natural number is a non-empty run of digits that [int]
    reads back. *)
Lemma of_int_natural (n : N) :
  exists d, d <> Nil /\ PyStr.of_int (Z.of_N n) = su d /\ Pos.of_uint d = n.
Proof.
  destruct n as [|p].
  - exists (D0 Nil). repeat split. discriminate.
  - exists (Pos.to_uint p).
    assert (Hback : Pos.of_uint (Pos.to_uint p) = N.pos p)
      by apply DecimalPos.Unsigned.of_to.
    assert (Hd : Pos.to_uint p <> Nil).
    { intros E. rewrite E in Hback. discriminate. }
    repeat split; try assumption.
    unfold PyStr.of_int. cbn [Z.of_N Z.to_int NilZero.string_of_int].
    unfold NilZero.string_of_uint. destruct (Pos.to_uint p); congruence.
Qed.

Lemma int_of_int_natural (n : N) :
  within_digit_limit (numeral n) ->
  PyStr.int (PyStr.of_int (Z.of_N n)) = Ok (Z.of_N n).
Proof.
  unfold numeral. destruct (of_int_natural n) as (d & Hd & -> & Hn). intros Hlen.
  rewrite (int_su d Hd Hlen), Hn. reflexivity.
Qed.

Lemma of_int_natural_digits (n : N) :
  all_chars is_digit (PyStr.of_int (Z.of_N n)) = true.
Proof.
  destruct (of_int_natural n) as (d & _ & -> & _). apply su_all_digits.
Qed.

End StringFacts.

(** * The minimum-version gate *)

Section Gate.

Lemma minimum_triple_parsed :
  version_triple (PyStr.split "." FLEET_MINIMUM_VERSION) = Ok minimum_triple.
Proof. reflexivity. Qed.

(** What the gate answers once the triple is read. *)
Lemma gate_of_parsed v t :
  parsed_triple v = Ok t ->
  exists b, _is_fleet_minimum_supported v = Ok b /\ (b = true <-> triple_ge t minimum_triple).
Proof.
  unfold parsed_triple, _is_fleet_minimum_supported.
  destruct (version_parts v) as [parts|e]; [|discriminate].
  cbn [rbind]. intros ->. rewrite minimum_triple_parsed.
  destruct t as [[major minor] patch]. cbn [rbind rtry minimum_triple triple_ge].
  destruct (major >? 4) eqn:E1; [exists true; split; [reflexivity|lia]|].
  destruct (major =? 4) eqn:E2; cbn [andb].
  - destruct (minor >? 74) eqn:E3; [exists true; split; [reflexivity|lia]|].
    destruct (minor =? 74) eqn:E4; cbn [andb].
    + destruct (patch >=? 0) eqn:E5.
      * exists true; split; [reflexivity|lia].
      * exists false; split; [reflexivity|]. split; [discriminate|lia].
    + exists false; split; [reflexivity|]. split; [discriminate|lia].
  - exists false; split; [reflexivity|]. split; [discriminate|lia].
Qed.

Lemma index_raises {A} (xs : list A) n e : index xs n = Raise e -> e = IndexError.
Proof. unfold index. destruct (nth_error xs n); congruence. Qed.

Lemma int_raises s e : PyStr.int s = Raise e -> e = ValueError.
Proof.
  unfold PyStr.int.
  destruct (match PyStr.rstrip_by PyStr.int_space (PyStr.lstrip_by PyStr.int_space s) with
            | EmptyString => _
            | String _ _ => _
            end) as [negative literal].
  destruct (PyStr.digits 0 false literal); [|congruence].
  destruct (PyStr.count_digits literal <=? PyStr.int_max_str_digits)%nat; congruence.
Qed.

Lemma rbind_raises {A B} (r : res A) (f : A -> res B) e :
  rbind r f = Raise e -> r = Raise e \/ exists a, r = Ok a /\ f a = Raise e.
Proof.
  destruct r as [a|e']; cbn; intros H.
  - right. exists a. split; [reflexivity|exact H].
  - left. congruence.
Qed.

Ltac raised_by_call H :=
  first [ right; exact (index_raises _ _ _ H)
        | left; exact (int_raises _ _ H) ].

(** Reading the triple can only fail with the two classes the gate catches. *)
Lemma parsed_triple_raises v e :
  parsed_triple v = Raise e -> e = ValueError \/ e = IndexError.
Proof.
  unfold parsed_triple. intros H.
  apply rbind_raises in H as [H | (parts & _ & H)].
  - unfold version_parts in H.
    apply rbind_raises in H as [H | (head & _ & H)];
      [raised_by_call H | discriminate].
  - unfold version_triple in H.
    do 4 (apply rbind_raises in H as [H | (? & _ & H)]; [raised_by_call H|]).
    apply rbind_raises in H as [H | (? & _ & H)]; [|discriminate].
    destruct (2 <? length parts)%nat; [|discriminate].
    apply rbind_raises in H as [H | (? & _ & H)]; raised_by_call H.
Qed.

(** What the gate answers when the triple cannot be read. *)
Lemma gate_of_unparsed v e :
  parsed_triple v = Raise e -> _is_fleet_minimum_supported v = Ok true.
Proof.
  intros He. destruct (parsed_triple_raises v e He) as [-> | ->];
    revert He; unfold parsed_triple, _is_fleet_minimum_supported;
    destruct (version_parts v) as [parts|e']; cbn [rbind];
    try (intros [= ->]; reflexivity);
    intros ->; reflexivity.
Qed.

Lemma numeral_no_dot n : all_chars (differs ".") (numeral n) = true.
Proof.
  eapply all_chars_weaken; [apply digit_not_dot | apply of_int_natural_digits].
Qed.

Lemma numeral_no_dash n : all_chars (differs "-") (numeral n) = true.
Proof.
  eapply all_chars_weaken; [apply digit_not_dash | apply of_int_natural_digits].
Qed.

(** The parts of "X.Y.Z". *)
Lemma parts_dotted3 (x y z : N) :
  version_parts (numeral x +:+ "." +:+ numeral y +:+ "." +:+ numeral z)
  = Ok [numeral x; numeral y; numeral z].
Proof.
  unfold version_parts.
  rewrite split_whole
    by (rewrite !all_chars_app, !numeral_no_dash; reflexivity).
  cbn [index nth_error rbind].
  change ("." +:+ ?t) with (String "." t).
  rewrite split_at_first by apply numeral_no_dot.
  change ("." +:+ ?t) with (String "." t).
  rewrite split_at_first by apply numeral_no_dot.
  rewrite split_whole by apply numeral_no_dot. reflexivity.
Qed.

Lemma parsed_dotted3 (x y z : N) :
  within_digit_limit (numeral x) ->
  within_digit_limit (numeral y) ->
  within_digit_limit (numeral z) ->
  parsed_triple (numeral x +:+ "." +:+ numeral y +:+ "." +:+ numeral z)
  = Ok (Z.of_N x, Z.of_N y, Z.of_N z).
Proof.
  intros Hx Hy Hz. unfold parsed_triple. rewrite parts_dotted3.
  unfold version_triple. cbn [index nth_error rbind length Nat.ltb Nat.leb].
  fold (numeral x) (numeral y) (numeral z).
  unfold numeral at 1 2 3.
  rewrite !int_of_int_natural by assumption. reflexivity.
Qed.

(** A minor number beyond the digit limit cannot be read, so the gate
    passes whatever the major number is. *)
Lemma gate_beyond_digit_limit (x y z : N) :
  within_digit_limit (numeral x) ->
  (PyStr.int_max_str_digits < String.length (numeral y))%nat ->
  parsed_triple (numeral x +:+ "." +:+ numeral y +:+ "." +:+ numeral z)
  = Raise ValueError /\
  _is_fleet_minimum_supported (numeral x +:+ "." +:+ numeral y +:+ "." +:+ numeral z)
  = Ok true.
Proof.
  intros Hx Hy.
  assert (Hraise : parsed_triple (numeral x +:+ "." +:+ numeral y +:+ "." +:+ numeral z)
                   = Raise ValueError).
  { unfold parsed_triple. rewrite parts_dotted3.
    unfold version_triple. cbn [index nth_error rbind].
    unfold numeral at 1. rewrite (int_of_int_natural x Hx). cbn [rbind].
    rewrite (int_beyond_limit (numeral y) (of_int_natural_digits y) Hy). reflexivity. }
  split; [exact Hraise|exact (gate_of_unparsed _ _ Hraise)].
Qed.

Lemma parsed_dotted2 (x y : N) :
  within_digit_limit (numeral x) ->
  within_digit_limit (numeral y) ->
  parsed_triple (numeral x +:+ "." +:+ numeral y) = Ok (Z.of_N x, Z.of_N y, 0).
Proof.
  intros Hx Hy.
  assert (Hdot : forall n, all_chars (differs ".") (numeral n) = true)
    by apply numeral_no_dot.
  assert (Hdash : forall n, all_chars (differs "-") (numeral n) = true)
    by apply numeral_no_dash.
  unfold parsed_triple, version_parts.
  rewrite split_whole
    by (rewrite !all_chars_app, !Hdash; reflexivity).
  cbn [index nth_error rbind].
  change ("." +:+ ?t) with (String "." t).
  rewrite split_at_first by apply Hdot.
  rewrite split_whole by apply Hdot.
  unfold version_triple. cbn [index nth_error rbind length Nat.ltb Nat.leb].
  unfold numeral at 1 2.
  rewrite !int_of_int_natural by assumption. reflexivity.
Qed.

(** A [-suffix] is cut off before the triple is read. *)
Lemma parsed_suffix (v suffix : string) :
  all_chars (differs "-") v = true ->
  parsed_triple (v +:+ "-" +:+ suffix) = parsed_triple v.
Proof.
  intros Hv. unfold parsed_triple, version_parts.
  change ("-" +:+ suffix) with (String "-" suffix).
  rewrite (split_at_first "-" v suffix Hv), (split_whole "-" v Hv). reflexivity.
Qed.

Lemma dotted_no_dash (x y z : N) :
  all_chars (differs "-") (numeral x +:+ "." +:+ numeral y +:+ "." +:+ numeral z) = true.
Proof.
  rewrite !all_chars_app, !numeral_no_dash. reflexivity.
Qed.

End Gate.

(** C4. A version "X.Y.Z" or "X.Y.Z-suffix" whose numerals have no more
    than 4300 digits each (the limit of [int]) is read as the triple
    (X, Y, Z) with the suffix cut off, "X.Y" as (X, Y, 0), and the gate
    passes exactly when the triple is at least (4, 74, 0) in the order
    major, minor, patch; "4.74.0", "4.74.1", "5.0.0" and "4.74.0-dev" pass
    and "4.73.9" fails. *)
Theorem gate_compares_triples_lexicographically (x y z : N) (suffix : string) :
  within_digit_limit (numeral x) ->
  within_digit_limit (numeral y) ->
  within_digit_limit (numeral z) ->
  let dotted := numeral x +:+ "." +:+ numeral y +:+ "." +:+ numeral z in
  let short := numeral x +:+ "." +:+ numeral y in
  let t := (Z.of_N x, Z.of_N y, Z.of_N z) in
  version_triple (PyStr.split "." FLEET_MINIMUM_VERSION) = Ok minimum_triple /\
  parsed_triple dotted = Ok t /\
  parsed_triple (dotted +:+ "-" +:+ suffix) = Ok t /\
  parsed_triple short = Ok (Z.of_N x, Z.of_N y, 0) /\
  (exists b, _is_fleet_minimum_supported dotted = Ok b
             /\ (b = true <-> triple_ge t minimum_triple)) /\
  (exists b, _is_fleet_minimum_supported (dotted +:+ "-" +:+ suffix) = Ok b
             /\ (b = true <-> triple_ge t minimum_triple)) /\
  (exists b, _is_fleet_minimum_supported short = Ok b
             /\ (b = true <-> triple_ge (Z.of_N x, Z.of_N y, 0) minimum_triple)) /\
  _is_fleet_minimum_supported "4.74.0" = Ok true /\
  _is_fleet_minimum_supported "4.74.1" = Ok true /\
  _is_fleet_minimum_supported "5.0.0" = Ok true /\
  _is_fleet_minimum_supported "4.74.0-dev" = Ok true /\
  _is_fleet_minimum_supported "4.73.9" = Ok false.
Proof.
  intros Hx Hy Hz dotted short t.
  assert (H3 : parsed_triple dotted = Ok t) by (apply parsed_dotted3; assumption).
  assert (H3s : parsed_triple (dotted +:+ "-" +:+ suffix) = Ok t)
    by (rewrite parsed_suffix; [exact H3 | apply dotted_no_dash]).
  assert (H2 : parsed_triple short = Ok (Z.of_N x, Z.of_N y, 0))
    by (apply parsed_dotted2; assumption).
  split; [reflexivity|].
  repeat (split; [first [assumption | eapply gate_of_parsed; eassumption]|]).
  repeat split.
Qed.

Lemma gate_compares_triples_lexicographically_witness :
  parsed_triple "4.73.9-rc1" = Ok (4, 73, 9) /\
  exists b, _is_fleet_minimum_supported "4.73.9-rc1" = Ok b
            /\ (b = true <-> triple_ge (4, 73, 9) minimum_triple).
Proof.
  pose proof (gate_compares_triples_lexicographically 4 73 9 "rc1"
                eq_refl eq_refl eq_refl) as H.
  cbv zeta in H. split; [exact (proj1 (proj2 (proj2 H)))|].
  exact (proj1 (proj2 (proj2 (proj2 (proj2 (proj2 H)))))).
Defined.

(** C4, where the claim fails: the minor number 10^4300 has 4301 digits,
    [int] raises [ValueError] on it and the gate passes, although the
    triple (3, 10^4300, 0) is below (4, 74, 0). *)
Lemma gate_passes_numeral_beyond_digit_limit :
  ~ gate_is_lexicographic 3 (10 ^ 4300) 0.
Proof.
  intros (b & Hgate & Hiff).
  assert (Hlong : (PyStr.int_max_str_digits <? String.length (numeral (10 ^ 4300)))%nat
                  = true) by (vm_compute; reflexivity).
  apply Nat.ltb_lt in Hlong.
  destruct (gate_beyond_digit_limit 3 (10 ^ 4300) 0 eq_refl Hlong) as [_ Hpass].
  rewrite Hpass in Hgate. injection Hgate as <-.
  destruct (proj1 Hiff eq_refl) as [Hmajor | [Hmajor _]]; discriminate Hmajor.
Qed.

(** C7. A version string from which no numeric triple can be read makes
    the gate answer "pass": the gate never raises, and whenever reading the
    triple fails the answer is true. *)
Theorem unparsable_version_passes (v : string) :
  (exists b, _is_fleet_minimum_supported v = Ok b) /\
  (forall e, parsed_triple v = Raise e -> _is_fleet_minimum_supported v = Ok true).
Proof.
  assert (Hfail : forall e, parsed_triple v = Raise e ->
                            _is_fleet_minimum_supported v = Ok true).
  { intros e He. destruct (parsed_triple_raises v e He) as [-> | ->];
      revert He; unfold parsed_triple, _is_fleet_minimum_supported;
      destruct (version_parts v) as [parts|e']; cbn [rbind];
      try (intros [= ->]; reflexivity);
      intros ->; reflexivity. }
  split; [|exact Hfail].
  destruct (parsed_triple v) as [t|e] eqn:E.
  - destruct (gate_of_parsed v t E) as (b & Hb & _). exists b. exact Hb.
  - exists true. eapply Hfail. reflexivity.
Qed.

Lemma unparsable_version_passes_witness :
  parsed_triple "4.x" = Raise ValueError /\
  parsed_triple "4" = Raise IndexError /\
  _is_fleet_minimum_supported "4.x" = Ok true /\
  _is_fleet_minimum_supported "4" = Ok true /\
  _is_fleet_minimum_supported "" = Ok true /\
  _is_fleet_minimum_supported "v4.73.0" = Ok true.
Proof.
  split; [reflexivity|]. split; [reflexivity|].
  split; [exact (proj2 (unparsable_version_passes "4.x") ValueError eq_refl)|].
  split; [exact (proj2 (unparsable_version_passes "4") IndexError eq_refl)|].
  split; reflexivity.
Defined.

(** * Title matching *)

Section Matching.

Lemma result_andthen {A B} (m : M A) (f : A -> M B) env :
  result (andthen m f env) =
  match result (m env) with
  | Ok a => result (f a (env_after (m env)))
  | Raise e => Raise e
  end.
Proof. unfold andthen. destruct (result (m env)); reflexivity. Qed.

Lemma result_lift {A} (r : res A) env : result (lift r env) = r.
Proof. reflexivity. Qed.

Lemma env_after_lift {A} (r : res A) env : env_after (lift r env) = env.
Proof. reflexivity. Qed.

Lemma result_pure {A} (a : A) env : result (pure a env) = Ok a.
Proof. reflexivity. Qed.

Lemma env_after_pure {A} (a : A) env : env_after (pure a env) = env.
Proof. reflexivity. Qed.

Lemma result_output template args env : result (output template args env) = Ok tt.
Proof. reflexivity. Qed.

Lemma env_after_output template args env : env_after (output template args env) = env.
Proof. reflexivity. Qed.

Lemma name_of_get c n :
  name_of c = Some n -> Py.get c "name" (JStr EmptyString) = Ok (JStr n).
Proof.
  destruct c as [| | | |items|fields]; try discriminate. cbn.
  destruct (Py.assoc "name" fields) as [[]|]; congruence.
Qed.

Lemma get_of_dict fields key default :
  exists v, Py.get (JObj fields) key default = Ok v.
Proof. cbn. destruct (Py.assoc key fields); eauto. Qed.

Lemma name_of_dict c n : name_of c = Some n -> exists fields, c = JObj fields.
Proof. destruct c; try discriminate. eauto. Qed.

Lemma contains_empty s : PyStr.contains EmptyString s = true.
Proof. destruct s; reflexivity. Qed.

(** The first loop stops at the first candidate whose name equals the
    title ignoring case, whether or not it equals it exactly. *)
Lemma first_loop_result title titles env :
  Forall (fun c => exists n, name_of c = Some n) titles ->
  result (match_exact_or_caseless title titles env) = Ok (find (caseless_hit title) titles).
Proof.
  intros Hwf. revert env. induction Hwf as [|c titles (n & Hn) _ IH]; intros env.
  - reflexivity.
  - destruct (name_of_dict c n Hn) as (fields & ->).
    destruct (get_of_dict fields "id" JNull) as (id & Hid).
    cbn [match_exact_or_caseless find]. unfold caseless_hit. rewrite Hn.
    rewrite result_andthen. unfold lift at 1. cbn [result env_after].
    rewrite (name_of_get _ _ Hn). cbn [Py.eq_str].
    destruct (String.eqb n title) eqn:Eexact.
    + apply String.eqb_eq in Eexact. subst n. rewrite String.eqb_refl.
      rewrite result_andthen. unfold lift at 1. cbn [result env_after]. rewrite Hid.
      reflexivity.
    + rewrite result_andthen. unfold lift at 1. cbn [result env_after Py.lower].
      destruct (String.eqb (PyStr.lower n) (PyStr.lower title)).
      * rewrite result_andthen. unfold lift at 1. cbn [result env_after].
        rewrite Hid. reflexivity.
      * apply IH.
Qed.

(** The fuzzy loop stops at the first candidate that is a fuzzy hit. *)
Lemma fuzzy_loop_result title titles env :
  Forall (fun c => exists n, name_of c = Some n) titles ->
  result (match_fuzzy title titles env) = Ok (find (fuzzy_hit title) titles).
Proof.
  intros Hwf. revert env. induction Hwf as [|c titles (n & Hn) _ IH]; intros env.
  - reflexivity.
  - destruct (name_of_dict c n Hn) as (fields & ->).
    destruct (get_of_dict fields "id" JNull) as (id & Hid).
    cbn [match_fuzzy find]. unfold fuzzy_hit. rewrite Hn.
    rewrite result_andthen. unfold lift at 1. cbn [result env_after].
    rewrite (name_of_get _ _ Hn).
    rewrite result_andthen. unfold lift at 1. cbn [result env_after Py.lower].
    destruct (PyStr.contains (PyStr.lower title) (PyStr.lower n)
              || PyStr.contains (PyStr.lower n) (PyStr.lower title)).
    + rewrite result_andthen. unfold lift at 1. cbn [result env_after].
      rewrite Hid. reflexivity.
    + apply IH.
Qed.

Lemma nameless_fuzzy_hit title c : nameless c = true -> fuzzy_hit title c = true.
Proof.
  unfold nameless, fuzzy_hit. destruct (name_of c) as [[|]|]; try discriminate.
  intros _. cbn [PyStr.lower]. rewrite contains_empty. apply orb_true_r.
Qed.

Lemma find_first {A} (p : A -> bool) before x after :
  Forall (fun b => p b = false) before -> p x = true ->
  find p (before ++ x :: after) = Some x.
Proof.
  induction 1 as [|b before Hb _ IH]; intros Hx; cbn.
  - rewrite Hx. reflexivity.
  - rewrite Hb. apply IH, Hx.
Qed.

Lemma find_none {A} (p : A -> bool) xs :
  Forall (fun b => p b = false) xs -> find p xs = None.
Proof. induction 1 as [|b xs Hb _ IH]; cbn; [reflexivity|]. rewrite Hb. exact IH. Qed.

(** [matching_title] after both loops, for candidates with readable names. *)
Lemma find_matching_title_result title titles env :
  Forall (fun c => exists n, name_of c = Some n) titles ->
  result (find_matching_title title (JArr titles) env) =
  Ok (let first := find (caseless_hit title) titles in
      if negb (Py.truthy_opt first) && nonempty titles then
        match find (fuzzy_hit title) titles with
        | Some c => Some c
        | None => first
        end
      else first).
Proof.
  intros Hwf. unfold find_matching_title.
  rewrite result_andthen. unfold lift at 1. cbn [result env_after Py.iter].
  rewrite result_andthen, first_loop_result by exact Hwf.
  replace (Py.truthy (JArr titles)) with (nonempty titles) by (destruct titles; reflexivity).
  destruct (negb (Py.truthy_opt (find (caseless_hit title) titles)) && nonempty titles).
  - rewrite result_andthen, fuzzy_loop_result by exact Hwf.
    destruct (find (fuzzy_hit title) titles); reflexivity.
  - reflexivity.
Qed.

End Matching.

(** C2. Declared title "Firefox" against the candidates "firefox",
    "Firefox", "Mozilla Firefox": the second candidate is the exact match,
    and the loop of lines 317-332 stops at the first one, which matches
    only when case is ignored. *)
Theorem caseless_candidate_listed_first_is_selected :
  let candidates :=
    [candidate "firefox" 1; candidate "Firefox" 2; candidate "Mozilla Firefox" 3] in
  exact_hit "Firefox" (candidate "firefox" 1) = false /\
  exact_hit "Firefox" (candidate "Firefox" 2) = true /\
  result (match_exact_or_caseless "Firefox" candidates ∅)
    = Ok (Some (candidate "firefox" 1)) /\
  result (find_matching_title "Firefox" (JArr candidates) ∅)
    = Ok (Some (candidate "firefox" 1)).
Proof. repeat split. Qed.




(** * The version scan *)

Section VersionScan.

Lemma get_field fields key default :
  Py.get (JObj fields) key default = Ok (field_or default key fields).
Proof. unfold field_or. cbn. destruct (Py.assoc key fields); reflexivity. Qed.

Lemma eq_str_true v s : Py.eq_str v s = true -> v = JStr s.
Proof.
  destruct v; try discriminate. cbn. intros H. apply String.eqb_eq in H. congruence.
Qed.

Lemma printable_hash_preview h :
  printable_hash h = true -> exists p, Py.hash_preview h = Ok p.
Proof.
  unfold Py.hash_preview, printable_hash.
  destruct h as [|[]|n|[|c s]|[|x items]|[|x fs]]; cbn;
    try destruct (n =? 0); cbn; intros H; try discriminate H; eauto.
Qed.

Ltac mstep :=
  repeat first
    [ rewrite result_andthen
    | rewrite result_lift | rewrite env_after_lift
    | rewrite result_output | rewrite env_after_output
    | rewrite result_pure | rewrite env_after_pure
    | rewrite get_field
    | progress cbv beta iota ].

Variables (fields : list (string * json)) (software_title version : string).

Let title := JObj fields.
Let hash := field_or JNull "hash_sha256" fields.

Hypothesis hash_ok : printable_hash hash = true.

(** An entry of another shape is passed over. *)
Lemma scan_skips idx entry rest env :
  entry_version entry = None ->
  result (scan_versions title software_title version idx (entry :: rest) env) =
  result (scan_versions title software_title version (idx + 1) rest
            (env_after (output "  Version {}: unexpected type {}"
                          [JNum (idx + 1); JStr (Py.type_repr entry)] env))).
Proof.
  intros H. destruct entry; try discriminate H;
    cbn [scan_versions]; rewrite result_andthen; reflexivity.
Qed.

(** The record a hit returns, whatever was logged before. *)
Lemma scan_hit ver_string env :
  Py.eq_str ver_string version = true ->
  result ((let! hash_sha256 := lift (Py.get title "hash_sha256" JNull) in
           let! preview := lift (Py.hash_preview hash_sha256) in
           output "Package {} {} already exists in Fleet (hash: {})"
                  [JStr software_title; JStr version; JStr preview] ;;
           pure (Some (package_info ver_string hash_sha256 (JStr software_title)))) env)
  = Ok (Some (package_info (JStr version) hash (JStr software_title))).
Proof.
  intros H. apply eq_str_true in H. subst ver_string.
  destruct (printable_hash_preview hash hash_ok) as (p & Hp).
  unfold title. mstep. fold hash. rewrite Hp. mstep. reflexivity.
Qed.

Lemma scan_finds versions :
  existsb (entry_matches version) versions = true ->
  forall idx env,
    result (scan_versions title software_title version idx versions env)
    = Ok (Some (package_info (JStr version) hash (JStr software_title))).
Proof.
  induction versions as [|entry rest IH]; [discriminate|].
  cbn [existsb]. intros Hex idx env.
  destruct (entry_version entry) as [v|] eqn:Ev.
  - unfold entry_matches in Hex. rewrite Ev in Hex.
    destruct entry as [|b|n|s|items|fs]; try discriminate Ev;
      injection Ev as <-; cbn [scan_versions].
    + mstep.
      destruct (Py.eq_str (JStr s) version) eqn:E.
      * apply scan_hit, E.
      * apply IH. exact Hex.
    + mstep.
      destruct (Py.eq_str (field_or (JStr EmptyString) "version" fs) version) eqn:E.
      * apply scan_hit, E.
      * apply IH. exact Hex.
  - rewrite scan_skips by exact Ev. apply IH.
    unfold entry_matches in Hex. rewrite Ev in Hex. exact Hex.
Qed.

Lemma scan_finds_nothing versions :
  existsb (entry_matches version) versions = false ->
  forall idx env,
    result (scan_versions title software_title version idx versions env) = Ok None.
Proof.
  induction versions as [|entry rest IH]; [reflexivity|].
  cbn [existsb]. intros Hex idx env.
  apply orb_false_iff in Hex as [Hentry Hrest].
  destruct (entry_version entry) as [v|] eqn:Ev.
  - unfold entry_matches in Hentry. rewrite Ev in Hentry.
    destruct entry as [|b|n|s|items|fs]; try discriminate Ev;
      injection Ev as <-; cbn [scan_versions].
    + mstep. rewrite Hentry. apply IH, Hrest.
    + mstep. rewrite Hentry. apply IH, Hrest.
  - rewrite scan_skips by exact Ev. apply IH, Hrest.
Qed.

Lemma check_versions_hit versions env :
  Py.assoc "versions" fields = Some (JArr versions) ->
  existsb (entry_matches version) versions = true ->
  result (check_versions title software_title version env)
  = Ok (Some (package_info (JStr version) hash (JStr software_title))).
Proof.
  intros Hvs Hex. unfold check_versions, title.
  assert (Hfield : field_or (JArr []) "versions" fields = JArr versions)
    by (unfold field_or; rewrite Hvs; reflexivity).
  mstep. rewrite !Hfield.
  destruct versions as [|entry rest]; [discriminate|]. cbn [Py.truthy Py.len Py.iter].
  mstep. fold title. rewrite (scan_finds _ Hex). reflexivity.
Qed.

Lemma check_versions_falls_through versions env :
  Py.assoc "versions" fields = Some (JArr versions) ->
  existsb (entry_matches version) versions = false ->
  exists env',
    result (check_versions title software_title version env)
    = result (check_current_package title software_title version env').
Proof.
  intros Hvs Hex. unfold check_versions, title.
  assert (Hfield : field_or (JArr []) "versions" fields = JArr versions)
    by (unfold field_or; rewrite Hvs; reflexivity).
  mstep. rewrite !Hfield.
  destruct versions as [|entry rest].
  - cbn [Py.truthy]. mstep. exists env.
    destruct (result (check_current_package _ _ _ _)) as [[info|]|e]; reflexivity.
  - cbn [Py.truthy Py.len Py.iter]. mstep.
    fold title. rewrite (scan_finds_nothing _ Hex). mstep.
    match goal with
    | |- context [check_current_package ?t ?s ?v ?env'] =>
        exists env'; destruct (result (check_current_package t s v env')) as [[info|]|e]
    end; reflexivity.
Qed.

(** The current software package: a record is compared by its [version]
    field, anything that counts as false is passed over. *)
Lemma current_package_record package env :
  Py.assoc "software_package" fields = Some (JObj package) ->
  result (check_current_package title software_title version env)
  = Ok (if nonempty package
           && Py.eq_str (field_or (JStr EmptyString) "version" package) version
        then Some (package_info (JStr version) hash
                     (field_or (JStr software_title) "name" package))
        else None).
Proof.
  intros Hpkg. unfold check_current_package, title.
  assert (Hfield : field_or JNull "software_package" fields = JObj package)
    by (unfold field_or; rewrite Hpkg; reflexivity).
  mstep. rewrite !Hfield.
  destruct package as [|kv package]; [reflexivity|].
  cbn [Py.truthy nonempty andb]. mstep.
  destruct (Py.eq_str _ version) eqn:E; [|reflexivity].
  apply eq_str_true in E. rewrite E.
  destruct (printable_hash_preview hash hash_ok) as (p & Hp).
  mstep. fold hash. rewrite Hp. mstep. reflexivity.
Qed.

Lemma current_package_absent env :
  Py.truthy (field_or JNull "software_package" fields) = false ->
  result (check_current_package title software_title version env) = Ok None.
Proof.
  intros H. unfold check_current_package, title. mstep. rewrite H. reflexivity.
Qed.

End VersionScan.




(** * Traces of the methods *)

Section Traces.

Lemma trace_andthen {A B} (m : M A) (f : A -> M B) env :
  trace (andthen m f env) =
  trace (m env) ++
  match result (m env) with
  | Ok a => trace (f a (env_after (m env)))
  | Raise _ => []
  end.
Proof.
  unfold andthen. destruct (result (m env)); cbn; [reflexivity|].
  symmetry. apply app_nil_r.
Qed.

Lemma env_after_andthen {A B} (m : M A) (f : A -> M B) env :
  env_after (andthen m f env) =
  match result (m env) with
  | Ok a => env_after (f a (env_after (m env)))
  | Raise _ => env_after (m env)
  end.
Proof. unfold andthen. destruct (result (m env)); reflexivity. Qed.

(** Building a request: with a URL that has a scheme the method goes on
    with the request, without one it stops with [ValueError]. *)
Lemma request_accepted {A} r (f : request -> M A) env :
  Url.accepted (req_url r) = true ->
  andthen (lift (new_request r)) f env = f r env.
Proof.
  intros H. unfold andthen, lift, new_request, continue. rewrite H.
  cbn [result env_after trace app]. destruct (f r env); reflexivity.
Qed.

Lemma request_rejected {A} r (f : request -> M A) env :
  Url.accepted (req_url r) = false ->
  andthen (lift (new_request r)) f env = mkOutcome (Raise ValueError) env [].
Proof.
  intros H. unfold andthen, lift, new_request. rewrite H. reflexivity.
Qed.

(** A pure step that returns, or raises. *)
Lemma lift_ok {A B} (a : A) (f : A -> M B) env : andthen (lift (Ok a)) f env = f a env.
Proof.
  unfold andthen, lift, continue. cbn [result env_after trace app].
  destruct (f a env); reflexivity.
Qed.

Lemma lift_raise {A B} e (f : A -> M B) env :
  andthen (lift (Raise e)) f env = mkOutcome (Raise e) env [].
Proof. reflexivity. Qed.

Lemma str_int_printable n : PyStr.printable n = true -> PyStr.str_int n = Ok (PyStr.of_int n).
Proof. intros H. unfold PyStr.str_int. rewrite H. reflexivity. Qed.

Lemma str_int_unprintable n : PyStr.printable n = false -> PyStr.str_int n = Raise ValueError.
Proof. intros H. unfold PyStr.str_int. rewrite H. reflexivity. Qed.

Lemma quiet_pure {A} (a : A) : quiet (pure a).
Proof. intros env. split; reflexivity. Qed.

Lemma quiet_new_request {A} r (f : request -> M A) :
  quiet (f r) -> quiet (andthen (lift (new_request r)) f).
Proof.
  intros Hf env. destruct (Url.accepted (req_url r)) eqn:E.
  - rewrite (request_accepted r f env E). apply Hf.
  - rewrite (request_rejected r f env E). split; reflexivity.
Qed.

Lemma quiet_throw {A} e : quiet (@throw A e).
Proof. intros env. split; reflexivity. Qed.

Lemma quiet_lift {A} (r : res A) : quiet (lift r).
Proof. intros env. split; reflexivity. Qed.

Lemma quiet_emit ev : calm ev = true -> quiet (emit ev).
Proof. intros H env. split; [reflexivity|]. cbn. rewrite H. reflexivity. Qed.

Lemma quiet_output template args :
  calm (Output template args) = true -> quiet (output template args).
Proof. apply quiet_emit. Qed.

Lemma quiet_andthen {A B} (m : M A) (f : A -> M B) :
  quiet m -> (forall a, quiet (f a)) -> quiet (andthen m f).
Proof.
  intros Hm Hf env. destruct (Hm env) as [Henv Htrace].
  rewrite env_after_andthen, trace_andthen, forallb_app, Htrace.
  destruct (result (m env)) as [a|e].
  - destruct (Hf a (env_after (m env))) as [Henv' Htrace'].
    rewrite Henv', Htrace', Henv. split; reflexivity.
  - split; [exact Henv|reflexivity].
Qed.

Lemma quiet_attempt {A} (m : M A) classes (h : exn -> M A) :
  quiet m -> (forall e, quiet (h e)) -> quiet (attempt m classes h).
Proof.
  intros Hm Hh env. destruct (Hm env) as [Henv Htrace].
  unfold attempt. destruct (result (m env)) as [a|e]; [split; assumption|].
  destruct (caught e classes); [|split; assumption].
  destruct (Hh e (env_after (m env))) as [Henv' Htrace'].
  unfold continue. cbn [env_after trace].
  rewrite forallb_app, Htrace, Htrace', Henv', Henv. split; reflexivity.
Qed.

Lemma quiet_urlopen r answer : req_method r = GET -> quiet (urlopen r answer).
Proof.
  intros Hget. unfold urlopen. apply quiet_andthen.
  - apply quiet_emit. unfold calm. cbn. rewrite Hget. reflexivity.
  - intros _. destruct answer as [status body|e];
      [destruct (PyStr.between 200 299 status)|];
      auto using quiet_pure, quiet_throw.
Qed.

Create HintDb quiet.

(** Break a goal [quiet m] down along the structure of [m]; methods already
    known to be quiet are taken from the hint database. *)
Ltac quiet_step :=
  first
    [ solve [auto 1 with quiet nocore]
    | apply quiet_pure | apply quiet_throw | apply quiet_lift
    | apply quiet_output; reflexivity
    | apply quiet_emit; reflexivity
    | apply quiet_urlopen; reflexivity
    | apply quiet_new_request
    | apply quiet_andthen; [|intros ?]
    | apply quiet_attempt; [|intros ?]
    | match goal with
      | |- quiet (let '(_, _) := ?p in _) => destruct p
      | |- quiet (if ?b then _ else _) => destruct b
      | |- quiet (match ?x with _ => _ end) => destruct x
      end ].

Ltac quiet_auto := repeat quiet_step.

Lemma quiet_get_fleet_version w base token : quiet (_get_fleet_version w base token).
Proof. unfold _get_fleet_version. quiet_auto. Qed.

Lemma quiet_match_exact_or_caseless title titles :
  quiet (match_exact_or_caseless title titles).
Proof.
  induction titles as [|c titles IH]; cbn [match_exact_or_caseless];
    quiet_auto; exact IH.
Qed.

Lemma quiet_match_fuzzy title titles : quiet (match_fuzzy title titles).
Proof. induction titles as [|c titles IH]; cbn [match_fuzzy]; quiet_auto; exact IH. Qed.

Lemma quiet_log_no_match title titles : quiet (log_no_match title titles).
Proof. induction titles as [|c titles IH]; cbn [log_no_match]; quiet_auto; exact IH. Qed.

Lemma quiet_scan_versions title software_title version versions :
  forall idx, quiet (scan_versions title software_title version idx versions).
Proof.
  induction versions as [|ver versions IH]; intros idx; cbn [scan_versions];
    [apply quiet_pure|].
  apply quiet_andthen; [quiet_auto|].
  intros [ver_string|]; [destruct (Py.eq_str ver_string version)|];
    first [apply IH | quiet_auto].
Qed.

#[local] Hint Resolve quiet_match_exact_or_caseless quiet_match_fuzzy
  quiet_log_no_match quiet_scan_versions : quiet.

Lemma quiet_check_versions title software_title version :
  quiet (check_versions title software_title version).
Proof. unfold check_versions, check_current_package. quiet_auto. Qed.

Lemma quiet_find_matching_title title software_titles :
  quiet (find_matching_title title software_titles).
Proof. unfold find_matching_title. quiet_auto. Qed.

#[local] Hint Resolve quiet_check_versions quiet_find_matching_title : quiet.

Lemma quiet_check_existing_package w base token team title version :
  quiet (_check_existing_package w base token team title version).
Proof. unfold _check_existing_package. quiet_auto. Qed.

End Traces.

(** * The run, up to the upload step *)

Section Run.

Lemma starts_with_andthen {A B} ev (m : M A) (f : A -> M B) :
  starts_with ev m -> starts_with ev (andthen m f).
Proof.
  intros Hm env. destruct (Hm env) as (rest & Hrest).
  rewrite trace_andthen, Hrest. eexists. reflexivity.
Qed.

Lemma starts_with_attempt {A} ev (m : M A) classes (h : exn -> M A) :
  starts_with ev m -> starts_with ev (attempt m classes h).
Proof.
  intros Hm env. destruct (Hm env) as (rest & Hrest). unfold attempt.
  destruct (result (m env)); [eauto|].
  destruct (caught e classes); [|eauto].
  unfold continue. cbn [trace]. rewrite Hrest. eexists. reflexivity.
Qed.

Lemma starts_with_urlopen r answer : starts_with (Request r) (urlopen r answer).
Proof. intros env. unfold urlopen. rewrite trace_andthen. eexists. reflexivity. Qed.

Lemma starts_with_new_request {A} ev r (f : request -> M A) :
  Url.accepted (req_url r) = true ->
  starts_with ev (f r) -> starts_with ev (andthen (lift (new_request r)) f).
Proof. intros H Hf env. rewrite (request_accepted r f env H). apply Hf. Qed.

Lemma get_fleet_version_starts w base token :
  Url.accepted (req_url (version_request base token)) = true ->
  starts_with (Request (version_request base token)) (_get_fleet_version w base token).
Proof.
  intros H. unfold _get_fleet_version.
  apply starts_with_andthen, starts_with_attempt, starts_with_new_request;
    [exact H|].
  apply starts_with_andthen, starts_with_urlopen.
Qed.

Lemma starts_with_lift_ok {A B} ev (a : A) (f : A -> M B) :
  starts_with ev (f a) -> starts_with ev (andthen (lift (Ok a)) f).
Proof. intros Hf env. rewrite lift_ok. apply Hf. Qed.

Lemma check_existing_package_starts w base token team title version :
  search_sendable base token team title = true ->
  starts_with (Request (search_request base token team title))
    (_check_existing_package w base token team title version).
Proof.
  intros [Hteam Hurl]%andb_prop. unfold _check_existing_package.
  rewrite (str_int_printable team Hteam).
  apply starts_with_attempt, starts_with_lift_ok, starts_with_new_request; [exact Hurl|].
  apply starts_with_andthen, starts_with_urlopen.
Qed.

(** Without a scheme in the URL the two checks stop before they send
    anything: the [ValueError] of the constructor is not among the classes
    they catch. *)
Lemma get_fleet_version_rejected w base token env :
  Url.accepted (req_url (version_request base token)) = false ->
  _get_fleet_version w base token env = mkOutcome (Raise ValueError) env [].
Proof.
  intros H. unfold _get_fleet_version, andthen at 1, attempt.
  fold (version_request base token). rewrite (request_rejected _ _ env H).
  reflexivity.
Qed.

Lemma check_existing_package_rejected w base token team title version env :
  search_sendable base token team title = false ->
  _check_existing_package w base token team title version env
  = mkOutcome (Raise ValueError) env [].
Proof.
  unfold search_sendable. intros H. unfold _check_existing_package, attempt.
  destruct (PyStr.printable team) eqn:Hteam.
  - cbn [andb] in H. rewrite (str_int_printable team Hteam), lift_ok.
    fold (search_request base token team title). rewrite (request_rejected _ _ env H).
    reflexivity.
  - rewrite (str_int_unprintable team Hteam), lift_raise. reflexivity.
Qed.

(** So a check that returns has sent its request. *)
Lemma get_fleet_version_returned w base token env v :
  result (_get_fleet_version w base token env) = Ok v ->
  Url.accepted (req_url (version_request base token)) = true.
Proof.
  destruct (Url.accepted (req_url (version_request base token))) eqn:E; [reflexivity|].
  rewrite (get_fleet_version_rejected w base token env E). discriminate.
Qed.

Lemma check_existing_package_returned w base token team title version env found :
  result (_check_existing_package w base token team title version env) = Ok found ->
  search_sendable base token team title = true.
Proof.
  destruct (search_sendable base token team title) eqn:E; [reflexivity|].
  rewrite (check_existing_package_rejected w base token team title version env E).
  discriminate.
Qed.

Lemma calm_not_upload_event evs :
  forallb calm evs = true -> existsb upload_event evs = false.
Proof.
  induction evs as [|ev evs IH]; cbn; [reflexivity|].
  rewrite andb_true_iff. intros [Hev Hevs]. rewrite (IH Hevs), orb_false_r.
  destruct ev; cbn in Hev |- *; try discriminate; try reflexivity;
    apply negb_true_iff in Hev; exact Hev.
Qed.

Lemma after_nil {A} (m : M A) env : after [] env m = m env.
Proof. unfold after, continue. cbn. destruct (m env); reflexivity. Qed.

Lemma after_output {A} pre env template args (k : M A) :
  after pre env (output template args ;; k) = after (pre ++ [Output template args]) env k.
Proof.
  unfold after, continue, andthen. cbn [env_after trace result output emit].
  rewrite <- app_assoc. reflexivity.
Qed.

(** A quiet method in front of the upload step: it returned, and its
    events join those that came before. *)
Lemma peel {A B} (m : M A) (f : A -> M B) env :
  quiet m ->
  existsb upload_event (trace (andthen m f env)) = true ->
  exists a,
    result (m env) = Ok a /\
    forallb calm (trace (m env)) = true /\
    existsb upload_event (trace (f a env)) = true /\
    forall pre, after pre env (andthen m f) = after (pre ++ trace (m env)) env (f a).
Proof.
  intros Hm Hup. destruct (Hm env) as [Henv Hcalm].
  rewrite trace_andthen, existsb_app, (calm_not_upload_event _ Hcalm) in Hup.
  cbn [orb] in Hup.
  destruct (result (m env)) as [a|e] eqn:Hres; [|discriminate Hup].
  rewrite Henv in Hup. exists a. repeat split; try assumption.
  intros pre. unfold after, continue, andthen. cbn [env_after trace result].
  rewrite Hres. unfold continue. cbn [env_after trace result].
  rewrite Henv, app_assoc. reflexivity.
Qed.

(** A run that reaches the upload step: the package file is there, the
    probe and the existence check have sent their requests, nothing else
    has happened, and the rest of the run is the upload step. *)
Lemma main_reaches_upload w i env :
  existsb upload_event (trace (main w i env)) = true ->
  exists content pre,
    fs_file w (resolved_path w i) = Some content /\
    forallb calm pre = true /\
    In (Request (version_request (api_base i) (fleet_api_token i))) pre /\
    In (Request (search_request (api_base i) (fleet_api_token i) (team_id i)
                   (declared_title i))) pre /\
    main w i env = after (pre ++ [upload_step_line]) env (upload_step w i).
Proof.
  intros Hup. rewrite <- (after_nil (main w i) env).
  revert Hup. unfold main. fold (resolved_path w i).
  destruct (fs_file w (resolved_path w i)) as [content|] eqn:Hfile; [|discriminate].
  fold (api_base i) (declared_title i) (declared_version i).
  intros Hup. exists content.
  (* "Querying Fleet server version..." *)
  apply peel in Hup as ([] & _ & Hc1 & Hup & Heq1);
    [|apply quiet_output; reflexivity].
  rewrite Heq1. clear Heq1.
  (* the version probe *)
  apply peel in Hup as (fleet_version & Hr2 & Hc2 & Hup & Heq2);
    [|apply quiet_get_fleet_version].
  rewrite Heq2. clear Heq2.
  destruct (get_fleet_version_starts w (api_base i) (fleet_api_token i)
              (get_fleet_version_returned _ _ _ _ _ Hr2) env)
    as (rest2 & Hstart2).
  (* "Detected Fleet version" *)
  apply peel in Hup as ([] & _ & Hc3 & Hup & Heq3);
    [|apply quiet_output; reflexivity].
  rewrite Heq3. clear Heq3.
  (* the gate *)
  apply peel in Hup as (supported & _ & Hc4 & Hup & Heq4); [|apply quiet_lift].
  rewrite Heq4. clear Heq4.
  destruct supported; [|discriminate Hup]. cbn [negb] in Hup |- *.
  (* "Checking if ... already exists" *)
  apply peel in Hup as ([] & _ & Hc5 & Hup & Heq5);
    [|apply quiet_output; reflexivity].
  rewrite Heq5. clear Heq5.
  (* the existence check *)
  apply peel in Hup as (existing & Hr6 & Hc6 & Hup & Heq6);
    [|apply quiet_check_existing_package].
  rewrite Heq6. clear Heq6.
  destruct (check_existing_package_starts w (api_base i) (fleet_api_token i) (team_id i)
              (declared_title i) (declared_version i)
              (check_existing_package_returned _ _ _ _ _ _ _ _ Hr6) env)
    as (rest6 & Hstart6).
  destruct (Py.truthy_opt existing).
  - (* already present: hashing the file, no upload *)
    exfalso. revert Hup.
    unfold _calculate_file_sha256, read_file. rewrite Hfile.
    cbn. discriminate.
  - rewrite after_output. fold upload_step_line.
    match goal with
    | |- context [after (?pre ++ [upload_step_line])] => exists pre
    end.
    split; [reflexivity|]. split; [|split; [|split]].
    + rewrite !forallb_app, Hc1, Hc2, Hc3, Hc4, Hc5, Hc6. reflexivity.
    + rewrite Hstart2, !in_app_iff. cbn. tauto.
    + rewrite Hstart6, !in_app_iff. cbn. tauto.
    + reflexivity.
Qed.

End Run.

(** * The upload step *)

Section Upload.

Variables (w : world) (base token pkg : string) (i : inputs) (env : gmap string json).

Lemma upload_rejects_label_conflict :
  labels_include_any i <> [] -> labels_exclude_any i <> [] ->
  _fleet_upload_package w base token pkg i env
  = mkOutcome (Raise (ProcessorError labels_error)) env [upload_file_line pkg].
Proof.
  intros Hinc Hexc.
  assert (Hboth : nonempty (labels_include_any i) && nonempty (labels_exclude_any i) = true).
  { destruct (labels_include_any i); [contradiction Hinc; reflexivity|].
    destruct (labels_exclude_any i); [contradiction Hexc; reflexivity|]. reflexivity. }
  unfold _fleet_upload_package. rewrite Hboth. reflexivity.
Qed.

Variable content : string.
Hypothesis labels_ok : nonempty (labels_include_any i) && nonempty (labels_exclude_any i) = false.

(** A team id of more digits than [str] prints stops the upload at its
    first form field: no file is read, nothing is sent. *)
Lemma upload_rejects_team :
  PyStr.printable (team_id i) = false ->
  _fleet_upload_package w base token pkg i env
  = mkOutcome (Raise ValueError) env [upload_file_line pkg].
Proof.
  intros Hteam.
  unfold _fleet_upload_package. rewrite labels_ok, (str_int_unprintable _ Hteam).
  reflexivity.
Qed.

Hypothesis team_ok : PyStr.printable (team_id i) = true.
Hypothesis file_ok : fs_file w pkg = Some content.

(** Without a scheme in the URL the upload stops when it builds the
    request: the file has been read, nothing is sent. *)
Lemma upload_rejects_url :
  Url.accepted (req_url (upload_request w base token pkg i content)) = false ->
  _fleet_upload_package w base token pkg i env
  = mkOutcome (Raise ValueError) env [upload_file_line pkg; ReadFile pkg].
Proof.
  intros Hurl.
  unfold _fleet_upload_package, read_file;
    rewrite labels_ok, (str_int_printable _ team_ok), file_ok.
  cbv beta iota zeta delta
    [andthen attempt continue urlopen emit output pure throw lift new_request
     result env_after trace app].
  change (Url.accepted (req_url _)) with
    (Url.accepted (req_url (upload_request w base token pkg i content))).
  rewrite Hurl. reflexivity.
Qed.

Hypothesis url_ok : Url.accepted (req_url (upload_request w base token pkg i content)) = true.

Ltac run_upload :=
  unfold _fleet_upload_package, read_file;
  rewrite labels_ok, (str_int_printable _ team_ok), file_ok;
  cbv beta iota zeta delta
    [andthen attempt continue urlopen emit output pure throw lift new_request
     result env_after trace app];
  change (Url.accepted (req_url _)) with
    (Url.accepted (req_url (upload_request w base token pkg i content)));
  rewrite url_ok; cbv beta iota.

(** HTTP 409: the marker is returned, nothing is raised. *)
Lemma upload_conflict body :
  upload_reply w = Responds 409 body ->
  _fleet_upload_package w base token pkg i env
  = mkOutcome (Ok (JObj [("package_exists", JBool true)])) env
      [upload_file_line pkg; ReadFile pkg;
       Request (upload_request w base token pkg i content); conflict_line].
Proof. intros Hreply. run_upload. rewrite Hreply. reflexivity. Qed.

(** Any other status than 200 and 409: the upload raises, with the status
    and the text of the body when the body is text. *)
Lemma upload_failure status body :
  upload_reply w = Responds status body ->
  status <> 200 -> status <> 409 ->
  result (_fleet_upload_package w base token pkg i env)
  = match decode body with
    | Ok text => Raise (ProcessorError (upload_failed status text))
    | Raise e => Raise e
    end.
Proof.
  intros Hreply H200 H409. run_upload. rewrite Hreply.
  apply Z.eqb_neq in H200, H409.
  destruct (PyStr.between 200 299 status); cbn; rewrite ?H200, ?H409;
    destruct body; reflexivity.
Qed.

End Upload.

(** * The run, from the upload step on *)

Section RunEnd.

Lemma append_assoc (a b c : string) : (a +:+ b) +:+ c = a +:+ b +:+ c.
Proof. induction a as [|x a IH]; [reflexivity|]. exact (f_equal (String x) IH). Qed.

Lemma append_empty_r (a : string) : a +:+ EmptyString = a.
Proof. induction a as [|x a IH]; [reflexivity|]. exact (f_equal (String x) IH). Qed.

Lemma upload_failed_shows status text :
  occurs_in (PyStr.of_int status) (upload_failed status text) /\
  occurs_in text (upload_failed status text).
Proof.
  unfold occurs_in, upload_failed. split.
  - exists "Fleet upload failed: ", (" " +:+ text). reflexivity.
  - exists ("Fleet upload failed: " +:+ PyStr.of_int status +:+ " "), EmptyString.
    rewrite append_empty_r, !append_assoc. reflexivity.
Qed.

Lemma calm_not_post evs : forallb calm evs = true -> existsb is_post evs = false.
Proof.
  induction evs as [|ev evs IH]; cbn; [reflexivity|].
  rewrite andb_true_iff. intros [Hev Hevs]. rewrite (IH Hevs), orb_false_r.
  destruct ev as [t a|t e|r|p]; cbn in Hev |- *; try reflexivity; try discriminate.
  apply negb_true_iff in Hev. exact Hev.
Qed.

Lemma post_is_upload_event evs :
  existsb is_post evs = true -> existsb upload_event evs = true.
Proof.
  induction evs as [|ev evs IH]; cbn; [discriminate|].
  rewrite !orb_true_iff. intros [Hev|Hevs]; [left|right; auto].
  destruct ev; cbn in Hev |- *; try discriminate; exact Hev.
Qed.

Lemma upload_line_is_upload_event evs :
  In upload_step_line evs -> existsb upload_event evs = true.
Proof.
  intros H. apply existsb_exists. exists upload_step_line. split; [exact H|reflexivity].
Qed.

Lemma trace_after {A} pre env (k : M A) : trace (after pre env k) = pre ++ trace (k env).
Proof. reflexivity. Qed.

Lemma result_after {A} pre env (k : M A) : result (after pre env k) = result (k env).
Proof. reflexivity. Qed.

Lemma env_after_after {A} pre env (k : M A) :
  env_after (after pre env k) = env_after (k env).
Proof. reflexivity. Qed.

(** A run that sent the upload request: the label lists were not both
    populated, and the rest of the run is the upload step. *)
Lemma run_that_posts w i :
  existsb is_post (trace (run w i)) = true ->
  exists content pre,
    fs_file w (resolved_path w i) = Some content /\
    nonempty (labels_include_any i) && nonempty (labels_exclude_any i) = false /\
    PyStr.printable (team_id i) = true /\
    Url.accepted
      (req_url (upload_request w (api_base i) (fleet_api_token i) (resolved_path w i) i
                  content)) = true /\
    run w i = after (pre ++ [upload_step_line]) ∅ (upload_step w i).
Proof.
  intros Hpost. unfold run in *.
  destruct (main_reaches_upload w i ∅ (post_is_upload_event _ Hpost))
    as (content & pre & Hfile & Hcalm & _ & _ & Hmain).
  exists content, pre. split; [exact Hfile|].
  rewrite Hmain, trace_after, !existsb_app, (calm_not_post _ Hcalm) in Hpost.
  revert Hpost. unfold upload_step. rewrite trace_andthen. intros Hpost.
  assert (Hlabels :
    nonempty (labels_include_any i) && nonempty (labels_exclude_any i) = false).
  { destruct (nonempty (labels_include_any i) && nonempty (labels_exclude_any i)) eqn:Hboth;
      [exfalso|reflexivity].
    revert Hpost. unfold _fleet_upload_package. rewrite Hboth. cbn. discriminate. }
  split; [exact Hlabels|].
  assert (Hteam : PyStr.printable (team_id i) = true).
  { destruct (PyStr.printable (team_id i)) eqn:Hteam; [reflexivity|exfalso].
    revert Hpost. rewrite (upload_rejects_team w _ _ _ i ∅ Hlabels Hteam).
    cbn. discriminate. }
  split; [exact Hteam|]. split; [|exact Hmain].
  destruct (Url.accepted
              (req_url (upload_request w (api_base i) (fleet_api_token i)
                          (resolved_path w i) i content))) eqn:Hurl;
    [reflexivity|exfalso].
  revert Hpost.
  rewrite (upload_rejects_url w _ _ _ i ∅ content Hlabels Hteam Hfile Hurl).
  cbn. discriminate.
Qed.

End RunEnd.

(** C5. When the upload request is answered with HTTP 409, the run ends
    without an exception; the title and installer identifiers are set to
    null and no hash output is set. *)
Theorem conflict_ends_run_gracefully (w : world) (i : inputs) (body : payload) :
  existsb is_post (trace (run w i)) = true ->
  upload_reply w = Responds 409 body ->
  result (run w i) = Ok tt /\
  env_after (run w i) !! "fleet_title_id" = Some JNull /\
  env_after (run w i) !! "fleet_installer_id" = Some JNull /\
  env_after (run w i) !! "hash_sha256" = None.
Proof.
  intros Hpost Hreply.
  destruct (run_that_posts w i Hpost) as (content & pre & Hfile & Hlabels & Hteam & Hurl & ->).
  rewrite result_after, env_after_after. unfold upload_step.
  rewrite result_andthen, env_after_andthen.
  rewrite (upload_conflict w _ _ _ i ∅ content Hlabels Hteam Hfile Hurl body Hreply).
  cbn [result env_after]. repeat split.
Qed.

Lemma conflict_ends_run_gracefully_witness :
  let w := sample_world (reports_version "4.74.0") (catalog [])
             (Responds 409 (Text "conflict" None)) in
  let i := sample_inputs ["workstations"] [] in
  result (run w i) = Ok tt /\
  env_after (run w i) !! "fleet_title_id" = Some JNull /\
  env_after (run w i) !! "fleet_installer_id" = Some JNull /\
  env_after (run w i) !! "hash_sha256" = None.
Proof.
  intros w i.
  apply (conflict_ends_run_gracefully w i (Text "conflict" None)).
  - vm_compute. reflexivity.
  - reflexivity.
Defined.




(** C1, as written, fails.  With both label lists populated, a run whose
    catalog search finds nothing ends with the configuration error only
    after the version probe and the catalog search have been sent; and a
    run whose catalog search finds the declared version ends without any
    error. *)
Lemma label_conflict_comes_after_network_calls :
  let i := sample_inputs ["workstations"] ["servers"] in
  let w := sample_world (reports_version "4.74.0") (catalog []) (Fails URLError) in
  let w' := sample_world (reports_version "4.74.0")
              (catalog [JObj [("name", JStr "Firefox"); ("versions", JArr [JStr "1.0"])]])
              (Fails URLError) in
  labels_include_any i <> [] /\ labels_exclude_any i <> [] /\
  result (run w i) = Raise (ProcessorError labels_error) /\
  filter is_request (trace (run w i))
    = [Request (version_request "https://fleet.example.com" "token");
       Request (search_request "https://fleet.example.com" "token" 3 "Firefox")] /\
  ~ label_conflict_raised_before_network w i /\
  result (run w' i) = Ok tt /\
  ~ label_conflict_raised_before_network w' i.
Proof.
  cbv zeta.
  split; [discriminate|]. split; [discriminate|].
  split; [vm_compute; reflexivity|]. split; [vm_compute; reflexivity|].
  split; [intros [_ H]; vm_compute in H; discriminate H|].
  split; [vm_compute; reflexivity|].
  intros [H _]. vm_compute in H. discriminate H.
Qed.

(** C1, amended.  With both label lists populated, [_fleet_upload_package]
    raises the configuration error right after its first log line: it reads
    no file, sends no request and sets no output variable.  So no run sends
    an upload request; and a run that reaches the upload step ends with that
    error, the output variables untouched and no file read, after the
    version probe and the catalog search have been sent. *)
Theorem label_conflict_is_raised_by_upload_step (w : world) (i : inputs) :
  labels_include_any i <> [] ->
  labels_exclude_any i <> [] ->
  (forall base token pkg env,
     _fleet_upload_package w base token pkg i env
     = mkOutcome (Raise (ProcessorError labels_error)) env [upload_file_line pkg]) /\
  existsb is_post (trace (run w i)) = false /\
  (In upload_step_line (trace (run w i)) ->
   result (run w i) = Raise (ProcessorError labels_error) /\
   env_after (run w i) = ∅ /\
   exists pre,
     trace (run w i) = pre ++ [upload_step_line; upload_file_line (resolved_path w i)] /\
     forallb calm pre = true /\
     In (Request (version_request (api_base i) (fleet_api_token i))) pre /\
     In (Request (search_request (api_base i) (fleet_api_token i) (team_id i)
                    (declared_title i))) pre).
Proof.
  intros Hinc Hexc.
  assert (Hup : forall base token pkg env,
             _fleet_upload_package w base token pkg i env
             = mkOutcome (Raise (ProcessorError labels_error)) env [upload_file_line pkg])
    by (intros; apply upload_rejects_label_conflict; assumption).
  split; [exact Hup|]. split.
  - destruct (existsb is_post (trace (run w i))) eqn:Hpost; [exfalso|reflexivity].
    destruct (run_that_posts w i Hpost) as (_ & _ & _ & Hlabels & _).
    destruct (labels_include_any i); [contradiction Hinc; reflexivity|].
    destruct (labels_exclude_any i); [contradiction Hexc; reflexivity|].
    discriminate Hlabels.
  - intros Hline. unfold run in *.
    destruct (main_reaches_upload w i ∅ (upload_line_is_upload_event _ Hline))
      as (content & pre & Hfile & Hcalm & Hprobe & Hsearch & ->).
    rewrite result_after, env_after_after, trace_after. unfold upload_step.
    rewrite result_andthen, env_after_andthen, trace_andthen, Hup.
    cbn [result env_after trace]. split; [reflexivity|]. split; [reflexivity|].
    exists pre. rewrite <- app_assoc. repeat split; assumption.
Qed.

Lemma label_conflict_is_raised_by_upload_step_witness :
  let i := sample_inputs ["workstations"] ["servers"] in
  let w := sample_world (reports_version "4.74.0") (catalog []) (Fails URLError) in
  existsb is_post (trace (run w i)) = false /\
  result (run w i) = Raise (ProcessorError labels_error) /\
  env_after (run w i) = ∅.
Proof.
  intros i w.
  assert (Hinc : labels_include_any i <> []) by discriminate.
  assert (Hexc : labels_exclude_any i <> []) by discriminate.
  destruct (label_conflict_is_raised_by_upload_step w i Hinc Hexc) as (_ & Hpost & Hrun).
  assert (Hline : In upload_step_line (trace (run w i))).
  { vm_compute. do 6 right. left. reflexivity. }
  destruct (Hrun Hline) as (Hres & Henv & _).
  repeat split; assumption.
Defined.

(** * The fallbacks of the two advisory steps *)

Section Fallbacks.

Lemma result_attempt {A} (m : M A) classes (h : exn -> M A) env :
  result (attempt m classes h env) =
  match result (m env) with
  | Ok a => Ok a
  | Raise e => if caught e classes then result (h e (env_after (m env))) else Raise e
  end.
Proof.
  unfold attempt. destruct (result (m env)) eqn:E; [exact E|].
  destruct (caught e classes); [reflexivity|exact E].
Qed.

Lemma result_urlopen r answer env :
  result (urlopen r answer env) =
  match answer with
  | Responds status body =>
      if PyStr.between 200 299 status then Ok (status, body)
      else Raise (HTTPError status body)
  | Fails e => Raise e
  end.
Proof.
  unfold urlopen. rewrite result_andthen. cbn [emit result env_after].
  destruct answer as [status body|e]; [|reflexivity].
  destruct (PyStr.between 200 299 status); reflexivity.
Qed.

Lemma result_new_request {A} r (f : request -> M A) env :
  Url.accepted (req_url r) = true ->
  result (andthen (lift (new_request r)) f env) = result (f r env).
Proof. intros H. rewrite (request_accepted r f env H). reflexivity. Qed.

(** Where the version probe does fall back to the minimum version, once
    its request is built: a failure of one of the four classes it catches
    (an HTTP status outside 200..299 is one), a status other than 200, a
    body that is no JSON, and an object whose version is missing or
    empty. *)
Lemma version_probe_falls_back w base token env :
  Url.accepted (req_url (version_request base token)) = true ->
  (forall e, version_reply w = Fails e -> caught e handled = true ->
     result (_get_fleet_version w base token env) = Ok FLEET_MINIMUM_VERSION) /\
  (forall status body, version_reply w = Responds status body -> status <> 200 ->
     result (_get_fleet_version w base token env) = Ok FLEET_MINIMUM_VERSION) /\
  (forall text, version_reply w = Responds 200 (Text text None) ->
     result (_get_fleet_version w base token env) = Ok FLEET_MINIMUM_VERSION) /\
  (forall text fields,
     version_reply w = Responds 200 (Text text (Some (JObj fields))) ->
     Py.truthy (field_or (JStr EmptyString) "version" fields) = false ->
     result (_get_fleet_version w base token env) = Ok FLEET_MINIMUM_VERSION) /\
  _is_fleet_minimum_supported FLEET_MINIMUM_VERSION = Ok true.
Proof.
  intros Hurl. unfold _get_fleet_version, handled.
  fold (version_request base token).
  split; [|split; [|split; [|split]]]; try reflexivity.
  - intros e Hreply Hcaught.
    rewrite result_andthen, result_attempt, (result_new_request _ _ _ Hurl),
      result_andthen, result_urlopen, Hreply, Hcaught.
    reflexivity.
  - intros status body Hreply Hstatus. apply Z.eqb_neq in Hstatus.
    rewrite result_andthen, result_attempt, (result_new_request _ _ _ Hurl),
      result_andthen, result_urlopen, Hreply.
    destruct (PyStr.between 200 299 status); [rewrite Hstatus|]; reflexivity.
  - intros text Hreply.
    rewrite result_andthen, result_attempt, (result_new_request _ _ _ Hurl),
      result_andthen, result_urlopen, Hreply.
    reflexivity.
  - intros text fields Hreply Hfalse.
    rewrite result_andthen, result_attempt, (result_new_request _ _ _ Hurl),
      result_andthen, result_urlopen, Hreply.
    change (PyStr.between 200 299 200) with true. cbv beta iota.
    change (200 =? 200) with true. cbv beta iota.
    rewrite result_andthen, result_lift. cbn [json_loads].
    rewrite result_andthen, result_lift, get_field, Hfalse.
    reflexivity.
Qed.

(** Where the existence check does report "not found" and lets the run go
    on, once its request is built: a failure of one of the four classes it
    catches, a status other than 200, and a body that is no JSON. *)
Lemma existence_check_falls_back w base token team title version env :
  search_sendable base token team title = true ->
  (forall e, search_reply w = Fails e -> caught e handled = true ->
     result (_check_existing_package w base token team title version env) = Ok None) /\
  (forall status body, search_reply w = Responds status body -> status <> 200 ->
     result (_check_existing_package w base token team title version env) = Ok None) /\
  (forall text, search_reply w = Responds 200 (Text text None) ->
     result (_check_existing_package w base token team title version env) = Ok None).
Proof.
  intros [Hteam Hurl]%andb_prop. unfold _check_existing_package, handled.
  rewrite (str_int_printable team Hteam).
  split; [|split].
  - intros e Hreply Hcaught.
    rewrite result_attempt, lift_ok. fold (search_request base token team title).
    rewrite (result_new_request _ _ _ Hurl), result_andthen, result_urlopen, Hreply, Hcaught.
    reflexivity.
  - intros status body Hreply Hstatus. apply Z.eqb_neq in Hstatus.
    rewrite result_attempt, lift_ok. fold (search_request base token team title).
    rewrite (result_new_request _ _ _ Hurl), result_andthen, result_urlopen, Hreply.
    destruct (PyStr.between 200 299 status); [rewrite Hstatus|]; reflexivity.
  - intros text Hreply.
    rewrite result_attempt, lift_ok. fold (search_request base token team title).
    rewrite (result_new_request _ _ _ Hurl), result_andthen, result_urlopen, Hreply.
    reflexivity.
Qed.

End Fallbacks.

(** C8. Answers to the version probe on which [_get_fleet_version] raises
    instead of falling back to the minimum version: a JSON body that is not
    an object, a version that is not a string, a body that is not UTF-8, a
    timeout while the response is read.  The exception is none of the four
    classes the probe catches, and the run ends with it. *)
Theorem version_probe_raises_on_unexpected_answer :
  let probe answer :=
    result (_get_fleet_version (sample_world answer (catalog []) (Fails URLError))
              "https://fleet.example.com" "token" ∅) in
  probe (Responds 200 (document (JArr []))) = Raise AttributeError /\
  probe (Responds 200 (document (JObj [("version", JNum 4)]))) = Raise AttributeError /\
  probe (Responds 200 not_utf8) = Raise UnicodeDecodeError /\
  probe (Fails TimeoutError) = Raise TimeoutError /\
  caught AttributeError [CHTTPError; CURLError; CJSONDecodeError; CKeyError] = false /\
  result (run (sample_world (Responds 200 (document (JArr []))) (catalog []) (Fails URLError))
            (sample_inputs [] []))
    = Raise AttributeError.
Proof. cbv zeta. repeat split; vm_compute; reflexivity. Qed.

(** C9. Answers to the catalog search on which [_check_existing_package]
    raises instead of reporting "not found": a JSON body that is not an
    object, a title list that is null, a title whose name is null, a body
    that is not UTF-8, a timeout while the response is read.  The run ends
    with the exception and never reaches the upload step. *)
Theorem existence_check_raises_on_unexpected_answer :
  let check answer :=
    result (_check_existing_package
              (sample_world (reports_version "4.74.0") answer (Fails URLError))
              "https://fleet.example.com" "token" 3 "Firefox" "1.0" ∅) in
  let w := sample_world (reports_version "4.74.0") (Responds 200 (document (JArr [])))
             (Responds 200 (document (JObj []))) in
  check (Responds 200 (document (JArr []))) = Raise AttributeError /\
  check (Responds 200 (document (JObj [("software_titles", JNull)]))) = Raise TypeError /\
  check (catalog [JObj [("name", JNull)]]) = Raise AttributeError /\
  check (Responds 200 not_utf8) = Raise UnicodeDecodeError /\
  check (Fails TimeoutError) = Raise TimeoutError /\
  result (run w (sample_inputs [] [])) = Raise AttributeError /\
  existsb upload_event (trace (run w (sample_inputs [] []))) = false.
Proof. cbv zeta. repeat split; vm_compute; reflexivity. Qed.

(** * Further properties of the gate *)

Section GateEdges.

Lemma split_parts_keep p sep s :
  all_chars p s = true ->
  Forall (fun part => all_chars p part = true) (PyStr.split sep s).
Proof.
  induction s as [|c s IH]; cbn [PyStr.split all_chars].
  - intros _. repeat constructor.
  - rewrite andb_true_iff. intros [Hc Hs]. specialize (IH Hs).
    destruct (Ascii.eqb c sep).
    + constructor; [reflexivity|exact IH].
    + destruct (PyStr.split sep s) as [|part parts]; inversion IH; subst;
        constructor; cbn [all_chars]; try rewrite Hc; auto.
Qed.

Lemma split_nonempty sep s : PyStr.split sep s <> [].
Proof.
  destruct s as [|c s]; cbn [PyStr.split]; [discriminate|].
  destruct (Ascii.eqb c sep); [discriminate|].
  destruct (PyStr.split sep s); discriminate.
Qed.

Lemma index0_split sep s :
  index (PyStr.split sep s) 0 = Ok (hd EmptyString (PyStr.split sep s)).
Proof.
  destruct (PyStr.split sep s) eqn:E; [destruct (split_nonempty sep s E)|reflexivity].
Qed.

Lemma hd_split_cons sep c s :
  Ascii.eqb c sep = false ->
  hd EmptyString (PyStr.split sep (String c s))
  = String c (hd EmptyString (PyStr.split sep s)).
Proof.
  intros Hc. cbn [PyStr.split]. rewrite Hc.
  destruct (PyStr.split sep s) eqn:E; [destruct (split_nonempty sep s E)|reflexivity].
Qed.

(** The first part of a split continues a separator-free prefix. *)
Lemma hd_split_app sep a b :
  all_chars (differs sep) a = true ->
  hd EmptyString (PyStr.split sep (a +:+ b))
  = a +:+ hd EmptyString (PyStr.split sep b).
Proof.
  induction a as [|c a IH]; cbn [all_chars]; [reflexivity|].
  rewrite andb_true_iff. unfold differs at 1. intros [Hc Ha].
  apply negb_true_iff in Hc.
  change (String c a +:+ b) with (String c (a +:+ b)).
  rewrite (hd_split_cons sep c _ Hc), (IH Ha). reflexivity.
Qed.

Lemma gate_by_triple v w t :
  parsed_triple v = Ok t -> parsed_triple w = Ok t ->
  _is_fleet_minimum_supported v = _is_fleet_minimum_supported w.
Proof.
  unfold parsed_triple, _is_fleet_minimum_supported.
  destruct (version_parts v) as [pv|]; [|discriminate].
  destruct (version_parts w) as [pw|]; [|discriminate].
  cbn [rbind]. intros -> ->. reflexivity.
Qed.

End GateEdges.

(** X1. Components after the patch are not looked at: for numerals X, Y,
    Z of no more than 4300 digits each (the limit of [int]), "X.Y.Z."
    followed by anything at all, numeric or not, is read as (X, Y, Z) and
    passes the gate exactly when "X.Y.Z" does. *)
Theorem gate_ignores_what_follows_the_patch (x y z : N) (rest : string) :
  within_digit_limit (numeral x) ->
  within_digit_limit (numeral y) ->
  within_digit_limit (numeral z) ->
  let dotted := numeral x +:+ "." +:+ numeral y +:+ "." +:+ numeral z in
  parsed_triple (dotted +:+ "." +:+ rest) = Ok (Z.of_N x, Z.of_N y, Z.of_N z) /\
  _is_fleet_minimum_supported (dotted +:+ "." +:+ rest) = _is_fleet_minimum_supported dotted.
Proof.
  intros Hx Hy Hz dotted.
  assert (Hdot : forall n, all_chars (differs ".") (numeral n) = true)
    by apply numeral_no_dot.
  assert (Hparsed : parsed_triple (dotted +:+ "." +:+ rest)
                    = Ok (Z.of_N x, Z.of_N y, Z.of_N z)).
  { unfold parsed_triple, version_parts.
    rewrite index0_split. cbn [rbind].
    rewrite (hd_split_app "-" dotted _ (dotted_no_dash x y z)).
    change ("." +:+ rest) with (String "." rest).
    rewrite (hd_split_cons "-" "." rest eq_refl).
    set (tail := hd EmptyString (PyStr.split "-" rest)).
    unfold dotted. rewrite !append_assoc.
    change ("." +:+ ?t) with (String "." t).
    rewrite (split_at_first "." (numeral x)) by apply Hdot.
    change ("." +:+ ?t) with (String "." t).
    rewrite (split_at_first "." (numeral y)) by apply Hdot.
    rewrite (split_at_first "." (numeral z)) by apply Hdot.
    unfold version_triple.
    cbn [index nth_error rbind length Nat.ltb Nat.leb].
    unfold numeral at 1 2 3.
    rewrite !int_of_int_natural by assumption. reflexivity. }
  split; [exact Hparsed|].
  apply (gate_by_triple _ _ _ Hparsed). apply parsed_dotted3; assumption.
Qed.

Lemma gate_ignores_what_follows_the_patch_witness :
  parsed_triple "4.73.9.2.beta" = Ok (4, 73, 9) /\
  _is_fleet_minimum_supported "4.73.9.2.beta" = _is_fleet_minimum_supported "4.73.9".
Proof.
  exact (gate_ignores_what_follows_the_patch 4 73 9 "2.beta" eq_refl eq_refl eq_refl).
Defined.

(** X2. The gate fails open on versions it cannot compare: a version whose
    part before the first dash has no dot passes whatever it says (a bare
    major number such as "3" passes), and so does every string that starts
    with a dash. *)
Theorem gate_passes_versions_without_a_dot (v : string) :
  (all_chars (differs ".") v = true -> _is_fleet_minimum_supported v = Ok true) /\
  _is_fleet_minimum_supported ("-" +:+ v) = Ok true /\
  _is_fleet_minimum_supported "3" = Ok true.
Proof.
  split; [|split; [|reflexivity]].
  - intros Hv.
    assert (Hraise : exists e, parsed_triple v = Raise e).
    { unfold parsed_triple, version_parts. rewrite index0_split. cbn [rbind].
      pose proof (split_parts_keep (differs ".") "-" v Hv) as Hparts.
      destruct (PyStr.split "-" v) as [|part parts] eqn:E;
        [destruct (split_nonempty "-" v E)|].
      inversion Hparts as [|? ? Hpart _]; subst. cbn [hd].
      rewrite (split_whole "." part Hpart).
      unfold version_triple. cbn [index nth_error rbind].
      destruct (PyStr.int part); cbn [rbind]; eauto. }
    destruct Hraise as (e & He). exact (gate_of_unparsed v e He).
  - change ("-" +:+ v) with (String "-" v). reflexivity.
Qed.

Lemma gate_passes_versions_without_a_dot_witness :
  _is_fleet_minimum_supported "unknown" = Ok true.
Proof. exact (proj1 (gate_passes_versions_without_a_dot "unknown") eq_refl). Defined.

(** * Methods by the events they produce *)

Section Only.

Context (P : event -> bool).

Lemma only_pure {A} (a : A) : only P (pure a).
Proof. intros env. split; reflexivity. Qed.

Lemma only_throw {A} e : only P (@throw A e).
Proof. intros env. split; reflexivity. Qed.

Lemma only_lift {A} (r : res A) : only P (lift r).
Proof. intros env. split; reflexivity. Qed.

Lemma only_emit ev : P ev = true -> only P (emit ev).
Proof. intros H env. split; [reflexivity|]. cbn. rewrite H. reflexivity. Qed.

Lemma only_output template args :
  P (Output template args) = true -> only P (output template args).
Proof. apply only_emit. Qed.

Lemma only_andthen {A B} (m : M A) (f : A -> M B) :
  only P m -> (forall a, only P (f a)) -> only P (andthen m f).
Proof.
  intros Hm Hf env. destruct (Hm env) as [Henv Htrace].
  rewrite env_after_andthen, trace_andthen, forallb_app, Htrace.
  destruct (result (m env)) as [a|e].
  - destruct (Hf a (env_after (m env))) as [Henv' Htrace'].
    rewrite Henv', Htrace', Henv. split; reflexivity.
  - split; [exact Henv|reflexivity].
Qed.

Lemma only_attempt {A} (m : M A) classes (h : exn -> M A) :
  only P m -> (forall e, only P (h e)) -> only P (attempt m classes h).
Proof.
  intros Hm Hh env. destruct (Hm env) as [Henv Htrace].
  unfold attempt. destruct (result (m env)) as [a|e]; [split; assumption|].
  destruct (caught e classes); [|split; assumption].
  destruct (Hh e (env_after (m env))) as [Henv' Htrace'].
  unfold continue. cbn [env_after trace].
  rewrite forallb_app, Htrace, Htrace', Henv', Henv. split; reflexivity.
Qed.

(** What follows [urlopen] decides what follows the request. *)
Lemma request_then_urlopen {A} r answer (k : Z * payload -> M A) :
  (forall a, only P (k a)) -> request_then P r (andthen (urlopen r answer) k).
Proof.
  intros Hk env. rewrite env_after_andthen, trace_andthen, result_urlopen.
  assert (Hopen : trace (urlopen r answer env) = [Request r]
                  /\ env_after (urlopen r answer env) = env).
  { unfold urlopen. rewrite trace_andthen, env_after_andthen. cbn [emit result env_after trace].
    destruct answer as [status body|e];
      [destruct (PyStr.between 200 299 status)|]; split; reflexivity. }
  destruct Hopen as [-> ->].
  destruct answer as [status body|e]; [destruct (PyStr.between 200 299 status)|].
  - destruct (Hk (status, body) env) as [-> Hrest]. split; [reflexivity|eauto].
  - split; [reflexivity|]. exists []. split; reflexivity.
  - split; [reflexivity|]. exists []. split; reflexivity.
Qed.

Lemma request_then_attempt {A} r (m : M A) classes (h : exn -> M A) :
  request_then P r m -> (forall e, only P (h e)) -> request_then P r (attempt m classes h).
Proof.
  intros Hm Hh env. destruct (Hm env) as (Henv & rest & Htrace & Hrest).
  unfold attempt. destruct (result (m env)) as [a|e]; [split; eauto|].
  destruct (caught e classes); [|split; eauto].
  unfold continue. cbn [env_after trace]. rewrite Henv.
  destruct (Hh e env) as [Henv' Htrace'].
  split; [exact Henv'|].
  exists (rest ++ trace (h e env)).
  rewrite Htrace, forallb_app, Hrest, Htrace'. split; reflexivity.
Qed.

Lemma request_then_andthen {A B} r (m : M A) (f : A -> M B) :
  request_then P r m -> (forall a, only P (f a)) -> request_then P r (andthen m f).
Proof.
  intros Hm Hf env. destruct (Hm env) as (Henv & rest & Htrace & Hrest).
  rewrite env_after_andthen, trace_andthen, Htrace, Henv.
  destruct (result (m env)) as [a|e].
  - destruct (Hf a env) as [Henv' Htrace'].
    split; [exact Henv'|].
    exists (rest ++ trace (f a env)).
    rewrite forallb_app, Hrest, Htrace'. split; reflexivity.
  - split; [reflexivity|]. exists rest. rewrite app_nil_r. split; [reflexivity|exact Hrest].
Qed.

Lemma request_then_lift_ok {A B} r (a : A) (f : A -> M B) :
  request_then P r (f a) -> request_then P r (andthen (lift (Ok a)) f).
Proof. intros Hf env. rewrite lift_ok. apply Hf. Qed.

(** Building the request comes first; it leaves no event. *)
Lemma request_then_new_request {A} r (f : request -> M A) :
  Url.accepted (req_url r) = true ->
  request_then P r (f r) -> request_then P r (andthen (lift (new_request r)) f).
Proof. intros H Hf env. rewrite (request_accepted r f env H). apply Hf. Qed.

Lemma only_new_request {A} r (f : request -> M A) :
  only P (f r) -> only P (andthen (lift (new_request r)) f).
Proof.
  intros Hf env. destruct (Url.accepted (req_url r)) eqn:E.
  - rewrite (request_accepted r f env E). apply Hf.
  - rewrite (request_rejected r f env E). split; reflexivity.
Qed.

End Only.

Create HintDb only.

(** Break a goal [only P m] down along the structure of [m]. *)
Ltac only_step :=
  first
    [ solve [auto 1 with only nocore]
    | apply only_pure | apply only_throw | apply only_lift
    | apply only_output; reflexivity
    | apply only_emit; reflexivity
    | apply only_new_request
    | apply only_andthen; [|intros ?]
    | apply only_attempt; [|intros ?]
    | match goal with
      | |- only _ (let '(_, _) := ?p in _) => destruct p
      | |- only _ (if ?b then _ else _) => destruct b
      | |- only _ (match ?x with _ => _ end) => destruct x
      end ].

Ltac only_auto := repeat only_step.

Section Probe.

Lemma forallb_no_event evs : forallb no_event evs = true -> evs = [].
Proof. destruct evs; [reflexivity|discriminate]. Qed.

Lemma hd_split_no_sep sep s :
  all_chars (differs sep) (hd EmptyString (PyStr.split sep s)) = true.
Proof.
  induction s as [|c s IH]; [reflexivity|].
  destruct (Ascii.eqb c sep) eqn:Hc.
  - cbn [PyStr.split]. rewrite Hc. reflexivity.
  - rewrite (hd_split_cons sep c s Hc). cbn [all_chars].
    unfold differs at 1. rewrite Hc, IH. reflexivity.
Qed.

(** The events of the version probe: its request when the URL has a
    scheme, none when it has not. *)
Lemma probe_events w base token env :
  trace (_get_fleet_version w base token env)
  = (if Url.accepted (req_url (version_request base token))
     then [Request (version_request base token)] else []) /\
  env_after (_get_fleet_version w base token env) = env.
Proof.
  destruct (Url.accepted (req_url (version_request base token))) eqn:Hurl.
  - assert (H : request_then no_event (version_request base token)
                  (_get_fleet_version w base token)).
    { unfold _get_fleet_version. fold (version_request base token).
      apply request_then_andthen; [|intros []; only_auto].
      apply request_then_attempt; [|intros; only_auto].
      apply request_then_new_request; [exact Hurl|].
      apply request_then_urlopen. intros [status body]. only_auto. }
    destruct (H env) as (Henv & rest & Htrace & Hrest).
    rewrite (forallb_no_event _ Hrest) in Htrace. split; assumption.
  - rewrite (get_fleet_version_rejected w base token env Hurl). split; reflexivity.
Qed.

End Probe.

(** X3. The version probe sends at most one request.  When the URL it
    builds has a scheme, it sends exactly the GET of
    [/api/v1/fleet/version] with the 30 second timeout; when the URL has
    none, [urllib.request.Request] raises [ValueError], which the probe
    does not catch, and nothing is sent.  Either way it logs nothing and
    sets no output variable, whatever the server answers. *)
Theorem version_probe_sends_one_request (w : world) (base token : string)
    (env : gmap string json) :
  let req := version_request base token in
  let o := _get_fleet_version w base token env in
  (Url.accepted (req_url req) = true -> trace o = [Request req]) /\
  (Url.accepted (req_url req) = false -> trace o = [] /\ result o = Raise ValueError) /\
  env_after o = env /\
  req_method req = GET /\
  req_url req = base +:+ "/api/v1/fleet/version" /\
  req_timeout req = 30.
Proof.
  cbv zeta. destruct (probe_events w base token env) as [Htrace Henv].
  split; [intros Hurl; rewrite Htrace, Hurl; reflexivity|].
  split; [|repeat split; exact Henv].
  intros Hurl. rewrite (get_fleet_version_rejected w base token env Hurl).
  split; reflexivity.
Qed.

Lemma version_probe_sends_one_request_witness :
  let w := sample_world (reports_version "4.74.0") (catalog []) (Fails URLError) in
  trace (_get_fleet_version w "https://fleet.example.com" "token" ∅)
  = [Request (version_request "https://fleet.example.com" "token")] /\
  trace (_get_fleet_version w "fleet.example.com" "token" ∅) = [] /\
  result (_get_fleet_version w "fleet.example.com" "token" ∅) = Raise ValueError.
Proof.
  intros w. split.
  - exact (proj1 (version_probe_sends_one_request w "https://fleet.example.com" "token" ∅)
             eq_refl).
  - exact (proj1 (proj2 (version_probe_sends_one_request w "fleet.example.com" "token" ∅))
             eq_refl).
Defined.

(** * Methods by what they return *)

Section Yields.

Lemma yields_pure {A} (P : A -> Prop) a : P a -> yields P (pure a).
Proof. intros H env a' [= <-]. exact H. Qed.

Lemma yields_throw {A} (P : A -> Prop) e : yields P (throw e).
Proof. intros env a. discriminate. Qed.

Lemma yields_lift {A} (P : A -> Prop) (r : res A) :
  (forall a, r = Ok a -> P a) -> yields P (lift r).
Proof. intros H env a Ha. apply H. exact Ha. Qed.

Lemma yields_andthen {A B} (Q : A -> Prop) (P : B -> Prop) (m : M A) (f : A -> M B) :
  yields Q m -> (forall a, Q a -> yields P (f a)) -> yields P (andthen m f).
Proof.
  intros Hm Hf env b. rewrite result_andthen.
  destruct (result (m env)) as [a|e] eqn:Ha; [|discriminate].
  apply (Hf a (Hm env a Ha)).
Qed.

Lemma yields_after {A B} (P : B -> Prop) (m : M A) (f : A -> M B) :
  (forall a, yields P (f a)) -> yields P (andthen m f).
Proof.
  intros Hf. apply (yields_andthen (fun _ => True)); [intros ? ? _; exact I|].
  intros a _. apply Hf.
Qed.

Lemma yields_attempt {A} (P : A -> Prop) (m : M A) classes (h : exn -> M A) :
  yields P m -> (forall e, yields P (h e)) -> yields P (attempt m classes h).
Proof.
  intros Hm Hh env a. rewrite result_attempt.
  destruct (result (m env)) as [a'|e] eqn:Ha.
  - intros [= <-]. exact (Hm env a' Ha).
  - destruct (caught e classes); [apply Hh|discriminate].
Qed.

End Yields.

(** X4. Whatever the version probe returns has no dash in it: it is the
    minimum version or the server's version cut at its first dash.  So the
    gate, which cuts at the first dash again, has nothing left to cut. *)
Theorem version_probe_returns_no_suffix (w : world) (base token : string)
    (env : gmap string json) (v : string) :
  result (_get_fleet_version w base token env) = Ok v ->
  all_chars (differs "-") v = true /\
  version_parts v = Ok (PyStr.split "." v).
Proof.
  intros Hv.
  assert (Hprobe : yields (fun v => all_chars (differs "-") v = true)
                     (_get_fleet_version w base token)).
  { unfold _get_fleet_version.
    apply (yields_andthen
             (fun inside => match inside with
                            | Some v => all_chars (differs "-") v = true
                            | None => True
                            end)).
    - apply yields_attempt; [|intros e; apply yields_pure; exact I].
      apply yields_after. intros req.
      apply yields_after. intros [status body].
      destruct (status =? 200); [|apply yields_pure; exact I].
      apply yields_after. intros data. apply yields_after. intros version.
      destruct (Py.truthy version); [|apply yields_pure; exact I].
      apply (yields_andthen (fun parts => exists s, parts = PyStr.split "-" s)).
      { apply yields_lift. intros parts. destruct version; try discriminate.
        intros [= <-]. eauto. }
      intros parts (s & ->).
      apply (yields_andthen (fun head => head = hd EmptyString (PyStr.split "-" s))).
      { apply yields_lift. intros head. rewrite index0_split. intros [= <-]. reflexivity. }
      intros head ->. apply yields_pure. apply hd_split_no_sep.
    - intros [inside|] Hinside; apply yields_pure; [exact Hinside|reflexivity]. }
  pose proof (Hprobe env v Hv) as Hdash. split; [exact Hdash|].
  unfold version_parts. rewrite (split_whole "-" v Hdash). reflexivity.
Qed.

Lemma version_probe_returns_no_suffix_witness :
  result (_get_fleet_version
            (sample_world (reports_version "4.75.2-rc1") (catalog []) (Fails URLError))
            "https://fleet.example.com" "token" ∅) = Ok "4.75.2" /\
  all_chars (differs "-") "4.75.2" = true.
Proof.
  split; [reflexivity|].
  exact (proj1 (version_probe_returns_no_suffix
                  (sample_world (reports_version "4.75.2-rc1") (catalog []) (Fails URLError))
                  "https://fleet.example.com" "token" ∅ "4.75.2" eq_refl)).
Defined.

(** X5. Once its request is sent (the URL has a scheme), the version
    probe falls back to the minimum version "4.74.0", which passes the
    gate, when the request fails with HTTPError, URLError, JSONDecodeError
    or KeyError (a status outside 200..299 is an HTTPError), when the
    status is not 200, when the body is no JSON, and when the object it
    holds has no version or an empty one. *)
Theorem version_probe_fallback (w : world) (base token : string) (env : gmap string json) :
  Url.accepted (req_url (version_request base token)) = true ->
  (forall e, version_reply w = Fails e -> caught e handled = true ->
     result (_get_fleet_version w base token env) = Ok FLEET_MINIMUM_VERSION) /\
  (forall status body, version_reply w = Responds status body -> status <> 200 ->
     result (_get_fleet_version w base token env) = Ok FLEET_MINIMUM_VERSION) /\
  (forall text, version_reply w = Responds 200 (Text text None) ->
     result (_get_fleet_version w base token env) = Ok FLEET_MINIMUM_VERSION) /\
  (forall text fields,
     version_reply w = Responds 200 (Text text (Some (JObj fields))) ->
     Py.truthy (field_or (JStr EmptyString) "version" fields) = false ->
     result (_get_fleet_version w base token env) = Ok FLEET_MINIMUM_VERSION) /\
  _is_fleet_minimum_supported FLEET_MINIMUM_VERSION = Ok true.
Proof. apply version_probe_falls_back. Qed.

Lemma version_probe_fallback_witness :
  let probe answer :=
    result (_get_fleet_version (sample_world answer (catalog []) (Fails URLError))
              "https://fleet.example.com" "token" ∅) in
  probe (Fails URLError) = Ok "4.74.0" /\
  probe (Responds 503 (Text "unavailable" None)) = Ok "4.74.0" /\
  probe (Responds 200 (Text "<html>" None)) = Ok "4.74.0" /\
  probe (Responds 200 (document (JObj [("build", JStr "x")]))) = Ok "4.74.0".
Proof.
  intros probe. unfold probe.
  pose (fact := fun answer =>
          version_probe_fallback (sample_world answer (catalog []) (Fails URLError))
            "https://fleet.example.com" "token" ∅ eq_refl).
  split; [|split; [|split]].
  - exact (proj1 (fact (Fails URLError)) URLError eq_refl eq_refl).
  - refine (proj1 (proj2 (fact (Responds 503 (Text "unavailable" None))))
              503 (Text "unavailable" None) eq_refl _). lia.
  - exact (proj1 (proj2 (proj2 (fact (Responds 200 (Text "<html>" None)))))
             "<html>" eq_refl).
  - exact (proj1 (proj2 (proj2 (proj2
             (fact (Responds 200 (document (JObj [("build", JStr "x")])))))))
             "(json)" [("build", JStr "x")] eq_refl eq_refl).
Defined.

(** X6. Once its request is sent (the team id can be printed and the URL
    has a scheme), the existence check reports "not found" without raising
    when the request fails with HTTPError, URLError, JSONDecodeError or
    KeyError (a status outside 200..299 is an HTTPError), when the status
    is not 200, and when the body is no JSON. *)
Theorem existence_check_fallback (w : world) (base token : string) (team : Z)
    (title version : string) (env : gmap string json) :
  search_sendable base token team title = true ->
  (forall e, search_reply w = Fails e -> caught e handled = true ->
     result (_check_existing_package w base token team title version env) = Ok None) /\
  (forall status body, search_reply w = Responds status body -> status <> 200 ->
     result (_check_existing_package w base token team title version env) = Ok None) /\
  (forall text, search_reply w = Responds 200 (Text text None) ->
     result (_check_existing_package w base token team title version env) = Ok None).
Proof. apply existence_check_falls_back. Qed.

Lemma existence_check_fallback_witness :
  let check answer :=
    result (_check_existing_package
              (sample_world (reports_version "4.74.0") answer (Fails URLError))
              "https://fleet.example.com" "token" 3 "Firefox" "1.0" ∅) in
  check (Fails URLError) = Ok None /\
  check (Responds 404 (Text "not found" None)) = Ok None /\
  check (Responds 200 (Text "<html>" None)) = Ok None.
Proof.
  intros check. unfold check.
  pose (fact := fun answer =>
          existence_check_fallback
            (sample_world (reports_version "4.74.0") answer (Fails URLError))
            "https://fleet.example.com" "token" 3 "Firefox" "1.0" ∅ eq_refl).
  split; [|split].
  - exact (proj1 (fact (Fails URLError)) URLError eq_refl eq_refl).
  - refine (proj1 (proj2 (fact (Responds 404 (Text "not found" None))))
              404 (Text "not found" None) eq_refl _). lia.
  - exact (proj2 (proj2 (fact (Responds 200 (Text "<html>" None)))) "<html>" eq_refl).
Defined.

(** * Further properties of the existence check *)

Section CheckEvents.

Lemma log_match_exact_or_caseless title titles :
  only is_log (match_exact_or_caseless title titles).
Proof.
  induction titles as [|c titles IH]; cbn [match_exact_or_caseless];
    only_auto; exact IH.
Qed.

Lemma log_match_fuzzy title titles : only is_log (match_fuzzy title titles).
Proof. induction titles as [|c titles IH]; cbn [match_fuzzy]; only_auto; exact IH. Qed.

Lemma log_log_no_match title titles : only is_log (log_no_match title titles).
Proof. induction titles as [|c titles IH]; cbn [log_no_match]; only_auto; exact IH. Qed.

Lemma log_scan_versions title software_title version versions :
  forall idx, only is_log (scan_versions title software_title version idx versions).
Proof.
  induction versions as [|ver versions IH]; intros idx; cbn [scan_versions];
    [apply only_pure|].
  apply only_andthen; [only_auto|].
  intros [ver_string|]; [destruct (Py.eq_str ver_string version)|];
    first [apply IH | only_auto].
Qed.

#[local] Hint Resolve log_match_exact_or_caseless log_match_fuzzy
  log_log_no_match log_scan_versions : only.

Lemma log_check_versions title software_title version :
  only is_log (check_versions title software_title version).
Proof. unfold check_versions, check_current_package. only_auto. Qed.

Lemma log_find_matching_title title software_titles :
  only is_log (find_matching_title title software_titles).
Proof. unfold find_matching_title. only_auto. Qed.

#[local] Hint Resolve log_check_versions log_find_matching_title : only.

Lemma check_request_then_logs w base token team title version :
  search_sendable base token team title = true ->
  request_then is_log (search_request base token team title)
    (_check_existing_package w base token team title version).
Proof.
  intros [Hteam Hurl]%andb_prop. unfold _check_existing_package.
  rewrite (str_int_printable team Hteam).
  apply request_then_attempt; [|intros; only_auto].
  apply request_then_lift_ok. fold (search_request base token team title).
  apply request_then_new_request; [exact Hurl|].
  apply request_then_urlopen. intros [status body]. only_auto.
Qed.

Lemma requests_of_logs logs : forallb is_log logs = true -> requests logs = [].
Proof.
  induction logs as [|ev logs IH]; [reflexivity|].
  cbn [forallb]. intros [Hev Hlogs]%andb_true_iff.
  cbn [requests flat_map]. destruct ev; try discriminate Hev; exact (IH Hlogs).
Qed.

End CheckEvents.

(** X7. The existence check sends at most one request.  When the team id
    can be printed and the URL it builds has a scheme, it sends exactly the
    GET of the title search for the team with the title URL-quoted and the
    30 second timeout, and that request comes first; after it the check
    only writes log lines.  When the team id has more digits than [str]
    prints, or the URL has no scheme ([urllib.request.Request] refuses
    it), the check ends with [ValueError], which it does not catch, and
    nothing is sent or logged.  Either way it reads no file and sets no
    output variable, whatever the server answers. *)
Theorem existence_check_sends_one_request (w : world) (base token : string) (team : Z)
    (title version : string) (env : gmap string json) :
  let req := search_request base token team title in
  let o := _check_existing_package w base token team title version env in
  (PyStr.printable team = true -> Url.accepted (req_url req) = true ->
   (exists logs, trace o = Request req :: logs /\ forallb is_log logs = true) /\
   requests (trace o) = [req]) /\
  (PyStr.printable team = false \/ Url.accepted (req_url req) = false ->
   trace o = [] /\ result o = Raise ValueError) /\
  env_after o = env /\
  req_url req
  = base +:+ "/api/v1/fleet/software/titles?available_for_install=true&team_id="
    +:+ PyStr.of_int team +:+ "&query=" +:+ Enc.quote title.
Proof.
  intros req o.
  assert (Hsent : search_sendable base token team title = true ->
                  env_after o = env /\
                  exists logs, trace o = Request req :: logs /\ forallb is_log logs = true).
  { intros Hok.
    destruct (check_request_then_logs w base token team title version Hok env)
      as (Henv & logs & Htrace & Hlogs).
    split; [exact Henv|eauto]. }
  assert (Hnot : search_sendable base token team title = false ->
                 o = mkOutcome (Raise ValueError) env [])
    by apply check_existing_package_rejected.
  split; [|split; [|split; [|reflexivity]]].
  - intros Hteam Hurl.
    destruct Hsent as (_ & logs & Htrace & Hlogs);
      [unfold search_sendable; fold req; rewrite Hteam, Hurl; reflexivity|].
    split; [eauto|].
    rewrite Htrace. cbn [requests flat_map app]. f_equal.
    exact (requests_of_logs logs Hlogs).
  - intros Hno. rewrite Hnot; [split; reflexivity|].
    unfold search_sendable. fold req.
    destruct Hno as [-> | ->]; [reflexivity|apply andb_false_r].
  - destruct (search_sendable base token team title) eqn:Hok.
    + exact (proj1 (Hsent eq_refl)).
    + rewrite (Hnot eq_refl). reflexivity.
Qed.

Lemma existence_check_sends_one_request_witness :
  let w := sample_world (reports_version "4.74.0") (catalog []) (Fails URLError) in
  requests (trace (_check_existing_package w "https://fleet.example.com" "token" 3
                     "Firefox" "1.0" ∅))
  = [search_request "https://fleet.example.com" "token" 3 "Firefox"] /\
  trace (_check_existing_package w "fleet.example.com" "token" 3 "Firefox" "1.0" ∅) = [] /\
  result (_check_existing_package w "fleet.example.com" "token" 3 "Firefox" "1.0" ∅)
  = Raise ValueError.
Proof.
  intros w. split.
  - exact (proj2 (proj1 (existence_check_sends_one_request w "https://fleet.example.com"
                           "token" 3 "Firefox" "1.0" ∅) eq_refl eq_refl)).
  - exact (proj1 (proj2 (existence_check_sends_one_request w "fleet.example.com"
                           "token" 3 "Firefox" "1.0" ∅)) (or_intror eq_refl)).
Defined.

Section CheckResults.

Variables (software_title version : string).

Lemma scan_versions_yields title versions :
  forall idx,
    yields (reported_hit version) (scan_versions title software_title version idx versions).
Proof.
  induction versions as [|ver versions IH]; intros idx; cbn [scan_versions].
  - apply yields_pure. exact I.
  - apply yields_after. intros [ver_string|]; [|apply IH].
    destruct (Py.eq_str ver_string version) eqn:E; [|apply IH].
    apply eq_str_true in E. subst ver_string.
    apply yields_after. intros hash. apply yields_after. intros preview.
    apply yields_after. intros _. apply yields_pure. cbn. eauto.
Qed.

Lemma check_current_package_yields title :
  yields (reported_hit version) (check_current_package title software_title version).
Proof.
  unfold check_current_package. apply yields_after. intros sw_package.
  destruct (Py.truthy sw_package); [|apply yields_pure; exact I].
  apply yields_after. intros pkg_version.
  destruct (Py.eq_str pkg_version version) eqn:E; [|apply yields_pure; exact I].
  apply eq_str_true in E. subst pkg_version.
  apply yields_after. intros hash. apply yields_after. intros preview.
  apply yields_after. intros _. apply yields_after. intros name.
  apply yields_pure. cbn. eauto.
Qed.

Lemma check_versions_yields title :
  yields (reported_hit version) (check_versions title software_title version).
Proof.
  unfold check_versions. apply yields_after. intros versions.
  apply (yields_andthen (reported_hit version)).
  - destruct (Py.truthy versions); [|apply yields_pure; exact I].
    apply yields_after. intros n. apply yields_after. intros name.
    apply yields_after. intros _. apply yields_after. intros items.
    apply scan_versions_yields.
  - intros [info|] Hinfo; [apply yields_pure; exact Hinfo|].
    apply (yields_andthen (reported_hit version));
      [apply check_current_package_yields|].
    intros [info|] Hcurrent; [apply yields_pure; exact Hcurrent|].
    apply yields_after. intros name. apply yields_after. intros _.
    apply yields_pure. exact I.
Qed.

End CheckResults.

(** X8. Whenever the existence check reports a hit, the hit is a record
    with the three fields version, hash_sha256 and package_name, and its
    version is the declared version; so the hit is never an empty record
    and [main] always takes it as "exists". *)
Theorem existence_hit_carries_declared_version (w : world) (base token : string)
    (team : Z) (title version : string) (env : gmap string json) (info : json) :
  result (_check_existing_package w base token team title version env) = Ok (Some info) ->
  (exists hash name, info = package_info (JStr version) hash name) /\
  Py.truthy info = true.
Proof.
  intros Hhit.
  assert (Hcheck : yields (reported_hit version)
                     (_check_existing_package w base token team title version)).
  { unfold _check_existing_package. apply yields_attempt.
    - apply yields_after. intros team_text. apply yields_after. intros req.
      apply yields_after. intros [status body].
      destruct (status =? 200); [|apply yields_pure; exact I].
      apply yields_after. intros data. apply yields_after. intros software_titles.
      apply yields_after. intros n. apply yields_after. intros _.
      apply yields_after. intros matching_title.
      destruct (negb (Py.truthy_opt matching_title)).
      + apply yields_after. intros _. apply yields_pure. exact I.
      + destruct matching_title; [apply check_versions_yields|apply yields_pure; exact I].
    - intros e. apply yields_after. intros _. apply yields_pure. exact I. }
  pose proof (Hcheck env (Some info) Hhit) as (hash & name & ->).
  split; [eauto|reflexivity].
Qed.

Lemma existence_hit_carries_declared_version_witness :
  exists hash name,
    package_info (JStr "1.0") JNull (JStr "Firefox") = package_info (JStr "1.0") hash name.
Proof.
  exact (proj1 (existence_hit_carries_declared_version
     (sample_world (reports_version "4.74.0")
        (catalog [JObj [("name", JStr "Firefox"); ("versions", JArr [JStr "1.0"])]])
        (Fails URLError))
     "https://fleet.example.com" "token" 3 "Firefox" "1.0" ∅
     (package_info (JStr "1.0") JNull (JStr "Firefox")) eq_refl)).
Defined.

Section MatchingOrder.

Lemma lower_empty s : PyStr.lower s = EmptyString -> s = EmptyString.
Proof. destruct s; [reflexivity|discriminate]. Qed.

Lemma prefix_refl s : String.prefix s s = true.
Proof.
  induction s as [|c s IH]; [reflexivity|].
  cbn [String.prefix]. destruct (ascii_dec c c); [exact IH|contradiction].
Qed.

Lemma contains_refl s : PyStr.contains s s = true.
Proof. destruct s; cbn [PyStr.contains]; rewrite prefix_refl; reflexivity. Qed.

(** A candidate that matches ignoring case is a fuzzy hit as well. *)
Lemma caseless_hit_is_fuzzy title c : caseless_hit title c = true -> fuzzy_hit title c = true.
Proof.
  unfold caseless_hit, fuzzy_hit. destruct (name_of c) as [n|]; [|discriminate].
  intros H. apply String.eqb_eq in H. rewrite H, contains_refl. reflexivity.
Qed.

(** For a title that is not empty, a candidate that matches ignoring case
    is a record with at least one field. *)
Lemma caseless_hit_truthy title c :
  title <> EmptyString -> caseless_hit title c = true -> Py.truthy c = true.
Proof.
  intros Htitle. unfold caseless_hit.
  destruct c as [|b|n|s|items|[|kv fields]]; try discriminate; [|reflexivity].
  cbn. destruct (PyStr.lower title) eqn:E; [|discriminate].
  apply lower_empty in E. contradiction.
Qed.

Lemma log_no_match_result title titles env :
  readable_names titles -> result (log_no_match title titles env) = Ok tt.
Proof.
  intros Hwf. revert env. induction Hwf as [|c titles (n & Hn) _ IH]; intros env;
    [reflexivity|].
  cbn [log_no_match].
  rewrite result_andthen, result_lift, (name_of_get _ _ Hn).
  rewrite result_andthen, result_output. apply IH.
Qed.

End MatchingOrder.

(** X9. For a declared title that is not empty and candidates whose names
    are strings or missing, the title the two loops select is the first
    candidate whose name equals the title ignoring case, and when there is
    none, the first candidate whose name contains the title or is contained
    in it, ignoring case; when there is none either, no title is selected. *)
Theorem matching_title_is_first_caseless_else_first_fuzzy
    (title : string) (titles : list json) (env : gmap string json) :
  title <> EmptyString ->
  readable_names titles ->
  result (find_matching_title title (JArr titles) env)
  = Ok (match find (caseless_hit title) titles with
        | Some c => Some c
        | None => find (fuzzy_hit title) titles
        end).
Proof.
  intros Htitle Hwf. rewrite find_matching_title_result by exact Hwf. cbv zeta.
  destruct (find (caseless_hit title) titles) as [c|] eqn:Hfirst.
  - apply find_some in Hfirst as [_ Hhit].
    cbn [Py.truthy_opt]. rewrite (caseless_hit_truthy title c Htitle Hhit). reflexivity.
  - cbn [Py.truthy_opt negb andb].
    destruct titles as [|c titles]; [reflexivity|]. cbn [nonempty].
    destruct (find (fuzzy_hit title) (c :: titles)); reflexivity.
Qed.

Lemma matching_title_is_first_caseless_else_first_fuzzy_witness :
  result (find_matching_title "Zoom"
            (JArr [candidate "Slack" 1; candidate "zoom.us" 2; candidate "ZOOM" 3]) ∅)
  = Ok (Some (candidate "ZOOM" 3)) /\
  result (find_matching_title "Zoom" (JArr [candidate "Slack" 1; candidate "zoom.us" 2]) ∅)
  = Ok (Some (candidate "zoom.us" 2)).
Proof.
  assert (Htitle : "Zoom" <> EmptyString) by discriminate.
  split.
  - refine (matching_title_is_first_caseless_else_first_fuzzy "Zoom"
              [candidate "Slack" 1; candidate "zoom.us" 2; candidate "ZOOM" 3] ∅ Htitle _).
    repeat constructor; eexists; reflexivity.
  - refine (matching_title_is_first_caseless_else_first_fuzzy "Zoom"
              [candidate "Slack" 1; candidate "zoom.us" 2] ∅ Htitle _).
    repeat constructor; eexists; reflexivity.
Defined.

(** X10. When the search request is sent (the team id can be printed, the
    URL has a scheme) and the catalog search answers 200 with an object whose title list consists of
    records whose name is a string or missing, none of which has a name
    that contains the declared title or is contained in it, ignoring case
    (the list may be empty or missing), the existence check reports "not
    found" without raising. *)
Theorem no_fuzzy_hit_reports_not_found (w : world) (base token : string) (team : Z)
    (title version text : string) (fields : list (string * json)) (titles : list json)
    (env : gmap string json) :
  search_sendable base token team title = true ->
  search_reply w = Responds 200 (Text text (Some (JObj fields))) ->
  field_or (JArr []) "software_titles" fields = JArr titles ->
  readable_names titles ->
  Forall (fun c => fuzzy_hit title c = false) titles ->
  result (_check_existing_package w base token team title version env) = Ok None.
Proof.
  intros [Hteam Hurl]%andb_prop Hreply Hfield Hwf Hnone.
  assert (Hfuzzy : find (fuzzy_hit title) titles = None) by (apply find_none, Hnone).
  assert (Hcaseless : find (caseless_hit title) titles = None).
  { apply find_none. eapply Forall_impl; [exact Hnone|]. cbv beta.
    intros c Hc. destruct (caseless_hit title c) eqn:E; [|reflexivity].
    rewrite (caseless_hit_is_fuzzy title c E) in Hc. discriminate Hc. }
  unfold _check_existing_package. rewrite (str_int_printable team Hteam).
  rewrite result_attempt, lift_ok. fold (search_request base token team title).
  rewrite (result_new_request _ _ _ Hurl), result_andthen, result_urlopen, Hreply.
  change (PyStr.between 200 299 200) with true. cbv beta iota.
  change (200 =? 200) with true. cbv beta iota.
  rewrite result_andthen, result_lift. cbn [json_loads].
  rewrite result_andthen, result_lift, get_field, Hfield.
  rewrite result_andthen, result_lift. cbn [Py.len].
  rewrite result_andthen, result_output.
  rewrite result_andthen, find_matching_title_result by exact Hwf.
  rewrite Hcaseless, Hfuzzy. cbv zeta.
  replace (if negb (Py.truthy_opt None) && nonempty titles then None else None)
    with (@None json) by (destruct (negb (Py.truthy_opt None) && nonempty titles); reflexivity).
  cbn [Py.truthy_opt negb]. rewrite result_andthen.
  destruct titles as [|c titles]; [reflexivity|]. cbn [Py.truthy].
  rewrite result_andthen, result_lift. cbn [Py.iter].
  rewrite log_no_match_result by exact Hwf. reflexivity.
Qed.

Lemma no_fuzzy_hit_reports_not_found_witness :
  result (_check_existing_package
            (sample_world (reports_version "4.74.0")
               (catalog [candidate "Chrome" 1; candidate "Safari" 2]) (Fails URLError))
            "https://fleet.example.com" "token" 3 "Firefox" "1.0" ∅) = Ok None /\
  result (_check_existing_package
            (sample_world (reports_version "4.74.0")
               (Responds 200 (document (JObj []))) (Fails URLError))
            "https://fleet.example.com" "token" 3 "Firefox" "1.0" ∅) = Ok None.
Proof.
  split.
  - refine (no_fuzzy_hit_reports_not_found
              (sample_world (reports_version "4.74.0")
                 (catalog [candidate "Chrome" 1; candidate "Safari" 2]) (Fails URLError))
              "https://fleet.example.com" "token" 3 "Firefox" "1.0" "(json)"
              [("software_titles", JArr [candidate "Chrome" 1; candidate "Safari" 2])]
              [candidate "Chrome" 1; candidate "Safari" 2] ∅ eq_refl eq_refl eq_refl _ _).
    + repeat constructor; eexists; reflexivity.
    + repeat constructor.
  - refine (no_fuzzy_hit_reports_not_found
              (sample_world (reports_version "4.74.0")
                 (Responds 200 (document (JObj []))) (Fails URLError))
              "https://fleet.example.com" "token" 3 "Firefox" "1.0" "(json)" [] [] ∅
              eq_refl eq_refl eq_refl _ _); constructor.
Defined.

(** * The run, stage by stage *)

Section Stages.

Lemma after_keeps {A B} pre env (m : M A) (f : A -> M B) :
  env_after (m env) = env ->
  after pre env (andthen m f) =
  match result (m env) with
  | Ok a => after (pre ++ trace (m env)) env (f a)
  | Raise e => mkOutcome (Raise e) env (pre ++ trace (m env))
  end.
Proof.
  intros Henv. unfold after, continue, andthen. cbn [env_after trace result].
  destruct (result (m env)) as [a|e]; unfold continue; cbn [env_after trace result];
    rewrite Henv; [rewrite app_assoc|]; reflexivity.
Qed.

Lemma after_lift {A B} pre env (r : res A) (f : A -> M B) :
  after pre env (andthen (lift r) f) =
  match r with
  | Ok a => after pre env (f a)
  | Raise e => mkOutcome (Raise e) env pre
  end.
Proof.
  rewrite after_keeps by reflexivity. cbn [lift result trace]. rewrite app_nil_r.
  reflexivity.
Qed.

Lemma main_unfold w i env : main w i env = main_shape w i env.
Proof.
  rewrite <- (after_nil (main w i) env).
  unfold main, main_shape. fold (resolved_path w i).
  destruct (fs_file w (resolved_path w i)) as [content|] eqn:Hfile; [|reflexivity].
  fold (api_base i) (declared_title i) (declared_version i).
  rewrite after_output.
  rewrite after_keeps by apply quiet_get_fleet_version.
  destruct (result (_get_fleet_version w (api_base i) (fleet_api_token i) env))
    as [fleet_version|e]; [|reflexivity].
  rewrite after_output, after_lift.
  destruct (_is_fleet_minimum_supported fleet_version) as [[|]|e];
    [| unfold after, continue, throw; cbn [negb result env_after trace];
       rewrite app_nil_r; reflexivity
     | reflexivity].
  cbn [negb]. rewrite after_output.
  rewrite after_keeps by apply quiet_check_existing_package.
  destruct (result (_check_existing_package w (api_base i) (fleet_api_token i) (team_id i)
                      (declared_title i) (declared_version i) env))
    as [existing|e].
  - destruct (Py.truthy_opt existing).
    + unfold _calculate_file_sha256, read_file. rewrite Hfile.
      unfold after, continue, andthen, output, emit, set_env, pure.
      cbn [result env_after trace]. rewrite <- !app_assoc. reflexivity.
    + rewrite after_output. unfold upload_step_line, upload_step.
      rewrite <- !app_assoc. reflexivity.
  - rewrite <- !app_assoc. reflexivity.
Qed.

End Stages.

Section RunFacts.

Lemma requests_app a b : requests (a ++ b) = requests a ++ requests b.
Proof. unfold requests. apply flat_map_app. Qed.

Lemma request_then_requests {A} req (m : M A) env :
  request_then is_log req m -> requests (trace (m env)) = [req] /\ env_after (m env) = env.
Proof.
  intros Hm. destruct (Hm env) as (Henv & logs & -> & Hlogs).
  split; [|exact Henv].
  cbn [requests flat_map]. fold (requests logs). rewrite (requests_of_logs _ Hlogs).
  reflexivity.
Qed.

Lemma probe_trace w base token env :
  Url.accepted (req_url (version_request base token)) = true ->
  trace (_get_fleet_version w base token env) = [Request (version_request base token)].
Proof.
  intros Hurl. rewrite (proj1 (probe_events w base token env)), Hurl. reflexivity.
Qed.

Lemma check_requests w base token team title version env :
  requests (trace (_check_existing_package w base token team title version env))
  = if search_sendable base token team title
    then [search_request base token team title] else [].
Proof.
  destruct (search_sendable base token team title) eqn:Hok.
  - apply request_then_requests, check_request_then_logs, Hok.
  - rewrite (check_existing_package_rejected w base token team title version env Hok).
    reflexivity.
Qed.

(** The upload method leaves the output variables alone. *)
Lemma upload_keeps_env w base token pkg i env :
  env_after (_fleet_upload_package w base token pkg i env) = env.
Proof.
  assert (H : only any_event (_fleet_upload_package w base token pkg i)).
  { unfold _fleet_upload_package, read_file, urlopen. only_auto. }
  apply H.
Qed.

Lemma read_file_some w path content env :
  fs_file w path = Some content ->
  read_file w path env = mkOutcome (Ok content) env [ReadFile path].
Proof. intros H. unfold read_file. rewrite H. reflexivity. Qed.

Lemma upload_requests w base token pkg i env :
  requests (trace (_fleet_upload_package w base token pkg i env))
  = upload_sent w base token pkg i.
Proof.
  unfold upload_sent.
  destruct (nonempty (labels_include_any i) && nonempty (labels_exclude_any i)) eqn:Hlabels;
    [unfold _fleet_upload_package; rewrite Hlabels; reflexivity|].
  destruct (PyStr.printable (team_id i)) eqn:Hteam; cbn [negb];
    [|rewrite (upload_rejects_team w base token pkg i env Hlabels Hteam); reflexivity].
  destruct (fs_file w pkg) as [content|] eqn:Hfile.
  - destruct (Url.accepted (req_url (upload_request w base token pkg i content))) eqn:Hurl;
      [|rewrite (upload_rejects_url w base token pkg i env content Hlabels Hteam Hfile Hurl);
        reflexivity].
    unfold _fleet_upload_package. rewrite Hlabels, (str_int_printable _ Hteam).
    rewrite trace_andthen, requests_app. cbn [output emit result trace env_after].
    cbn [requests flat_map app]. rewrite lift_ok.
    rewrite trace_andthen, requests_app, (read_file_some w pkg content env Hfile).
    cbn [result trace env_after]. cbn [requests flat_map app].
    fold (upload_request w base token pkg i content).
    match goal with
    | |- requests (trace (?m env)) = _ =>
        assert (H : request_then is_log (upload_request w base token pkg i content) m)
    end.
    { apply request_then_new_request; [exact Hurl|].
      apply request_then_andthen.
      - apply request_then_attempt.
        + apply request_then_urlopen. intros [status body]. only_auto.
        + intros e. only_auto.
      - intros a. only_auto. }
    apply (request_then_requests _ _ env H).
  - unfold _fleet_upload_package. rewrite Hlabels, (str_int_printable _ Hteam).
    rewrite trace_andthen, requests_app. cbn [output emit result trace env_after].
    rewrite lift_ok, trace_andthen. unfold read_file. rewrite Hfile. reflexivity.
Qed.

(** One step of a run: the projections of a bind are split, the
    combinators that cannot fail are evaluated. *)
Ltac run_step :=
  repeat (progress
    (rewrite ?result_andthen, ?env_after_andthen, ?trace_andthen;
     unfold lift, output, emit, set_env, pure, throw;
     cbn [result env_after trace app];
     cbv beta iota)).

(** What [report_upload] leaves behind: log lines only; both identifiers
    set when it returns, nothing set when it raises. *)
Lemma report_upload_facts upload_info env :
  forallb is_log (trace (report_upload upload_info env)) = true /\
  match result (report_upload upload_info env) with
  | Ok _ =>
      is_Some (env_after (report_upload upload_info env) !! "fleet_title_id") /\
      is_Some (env_after (report_upload upload_info env) !! "fleet_installer_id")
  | Raise _ => env_after (report_upload upload_info env) = env
  end.
Proof.
  unfold report_upload.
  destruct (Py.truthy upload_info); cbn [negb]; [|split; reflexivity].
  run_step.
  destruct (Py.get upload_info "package_exists" JNull) as [package_exists|e];
    [|split; reflexivity].
  destruct (Py.truthy package_exists).
  { run_step. split; [reflexivity|].
    split; rewrite ?lookup_insert_ne by discriminate; rewrite lookup_insert_eq; eauto. }
  run_step.
  destruct (Py.get upload_info "software_package" (JObj [])) as [software_package|e];
    [|split; reflexivity].
  run_step.
  destruct (Py.get software_package "title_id" JNull) as [title_id|e];
    [|split; reflexivity].
  run_step.
  destruct (Py.get software_package "installer_id" JNull) as [installer_id|e];
    [|split; reflexivity].
  run_step.
  destruct (Py.get software_package "hash_sha256" JNull) as [hash_sha256|e];
    [|split; reflexivity].
  run_step.
  destruct (Py.truthy hash_sha256); run_step; (split; [reflexivity|]);
    split; rewrite ?lookup_insert_ne by discriminate; rewrite lookup_insert_eq; eauto.
Qed.

(** The same for the whole upload step. *)
Lemma upload_step_facts w i env :
  requests (trace (upload_step w i env))
  = upload_sent w (api_base i) (fleet_api_token i) (resolved_path w i) i /\
  match result (upload_step w i env) with
  | Ok _ =>
      is_Some (env_after (upload_step w i env) !! "fleet_title_id") /\
      is_Some (env_after (upload_step w i env) !! "fleet_installer_id")
  | Raise _ => env_after (upload_step w i env) = env
  end.
Proof.
  unfold upload_step.
  rewrite trace_andthen, result_andthen, env_after_andthen, requests_app, upload_requests,
    upload_keeps_env.
  destruct (result (_fleet_upload_package w (api_base i) (fleet_api_token i)
                      (resolved_path w i) i env)) as [upload_info|e].
  - destruct (report_upload_facts upload_info env) as [Hlogs Henv].
    rewrite (requests_of_logs _ Hlogs), app_nil_r. split; [reflexivity|exact Henv].
  - rewrite app_nil_r. split; reflexivity.
Qed.

End RunFacts.

(** X11. A run never sends more than three requests and always in the same
    order: the version probe, then the catalog search, then the upload.
    It sends none when the package file is missing or when the URL of the
    probe has no scheme (the run then ends with [ValueError]); otherwise
    the requests sent are the probe alone, the probe and the search, or
    all three, the upload carrying the bytes of the package file. *)
Theorem run_sends_requests_in_order (w : world) (i : inputs) :
  let probe := version_request (api_base i) (fleet_api_token i) in
  let search :=
    search_request (api_base i) (fleet_api_token i) (team_id i) (declared_title i) in
  let sent := requests (trace (run w i)) in
  (fs_file w (resolved_path w i) = None -> sent = []) /\
  (Url.accepted (req_url probe) = false -> sent = []) /\
  (forall content,
     fs_file w (resolved_path w i) = Some content ->
     Url.accepted (req_url probe) = false ->
     result (run w i) = Raise ValueError) /\
  (forall content,
     fs_file w (resolved_path w i) = Some content ->
     Url.accepted (req_url probe) = true ->
     sent = [probe] \/ sent = [probe; search] \/
     sent = [probe; search;
             upload_request w (api_base i) (fleet_api_token i) (resolved_path w i) i content]).
Proof.
  cbv zeta. unfold run. rewrite main_unfold. unfold main_shape.
  split; [intros ->; reflexivity|].
  split; [|split].
  - intros Hurl. destruct (fs_file w (resolved_path w i)); [|reflexivity].
    rewrite (get_fleet_version_rejected w _ _ ∅ Hurl). reflexivity.
  - intros content -> Hurl.
    rewrite (get_fleet_version_rejected w _ _ ∅ Hurl). reflexivity.
  - intros content Hfile Hurl. rewrite Hfile.
    rewrite (probe_trace w _ _ ∅ Hurl).
    destruct (result (_get_fleet_version w (api_base i) (fleet_api_token i) ∅))
      as [fleet_version|e]; cbn [trace]; [|left; reflexivity].
    destruct (_is_fleet_minimum_supported fleet_version) as [[|]|e]; cbn [trace];
      [|left; reflexivity ..].
    pose proof (check_requests w (api_base i) (fleet_api_token i) (team_id i)
                  (declared_title i) (declared_version i) ∅) as Hcheck.
    destruct (result (_check_existing_package w (api_base i) (fleet_api_token i) (team_id i)
                        (declared_title i) (declared_version i) ∅)) as [existing|e] eqn:Hres;
      cbn [trace].
    + pose proof (check_existing_package_returned _ _ _ _ _ _ _ _ Hres) as Hok.
      rewrite Hok in Hcheck. apply andb_prop in Hok as [Hteam _].
      destruct (Py.truthy_opt existing); cbn [trace].
      * right. left. rewrite !requests_app. cbn [app requests flat_map].
        fold (requests (trace (_check_existing_package w (api_base i) (fleet_api_token i)
                                 (team_id i) (declared_title i) (declared_version i) ∅))).
        rewrite Hcheck. reflexivity.
      * rewrite trace_after, !requests_app. cbn [app requests flat_map].
        fold (requests (trace (_check_existing_package w (api_base i) (fleet_api_token i)
                                 (team_id i) (declared_title i) (declared_version i) ∅))).
        fold (requests (trace (upload_step w i ∅))).
        rewrite Hcheck. destruct (upload_step_facts w i ∅) as [-> _].
        unfold upload_sent, upload_step_line. rewrite Hteam, Hfile. cbn [app negb].
        destruct (nonempty (labels_include_any i) && nonempty (labels_exclude_any i));
          [right; left; reflexivity|].
        destruct (Url.accepted
                    (req_url (upload_request w (api_base i) (fleet_api_token i)
                                (resolved_path w i) i content)));
          [right; right|right; left]; reflexivity.
    + rewrite !requests_app. cbn [app requests flat_map].
      fold (requests (trace (_check_existing_package w (api_base i) (fleet_api_token i)
                               (team_id i) (declared_title i) (declared_version i) ∅))).
      rewrite Hcheck.
      destruct (search_sendable (api_base i) (fleet_api_token i) (team_id i)
                  (declared_title i));
        [right; left|left]; reflexivity.
Qed.

Lemma run_sends_requests_in_order_witness :
  let w := sample_world (reports_version "4.73.0") (catalog []) (Fails URLError) in
  let i := sample_inputs [] [] in
  requests (trace (run w i)) = [version_request "https://fleet.example.com" "token"].
Proof.
  intros w i.
  destruct (proj2 (proj2 (proj2 (run_sends_requests_in_order w i))) "PKG" eq_refl eq_refl)
    as [H|[H|H]].
  - exact H.
  - vm_compute in H. discriminate H.
  - vm_compute in H. discriminate H.
Defined.

(** X12. The output variables are set only by a run that succeeds: a run
    that ends with an exception, whichever it is, has set none, and a run
    that returns has set both fleet_title_id and fleet_installer_id. *)
Theorem outputs_are_set_only_on_success (w : world) (i : inputs) :
  (forall e, result (run w i) = Raise e -> env_after (run w i) = ∅) /\
  (result (run w i) = Ok tt ->
   is_Some (env_after (run w i) !! "fleet_title_id") /\
   is_Some (env_after (run w i) !! "fleet_installer_id")).
Proof.
  unfold run. rewrite main_unfold. unfold main_shape.
  destruct (fs_file w (resolved_path w i)) as [content|];
    [|split; [reflexivity|discriminate]].
  destruct (result (_get_fleet_version w (api_base i) (fleet_api_token i) ∅))
    as [fleet_version|e]; [|split; [reflexivity|discriminate]].
  destruct (_is_fleet_minimum_supported fleet_version) as [[|]|e];
    [|split; [reflexivity|discriminate] ..].
  destruct (result (_check_existing_package w (api_base i) (fleet_api_token i) (team_id i)
                      (declared_title i) (declared_version i) ∅)) as [existing|e];
    [|split; [reflexivity|discriminate]].
  destruct (Py.truthy_opt existing).
  - split; [discriminate|]. intros _. cbn [env_after].
    split; rewrite ?lookup_insert_ne by discriminate; rewrite lookup_insert_eq; eauto.
  - rewrite result_after, env_after_after.
    destruct (upload_step_facts w i ∅) as [_ Hstep].
    destruct (result (upload_step w i ∅)) as [[]|e].
    + split; [discriminate|]. intros _. exact Hstep.
    + split; [intros _ _; exact Hstep|discriminate].
Qed.

Lemma outputs_are_set_only_on_success_witness :
  env_after (run (sample_world (reports_version "4.74.0") (catalog [])
                    (Responds 500 (Text "server error" None)))
               (sample_inputs [] [])) = ∅.
Proof.
  refine (proj1 (outputs_are_set_only_on_success _ _)
            (ProcessorError "Fleet upload failed: 500 server error") _).
  vm_compute. reflexivity.
Defined.

Section RunBranches.

Lemma existence_check_yields w base token team title version :
  yields (reported_hit version) (_check_existing_package w base token team title version).
Proof.
  unfold _check_existing_package. apply yields_attempt.
  - apply yields_after. intros team_text. apply yields_after. intros req.
    apply yields_after. intros [status body].
    destruct (status =? 200); [|apply yields_pure; exact I].
    apply yields_after. intros data. apply yields_after. intros software_titles.
    apply yields_after. intros n. apply yields_after. intros _.
    apply yields_after. intros matching_title.
    destruct (negb (Py.truthy_opt matching_title)).
    + apply yields_after. intros _. apply yields_pure. exact I.
    + destruct matching_title; [apply check_versions_yields|apply yields_pure; exact I].
  - intros e. apply yields_after. intros _. apply yields_pure. exact I.
Qed.

Lemma unsupported_message_shows v :
  occurs_in v (unsupported_message v) /\
  occurs_in FLEET_MINIMUM_VERSION (unsupported_message v).
Proof.
  unfold occurs_in, unsupported_message. split.
  - exists "Fleet version ". eexists. reflexivity.
  - exists ("Fleet version " +:+ v +:+ " is not supported. "
            +:+ "This processor requires Fleet v").
    eexists. rewrite !append_assoc. reflexivity.
Qed.

End RunBranches.

(** X13. When the probed version fails the gate, the run ends with a
    ProcessorError whose message names the detected version and the
    required version "4.74.0"; the probe is the only request sent, and no
    output variable is set. *)
Theorem gate_failure_aborts_after_probe
    (w : world) (i : inputs) (content fleet_version : string) :
  fs_file w (resolved_path w i) = Some content ->
  result (_get_fleet_version w (api_base i) (fleet_api_token i) ∅) = Ok fleet_version ->
  _is_fleet_minimum_supported fleet_version = Ok false ->
  result (run w i) = Raise (ProcessorError (unsupported_message fleet_version)) /\
  occurs_in fleet_version (unsupported_message fleet_version) /\
  occurs_in FLEET_MINIMUM_VERSION (unsupported_message fleet_version) /\
  requests (trace (run w i)) = [version_request (api_base i) (fleet_api_token i)] /\
  env_after (run w i) = ∅.
Proof.
  intros Hfile Hprobe Hgate. unfold run. rewrite main_unfold. unfold main_shape.
  rewrite Hfile, Hprobe, Hgate. cbn [result env_after trace].
  destruct (unsupported_message_shows fleet_version) as [Hv Hmin].
  repeat split; try assumption.
  rewrite probe_trace by exact (get_fleet_version_returned _ _ _ _ _ Hprobe).
  reflexivity.
Qed.

Lemma gate_failure_aborts_after_probe_witness :
  let w := sample_world (reports_version "4.73.9") (catalog []) (Fails URLError) in
  let i := sample_inputs [] [] in
  result (run w i) = Raise (ProcessorError (unsupported_message "4.73.9")) /\
  requests (trace (run w i)) = [version_request "https://fleet.example.com" "token"].
Proof.
  intros w i.
  destruct (gate_failure_aborts_after_probe w i "PKG" "4.73.9" eq_refl eq_refl eq_refl)
    as (Hres & _ & _ & Hreq & _).
  split; assumption.
Defined.



Section UploadAnswers.

Variables (w : world) (base token pkg : string) (i : inputs) (env : gmap string json).
Variable content : string.
Hypothesis labels_ok : nonempty (labels_include_any i) && nonempty (labels_exclude_any i) = false.
Hypothesis team_ok : PyStr.printable (team_id i) = true.
Hypothesis file_ok : fs_file w pkg = Some content.
Hypothesis url_ok : Url.accepted (req_url (upload_request w base token pkg i content)) = true.

Ltac run_upload :=
  unfold _fleet_upload_package, read_file;
  rewrite labels_ok, (str_int_printable _ team_ok), file_ok;
  cbv beta iota zeta delta
    [andthen attempt continue urlopen emit output pure throw lift new_request
     result env_after trace app];
  change (Url.accepted (req_url _)) with
    (Url.accepted (req_url (upload_request w base token pkg i content)));
  rewrite url_ok; cbv beta iota.

(** HTTP 200: the upload returns what the body holds. *)
Lemma upload_answer_200 body :
  upload_reply w = Responds 200 body ->
  result (_fleet_upload_package w base token pkg i env) = loads_or_empty w body.
Proof.
  intros Hreply. run_upload. rewrite Hreply.
  change (PyStr.between 200 299 200) with true. cbv beta iota.
  change (negb (200 =? 200)) with false. cbv beta iota.
  destruct (loads_or_empty w body); reflexivity.
Qed.

(** A failure that is no HTTPError passes through the upload. *)
Lemma upload_transport_failure e :
  upload_reply w = Fails e -> caught e [CHTTPError] = false ->
  result (_fleet_upload_package w base token pkg i env) = Raise e.
Proof.
  intros Hreply Hcaught. run_upload. rewrite Hreply. cbv beta iota.
  rewrite Hcaught. reflexivity.
Qed.

End UploadAnswers.

Section Reports.

(** [report_upload] on an object that is no conflict marker. *)
Lemma report_upload_success fields package env :
  fields <> [] ->
  Py.truthy (field_or JNull "package_exists" fields) = false ->
  field_or (JObj []) "software_package" fields = JObj package ->
  let hash := field_or JNull "hash_sha256" package in
  let env' := <["fleet_installer_id" := field_or JNull "installer_id" package]>
                (<["fleet_title_id" := field_or JNull "title_id" package]> env) in
  result (report_upload (JObj fields) env) = Ok tt /\
  env_after (report_upload (JObj fields) env)
  = (if Py.truthy hash then <["hash_sha256" := hash]> env' else env').
Proof.
  intros Hfields Hexists Hpackage hash env'. unfold report_upload.
  destruct fields as [|kv fields]; [contradiction|]. cbn [Py.truthy negb].
  rewrite result_andthen, env_after_andthen, result_lift, env_after_lift, get_field, Hexists.
  rewrite result_andthen, env_after_andthen, result_lift, env_after_lift, get_field, Hpackage.
  rewrite result_andthen, env_after_andthen, result_lift, env_after_lift, get_field.
  rewrite result_andthen, env_after_andthen, result_lift, env_after_lift, get_field.
  rewrite result_andthen, env_after_andthen, result_lift, env_after_lift, get_field.
  fold hash.
  unfold andthen, continue, output, emit, set_env, pure. cbn [result env_after trace].
  destruct (Py.truthy hash); split; reflexivity.
Qed.

End Reports.

(** X15. When the upload is answered with HTTP 200 and the body holds a
    JSON object that is not empty, carries no package_exists marker and
    whose software_package is a record or missing, the run returns and
    sets fleet_title_id and fleet_installer_id from that record (null for
    a field, or the whole record, that is missing); hash_sha256 is set to
    the reported hash only when there is one. *)
Theorem successful_upload_reports_identifiers
    (w : world) (i : inputs) (body : payload) (fields package : list (string * json)) :
  existsb is_post (trace (run w i)) = true ->
  upload_reply w = Responds 200 body ->
  loads_or_empty w body = Ok (JObj fields) ->
  fields <> [] ->
  Py.truthy (field_or JNull "package_exists" fields) = false ->
  field_or (JObj []) "software_package" fields = JObj package ->
  let hash := field_or JNull "hash_sha256" package in
  result (run w i) = Ok tt /\
  env_after (run w i) !! "fleet_title_id" = Some (field_or JNull "title_id" package) /\
  env_after (run w i) !! "fleet_installer_id"
  = Some (field_or JNull "installer_id" package) /\
  env_after (run w i) !! "hash_sha256" = (if Py.truthy hash then Some hash else None).
Proof.
  intros Hpost Hreply Hloads Hfields Hexists Hpackage hash.
  destruct (run_that_posts w i Hpost) as (content & pre & Hfile & Hlabels & Hteam & Hurl & ->).
  rewrite result_after, env_after_after. unfold upload_step.
  rewrite result_andthen, env_after_andthen, upload_keeps_env.
  rewrite (upload_answer_200 w _ _ _ i ∅ content Hlabels Hteam Hfile Hurl _ Hreply), Hloads.
  destruct (report_upload_success fields package ∅ Hfields Hexists Hpackage) as [-> ->].
  fold hash. split; [reflexivity|].
  destruct (Py.truthy hash).
  - split; [rewrite !lookup_insert_ne by discriminate; apply lookup_insert_eq|].
    split; [rewrite lookup_insert_ne by discriminate; apply lookup_insert_eq|].
    apply lookup_insert_eq.
  - split; [rewrite lookup_insert_ne by discriminate; apply lookup_insert_eq|].
    split; [apply lookup_insert_eq|].
    rewrite !lookup_insert_ne by discriminate. apply lookup_empty.
Qed.

Lemma successful_upload_reports_identifiers_witness :
  let answer :=
    [("software_package",
      JObj [("title_id", JNum 12); ("installer_id", JNum 34);
            ("hash_sha256", JStr "feedface")])] in
  let w := sample_world (reports_version "4.74.0") (catalog [])
             (Responds 200 (document (JObj answer))) in
  let i := sample_inputs [] [] in
  result (run w i) = Ok tt /\
  env_after (run w i) !! "fleet_title_id" = Some (JNum 12) /\
  env_after (run w i) !! "fleet_installer_id" = Some (JNum 34) /\
  env_after (run w i) !! "hash_sha256" = Some (JStr "feedface").
Proof.
  intros answer w i.
  assert (Hpost : existsb is_post (trace (run w i)) = true) by (vm_compute; reflexivity).
  assert (Hfields : answer <> []) by discriminate.
  exact (successful_upload_reports_identifiers w i (document (JObj answer)) answer
           [("title_id", JNum 12); ("installer_id", JNum 34);
            ("hash_sha256", JStr "feedface")]
           Hpost eq_refl eq_refl Hfields eq_refl eq_refl).
Defined.

(** X16. When the upload is answered with HTTP 200 and a body that holds
    nothing (an empty body, which is read as an empty object, or JSON that
    counts as false such as an empty object or null), the run ends with
    the ProcessorError "Fleet package upload failed; no data returned". *)
Theorem empty_upload_answer_is_fatal
    (w : world) (i : inputs) (body : payload) (upload_info : json) :
  existsb is_post (trace (run w i)) = true ->
  upload_reply w = Responds 200 body ->
  loads_or_empty w body = Ok upload_info ->
  Py.truthy upload_info = false ->
  result (run w i)
  = Raise (ProcessorError "Fleet package upload failed; no data returned") /\
  loads_or_empty w (Text EmptyString None) = Ok (JObj []).
Proof.
  intros Hpost Hreply Hloads Hfalse.
  destruct (run_that_posts w i Hpost) as (content & pre & Hfile & Hlabels & Hteam & Hurl & ->).
  rewrite result_after. unfold upload_step.
  rewrite result_andthen.
  rewrite (upload_answer_200 w _ _ _ i ∅ content Hlabels Hteam Hfile Hurl _ Hreply), Hloads.
  unfold report_upload. rewrite Hfalse. split; reflexivity.
Qed.

Lemma empty_upload_answer_is_fatal_witness :
  let w := sample_world (reports_version "4.74.0") (catalog [])
             (Responds 200 (Text EmptyString None)) in
  result (run w (sample_inputs [] []))
  = Raise (ProcessorError "Fleet package upload failed; no data returned").
Proof.
  intros w.
  assert (Hpost : existsb is_post (trace (run w (sample_inputs [] []))) = true)
    by (vm_compute; reflexivity).
  exact (proj1 (empty_upload_answer_is_fatal w (sample_inputs [] [])
                  (Text EmptyString None) (JObj []) Hpost eq_refl eq_refl eq_refl)).
Defined.

(** X17. A failure of the upload request that is no HTTPError (a URLError,
    a timeout) is not caught: the run ends with that very exception. *)
Theorem upload_transport_failure_is_fatal (w : world) (i : inputs) (e : exn) :
  existsb is_post (trace (run w i)) = true ->
  upload_reply w = Fails e ->
  caught e [CHTTPError] = false ->
  result (run w i) = Raise e /\ env_after (run w i) = ∅.
Proof.
  intros Hpost Hreply Hcaught.
  destruct (run_that_posts w i Hpost) as (content & pre & Hfile & Hlabels & Hteam & Hurl & ->).
  rewrite result_after, env_after_after. unfold upload_step.
  rewrite result_andthen, env_after_andthen, upload_keeps_env.
  rewrite (upload_transport_failure w _ _ _ i ∅ content Hlabels Hteam Hfile Hurl e Hreply
             Hcaught).
  split; reflexivity.
Qed.

Lemma upload_transport_failure_is_fatal_witness :
  let w := sample_world (reports_version "4.74.0") (catalog []) (Fails URLError) in
  result (run w (sample_inputs [] [])) = Raise URLError.
Proof.
  intros w.
  assert (Hpost : existsb is_post (trace (run w (sample_inputs [] []))) = true)
    by (vm_compute; reflexivity).
  exact (proj1 (upload_transport_failure_is_fatal w (sample_inputs [] []) URLError
                  Hpost eq_refl eq_refl)).
Defined.

Section Escaping.

Lemma code_bounds c : 0 <= PyStr.code c < 256.
Proof.
  unfold PyStr.code. pose proof (N_ascii_bounded c). lia.
Qed.

Lemma hex_digit_unquoted n : 0 <= n < 16 -> Enc.unquoted (Enc.hex_digit n) = true.
Proof.
  intros Hn.
  assert (Hcases : In n [0; 1; 2; 3; 4; 5; 6; 7; 8; 9; 10; 11; 12; 13; 14; 15])
    by (cbn [In]; lia).
  cbn [In] in Hcases.
  repeat (destruct Hcases as [<-|Hcases]; [reflexivity|]). contradiction.
Qed.

Lemma percent_escaped b : 0 <= b < 256 -> all_chars escaped_char (Enc.percent b) = true.
Proof.
  intros Hb. unfold Enc.percent. cbn [all_chars]. unfold escaped_char at 2 3.
  rewrite !hex_digit_unquoted; [reflexivity| |].
  - pose proof (Z.mod_pos_bound b 16). lia.
  - split; [apply Z.div_pos; lia|apply Z.div_lt_upper_bound; lia].
Qed.

Lemma utf8_char_bytes c : Forall (fun b => 0 <= b < 256) (Enc.utf8_char c).
Proof.
  unfold Enc.utf8_char. pose proof (code_bounds c) as Hc. cbv zeta.
  destruct (PyStr.code c <? 128) eqn:E.
  - repeat constructor; lia.
  - apply Z.ltb_ge in E.
    pose proof (Z.mod_pos_bound (PyStr.code c) 64).
    assert (PyStr.code c / 64 < 4) by (apply Z.div_lt_upper_bound; lia).
    assert (0 <= PyStr.code c / 64) by (apply Z.div_pos; lia).
    repeat constructor; lia.
Qed.

Lemma escapes_escaped bs :
  Forall (fun b => 0 <= b < 256) bs ->
  all_chars escaped_char (String.concat EmptyString (map Enc.percent bs)) = true.
Proof.
  induction 1 as [|b bs Hb _ IH]; [reflexivity|].
  cbn [map String.concat].
  destruct (map Enc.percent bs) as [|p ps] eqn:E.
  - apply percent_escaped, Hb.
  - change (all_chars escaped_char (Enc.percent b +:+ (EmptyString +:+ String.concat EmptyString (p :: ps))) = true).
    rewrite all_chars_app, percent_escaped by exact Hb. exact IH.
Qed.

Lemma quote_escaped s : all_chars escaped_char (Enc.quote s) = true.
Proof.
  induction s as [|c s IH]; [reflexivity|].
  cbn [Enc.quote]. rewrite all_chars_app, IH, andb_true_r.
  destruct (Enc.unquoted c) eqn:E.
  - cbn [all_chars]. unfold escaped_char. rewrite E. reflexivity.
  - apply escapes_escaped, utf8_char_bytes.
Qed.

Lemma quote_plain s : all_chars Enc.unquoted s = true -> Enc.quote s = s.
Proof.
  induction s as [|c s IH]; [reflexivity|].
  cbn [all_chars Enc.quote]. intros [Hc Hs]%andb_prop. rewrite Hc, (IH Hs). reflexivity.
Qed.

End Escaping.



(** X19. The catalog search puts the declared title into its URL
    percent-escaped: what follows "&query=" consists only of letters,
    digits, the characters _ . - ~ / and percent escapes, so no character
    of the title (a space, &, =, #, ?) can end the parameter or add
    another one; a title made of unreserved characters only is sent as it
    is. *)
Theorem search_query_is_percent_escaped
    (fleet_api_base fleet_token : string) (team_id : Z) (software_title : string) :
  req_url (search_request fleet_api_base fleet_token team_id software_title)
  = search_prefix fleet_api_base team_id +:+ Enc.quote software_title /\
  all_chars escaped_char (Enc.quote software_title) = true /\
  (all_chars Enc.unquoted software_title = true ->
   Enc.quote software_title = software_title).
Proof.
  split; [|split; [apply quote_escaped|apply quote_plain]].
  unfold search_request, search_prefix. cbn [req_url].
  rewrite !append_assoc. reflexivity.
Qed.

Lemma search_query_is_percent_escaped_witness :
  Enc.quote "Firefox-ESR_115.0" = "Firefox-ESR_115.0".
Proof.
  exact (proj2 (proj2 (search_query_is_percent_escaped "https://fleet.example.com" "token" 3
                         "Firefox-ESR_115.0")) eq_refl).
Defined.
